(** * sociopath: profile adapters, link filters and the per-domain rate limiter

    A shallow embedding of the Go sources

      - package cache    : DomainRateLimiter (Wait, extractDomain)
      - package github   : Match, Fetch, parseJSON, dedupeLinks,
                           filterSamePlatformLinks and the HTML extractors
      - package generic  : Match, Fetch, validateURL, dedupeLinks
      - package codeberg : Match, Fetch, parseHTML, extractUsername
      - command extract-cookies : the table of platforms and extractCookies

    Go strings are byte sequences and are modelled by [string] (one [ascii]
    per byte).  Functions of the Go standard library whose behaviour is a
    table or a parser of its own (Unicode case mapping, net/url, net.ParseIP,
    regexp, encoding/json, html) and packages of the repository that the
    adapters only call (htmlutil, cache.FetchURL) are Section variables: every
    theorem holds for all of their behaviours.

    Part I holds the definitions, Part II the lemmas and theorems, Part III
    further properties of the same code. *)

From Stdlib Require Import ZArith String Ascii List Bool Lia DecimalString QArith.
From stdpp Require Import gmap strings list.

Open Scope string_scope.
Open Scope Z_scope.

(* ===================================================================== *)
(** * Part I.  Definitions                                                *)
(* ===================================================================== *)

(** ** Go errors and (value, error) results *)

Definition error := string.

Inductive Result (A : Type) : Type :=
| Ok (a : A)
| Err (e : error).
Arguments Ok {A} a.
Arguments Err {A} e.

(** ** Package strings (the byte-level functions the adapters use) *)

Module GoStrings.

Definition len (s : string) : Z := Z.of_nat (String.length s).

Fixpoint dropBytes (n : nat) (s : string) : string :=
  match n, s with
  | O, _ => s
  | S n', String _ s' => dropBytes n' s'
  | S _, EmptyString => EmptyString
  end.

Fixpoint takeBytes (n : nat) (s : string) : string :=
  match n, s with
  | O, _ => EmptyString
  | S n', String c s' => String c (takeBytes n' s')
  | S _, EmptyString => EmptyString
  end.

(** [s[i:]] and [s[:j]].  Go panics when the bound is outside [0, len s];
    every slice taken by the modelled code is in range. *)
Definition sliceFrom (s : string) (i : Z) : string := dropBytes (Z.to_nat i) s.
Definition sliceTo (s : string) (j : Z) : string := takeBytes (Z.to_nat j) s.

(** strings.HasPrefix: len(s) >= len(prefix) && s[:len(prefix)] == prefix *)
Definition HasPrefix (s prefix : string) : bool :=
  (len prefix <=? len s) && String.eqb (sliceTo s (len prefix)) prefix.

(** strings.HasSuffix: len(s) >= len(suffix) && s[len(s)-len(suffix):] == suffix *)
Definition HasSuffix (s suffix : string) : bool :=
  (len suffix <=? len s) && String.eqb (sliceFrom s (len s - len suffix)) suffix.

Definition TrimPrefix (s prefix : string) : string :=
  if HasPrefix s prefix then sliceFrom s (len prefix) else s.

Definition TrimSuffix (s suffix : string) : string :=
  if HasSuffix s suffix then sliceTo s (len s - len suffix) else s.

(** strings.Index: the byte offset of the first occurrence, or -1. *)
Fixpoint indexFrom (i : Z) (s substr : string) : Z :=
  if HasPrefix s substr then i
  else match s with
       | EmptyString => -1
       | String _ s' => indexFrom (i + 1) s' substr
       end.

Definition Index (s substr : string) : Z := indexFrom 0 s substr.

Definition Contains (s substr : string) : bool := 0 <=? Index s substr.

(** strings.Join *)
Fixpoint Join (elems : list string) (sep : string) : string :=
  match elems with
  | [] => EmptyString
  | [e] => e
  | e :: rest => e ++ sep ++ Join rest sep
  end.

Definition byteOf (c : ascii) : Z := Z.of_N (N_of_ascii c).

Definition isUpperASCII (c : ascii) : bool :=
  (65 <=? byteOf c) && (byteOf c <=? 90).

Definition lowerByte (c : ascii) : ascii :=
  if isUpperASCII c then ascii_of_N (N_of_ascii c + 32) else c.

Fixpoint mapBytes (f : ascii -> ascii) (s : string) : string :=
  match s with
  | EmptyString => EmptyString
  | String c s' => String (f c) (mapBytes f s')
  end.

(** no byte >= utf8.RuneSelf (0x80) *)
Fixpoint isASCII (s : string) : bool :=
  match s with
  | EmptyString => true
  | String c s' => (byteOf c <? 128) && isASCII s'
  end.

Fixpoint hasUpper (s : string) : bool :=
  match s with
  | EmptyString => false
  | String c s' => isUpperASCII c || hasUpper s'
  end.

Section ToLower.
(** [strings.Map(unicode.ToLower, s)], the path strings.ToLower takes for
    a string with a byte >= 0x80: it depends on the Unicode tables. *)
Variable mapUnicodeToLower : string -> string.

(** strings.ToLower: ASCII-only strings are lowered byte by byte (and
    returned as they are when they hold no upper-case letter). *)
Definition ToLower (s : string) : string :=
  if isASCII s then
    if hasUpper s then mapBytes lowerByte s else s
  else mapUnicodeToLower s.
(** Two properties of the Unicode path that statements about repeated
    lowering rest on: lowering what it returned changes nothing, and a
    string it leaves unchanged stays so when its final slash is cut off (it
    maps rune by rune). *)
Definition unicodeLowerIdempotent : Prop :=
  forall s, isASCII s = false -> ToLower (mapUnicodeToLower s) = mapUnicodeToLower s.

Definition unicodeLowerCutsSlash : Prop :=
  forall t, isASCII t = false ->
            mapUnicodeToLower (t ++ "/") = t ++ "/" -> mapUnicodeToLower t = t.
End ToLower.

End GoStrings.

(** strconv.Itoa *)
Definition Itoa (n : Z) : string := NilZero.string_of_int (Z.to_int n).

(** ** Package profile *)

Module profile.

(** The struct of profile.go, field by field. *)
Record Profile := {
  Platform : string;
  URL : string;
  Authenticated : bool;
  Username : string;
  Name : string;
  Bio : string;
  Location : string;
  Website : string;
  Fields : gmap string string;
  SocialLinks : list string;
  Unstructured : string;
  IsGuess : bool;
  Confidence : Q;
  GuessMatch : list string
}.

(** The zero value of the struct with the fields the adapters set in their
    composite literal; [Fields] is [make(map[string]string)]. *)
Definition new (platform url username name bio location : string) : Profile :=
  {| Platform := platform; URL := url; Authenticated := false;
     Username := username; Name := name; Bio := bio; Location := location;
     Website := EmptyString; Fields := ∅; SocialLinks := [];
     Unstructured := EmptyString;
     IsGuess := false; Confidence := 0%Q; GuessMatch := [] |}.

Definition setName (v : string) (p : Profile) : Profile :=
  {| Platform := Platform p; URL := URL p; Authenticated := Authenticated p;
     Username := Username p; Name := v; Bio := Bio p; Location := Location p;
     Website := Website p; Fields := Fields p; SocialLinks := SocialLinks p;
     Unstructured := Unstructured p;
     IsGuess := IsGuess p; Confidence := Confidence p; GuessMatch := GuessMatch p |}.

Definition setBio (v : string) (p : Profile) : Profile :=
  {| Platform := Platform p; URL := URL p; Authenticated := Authenticated p;
     Username := Username p; Name := Name p; Bio := v; Location := Location p;
     Website := Website p; Fields := Fields p; SocialLinks := SocialLinks p;
     Unstructured := Unstructured p;
     IsGuess := IsGuess p; Confidence := Confidence p; GuessMatch := GuessMatch p |}.

Definition setWebsite (v : string) (p : Profile) : Profile :=
  {| Platform := Platform p; URL := URL p; Authenticated := Authenticated p;
     Username := Username p; Name := Name p; Bio := Bio p; Location := Location p;
     Website := v; Fields := Fields p; SocialLinks := SocialLinks p;
     Unstructured := Unstructured p;
     IsGuess := IsGuess p; Confidence := Confidence p; GuessMatch := GuessMatch p |}.

Definition setFields (v : gmap string string) (p : Profile) : Profile :=
  {| Platform := Platform p; URL := URL p; Authenticated := Authenticated p;
     Username := Username p; Name := Name p; Bio := Bio p; Location := Location p;
     Website := Website p; Fields := v; SocialLinks := SocialLinks p;
     Unstructured := Unstructured p;
     IsGuess := IsGuess p; Confidence := Confidence p; GuessMatch := GuessMatch p |}.

Definition setSocialLinks (v : list string) (p : Profile) : Profile :=
  {| Platform := Platform p; URL := URL p; Authenticated := Authenticated p;
     Username := Username p; Name := Name p; Bio := Bio p; Location := Location p;
     Website := Website p; Fields := Fields p; SocialLinks := v;
     Unstructured := Unstructured p;
     IsGuess := IsGuess p; Confidence := Confidence p; GuessMatch := GuessMatch p |}.

Definition setUnstructured (v : string) (p : Profile) : Profile :=
  {| Platform := Platform p; URL := URL p; Authenticated := Authenticated p;
     Username := Username p; Name := Name p; Bio := Bio p; Location := Location p;
     Website := Website p; Fields := Fields p; SocialLinks := SocialLinks p;
     Unstructured := v;
     IsGuess := IsGuess p; Confidence := Confidence p; GuessMatch := GuessMatch p |}.

(** [p.Fields[k] = v] *)
Definition setField (k v : string) (p : Profile) : Profile :=
  setFields (<[k := v]> (Fields p)) p.

(** [p.SocialLinks = append(p.SocialLinks, links...)] *)
Definition appendLinks (links : list string) (p : Profile) : Profile :=
  setSocialLinks (SocialLinks p ++ links) p.

End profile.

(** ** Package net/url (the part of [url.URL] the callers read) *)

Module url.

Record URL := {
  Scheme : string;
  Opaque : string;
  Host : string;        (* host or host:port *)
  Path : string;
  RawQuery : string;
  Fragment : string
}.

(** validOptionalPort: the empty string, or a colon followed by digits. *)
Fixpoint allDigits (s : string) : bool :=
  match s with
  | EmptyString => true
  | String c s' =>
      (48 <=? GoStrings.byteOf c) && (GoStrings.byteOf c <=? 57) && allDigits s'
  end.

Definition validOptionalPort (port : string) : bool :=
  match port with
  | EmptyString => true
  | String c rest => Ascii.eqb c ":" && allDigits rest
  end.

(** strings.LastIndexByte *)
Fixpoint lastIndexByteFrom (i : Z) (s : string) (b : ascii) (found : Z) : Z :=
  match s with
  | EmptyString => found
  | String c s' => lastIndexByteFrom (i + 1) s' b (if Ascii.eqb c b then i else found)
  end.

Definition LastIndexByte (s : string) (b : ascii) : Z := lastIndexByteFrom 0 s b (-1).

(** splitHostPort, first component: the port is cut off when it is valid,
    then the square brackets of an IPv6 literal. *)
Definition splitHost (hostPort : string) : string :=
  let colon := LastIndexByte hostPort ":" in
  let host :=
    if negb (colon =? -1) && validOptionalPort (GoStrings.sliceFrom hostPort colon)
    then GoStrings.sliceTo hostPort colon
    else hostPort in
  if GoStrings.HasPrefix host "[" && GoStrings.HasSuffix host "]"
  then GoStrings.sliceTo (GoStrings.sliceFrom host 1) (GoStrings.len host - 2)
  else host.

(** The method Hostname of URL. *)
Definition Hostname (u : URL) : string := splitHost (Host u).

End url.

(** ** Package cache: the per-domain rate limiter *)

Module cache.

(** Instants are readings of the monotonic clock in nanoseconds (a
    [time.Time] obtained from [time.Now] carries one, and [time.Since]
    compares those); a [time.Duration] is an int64 count of nanoseconds. *)
Definition maxDuration : Z := 2 ^ 63 - 1.
Definition minDuration : Z := - 2 ^ 63.

Definition isDuration (d : Z) : Prop := minDuration <= d <= maxDuration.

(** int64 subtraction of two durations wraps around. *)
Definition wrap64 (z : Z) : Z := (z + 2 ^ 63) mod 2 ^ 64 - 2 ^ 63.
Definition subDuration (a b : Z) : Z := wrap64 (a - b).

(** Time.Sub saturates at the largest and the smallest duration. *)
Definition timeSub (t u : Z) : Z :=
  if maxDuration <? t - u then maxDuration
  else if t - u <? minDuration then minDuration
  else t - u.

(** The world a call runs in: the clock, and the sleeps asked of
    [time.Sleep] so far (newest first). *)
Record World := {
  clock : Z;
  sleeps : list Z
}.

(** Time that passes outside the caller's control during one call of
    [Wait]: while it acquires the host's mutex, beyond the duration it asked
    [time.Sleep] for (Sleep pauses for at least that long), and until
    [time.Now] is read for the record.  Each is a natural number of
    nanoseconds: the clock never runs backwards. *)
Record Lag := {
  lagLock : N;
  lagSleep : N;
  lagStore : N
}.

Definition elapse (n : N) (w : World) : World :=
  {| clock := clock w + Z.of_N n; sleeps := sleeps w |}.

Definition timeNow (w : World) : Z := clock w.

(** time.Since(t) = time.Now().Sub(t) *)
Definition timeSince (t : Z) (w : World) : Z := timeSub (timeNow w) t.

(** time.Sleep(d): returns at once when d <= 0, and otherwise not before
    d has passed. *)
Definition timeSleep (d : Z) (over : N) (w : World) : World :=
  if d <=? 0 then {| clock := clock w; sleeps := d :: sleeps w |}
  else {| clock := clock w + d + Z.of_N over; sleeps := d :: sleeps w |}.

(** The two sync.Maps and the delay.  A per-domain mutex carries no data for
    a call that has returned (it is unlocked again), so [mu] is the set of
    domains that own one. *)
Record DomainRateLimiter := {
  lastRequest : gmap string Z;
  mu : gset string;
  minDelay : Z
}.

Definition NewDomainRateLimiter (minDelay : Z) : DomainRateLimiter :=
  {| lastRequest := ∅; mu := ∅; minDelay := minDelay |}.

Section Limiter.
(** url.Parse *)
Variable url_Parse : string -> Result url.URL.

Definition extractDomain (rawURL : string) : string :=
  match url_Parse rawURL with
  | Err _ => EmptyString
  | Ok u => url.Host u
  end.

(** One completed call of [Wait].  The body between [mu.Lock()] and the
    deferred [mu.Unlock()] runs alone for its domain, so completed calls
    for one domain follow one another; the result lists the limiter, the
    world, and the (domain, instant) pair the call stored, if any.
    [r.mu.LoadOrStore] only ever holds [*sync.Mutex] values, so the type
    assertion on what it returns succeeds. *)
Definition Wait (r : DomainRateLimiter) (lag : Lag) (rawURL : string) (w : World)
  : DomainRateLimiter * World * option (string * Z) :=
  let domain := extractDomain rawURL in
  if String.eqb domain EmptyString then (r, w, None)
  else
    (* muI, _ := r.mu.LoadOrStore(domain, &sync.Mutex{}) *)
    let mu' := {[ domain ]} ∪ mu r in
    (* mu.Lock() *)
    let w1 := elapse (lagLock lag) w in
    let w2 :=
      match lastRequest r !! domain with
      | Some last =>
          let elapsed := timeSince last w1 in
          if elapsed <? minDelay r
          then timeSleep (subDuration (minDelay r) elapsed) (lagSleep lag) w1
          else w1
      | None => w1
      end in
    (* r.lastRequest.Store(domain, time.Now()) *)
    let w3 := elapse (lagStore lag) w2 in
    let now := timeNow w3 in
    ({| lastRequest := <[domain := now]> (lastRequest r);
        mu := mu';
        minDelay := minDelay r |}, w3, Some (domain, now)).

(** A sequence of completed calls, in the order they held their locks;
    the log lists what each call stored, oldest first.  Calls for one
    domain exclude one another, so their order is the order in time; a call
    for another domain reads and writes other keys of the two maps, and in
    this sequence it stands where its critical section ended. *)
Fixpoint WaitAll (calls : list (Lag * string)) (r : DomainRateLimiter) (w : World)
  : DomainRateLimiter * World * list (string * Z) :=
  match calls with
  | [] => (r, w, [])
  | (lag, rawURL) :: rest =>
      let '(r1, w1, ev) := Wait r lag rawURL w in
      let '(r2, w2, log) := WaitAll rest r1 w1 in
      (r2, w2, match ev with Some e => e :: log | None => log end)
  end.
End Limiter.

(** The instants recorded for one domain, oldest first. *)
Definition issuedAt (domain : string) (log : list (string * Z)) : list Z :=
  map snd (filter (λ e, fst e = domain) log).

(** Every instant is at least [d] after the one before it. *)
Fixpoint spaced (d : Z) (ts : list Z) : Prop :=
  match ts with
  | t1 :: ((t2 :: _) as rest) => d <= t2 - t1 /\ spaced d rest
  | _ => True
  end.

(** No recorded instant lies in the future. *)
Definition notInFuture (r : DomainRateLimiter) (w : World) : Prop :=
  forall d last, lastRequest r !! d = Some last -> last <= clock w.

(** The instants [ts] are spaced, and the first of them is far enough from
    the instant recorded before them, if there is one. *)
Definition spacedAfter (d : Z) (before : option Z) (ts : list Z) : Prop :=
  match before with
  | Some last => spaced d (last :: ts)
  | None => spaced d ts
  end.

End cache.

(** ** Package net/http, as far as the adapters use it *)

Module http.

Record Request := {
  Method : string;
  reqURL : string;
  Header : gmap string string
}.

(** [req.Header.Set(key, value)] (the keys the adapters set are canonical). *)
Definition SetHeader (key value : string) (req : Request) : Request :=
  {| Method := Method req; reqURL := reqURL req;
     Header := <[key := value]> (Header req) |}.

(** A response body is a stream: it yields [content] and then ends, with
    EOF or with a read error. *)
Record Body := {
  content : string;
  failure : option error
}.

Record Response := {
  StatusCode : Z;
  respBody : Body
}.

Definition StatusOK : Z := 200.
Definition MethodGet : string := "GET".

Fixpoint takeN (n : N) (s : string) : string :=
  match s with
  | EmptyString => EmptyString
  | String c s' =>
      if (n =? 0)%N then EmptyString else String c (takeN (N.pred n) s')
  end.

(** [io.ReadAll(io.LimitReader(body, n))]: the reader reports EOF after n
    bytes, so the stream's own end is only seen when it is shorter. *)
Definition ReadAllLimit (n : N) (b : Body) : Result string :=
  if (n <=? N.of_nat (String.length (content b)))%N then Ok (takeN n (content b))
  else match failure b with
       | None => Ok (content b)
       | Some e => Err e
       end.

End http.

(** The interface HTTPCache of profile.go: a record of its methods.  [Get]
    returns (data, etag, headers, found); the setters return an error or nil. *)
Record HTTPCache := {
  Get : string -> string * string * gmap string string * bool;
  SetAsync : string -> string -> string -> option (gmap string string) -> option error;
  SetAsyncWithTTL :
    string -> string -> string -> option (gmap string string) -> Z -> option error
}.

(** ** Effects of a fetch: what it logs, asks of the cache and sends *)

Module IO.

Inductive Event :=
| LogInfo (msg : string) (attrs : list (string * string))
| LogDebug (msg : string) (attrs : list (string * string))
| CacheGet (url : string)
| CacheSetAsync (url data : string)
| HTTPDo (req : http.Request)          (* httpClient.Do(req) *)
| FetchURL (req : http.Request).       (* cache.FetchURL(ctx, cache, client, req, logger) *)

(** A computation yields a value or an error, and the events it caused in
    order.  [bind] is the early return of [if err != nil { return nil, err }]. *)
Definition IO (A : Type) : Type := Result A * list Event.

Definition ret {A} (a : A) : IO A := (Ok a, []).
Definition fail {A} (e : error) : IO A := (Err e, []).
Definition emit (ev : Event) : IO unit := (Ok tt, [ev]).
Definition lift {A} (r : Result A) : IO A := (r, []).

Definition bind {A B} (m : IO A) (k : A -> IO B) : IO B :=
  match m with
  | (Err e, t) => (Err e, t)
  | (Ok a, t) => let '(r, t') := k a in (r, (t ++ t')%list)
  end.

Definition isHTTP (ev : Event) : bool :=
  match ev with
  | HTTPDo _ | FetchURL _ => true
  | _ => false
  end.

(** No request left the process: neither the client nor the caching
    fetcher was called. *)
Definition noRequest (t : list Event) : bool := forallb (fun ev => negb (isHTTP ev)) t.

End IO.

Notation "x <- m ;; k" := (IO.bind m (fun x => k))
  (at level 62, m at next level, right associativity).
Notation "m ;;; k" := (IO.bind m (fun _ => k))
  (at level 62, right associativity).

(** Regular expressions are written with [#] where the Go source has a double
    quote. *)
Definition dquote : ascii := ascii_of_nat 34.
Definition re (pattern : string) : string :=
  GoStrings.mapBytes (fun c => if Ascii.eqb c "#" then dquote else c) pattern.

(** ** Package codeberg *)

Module codeberg.
Import GoStrings profile IO.

Definition platform : string := "codeberg".

(** The client: [httpClient.Do] and the injected cache (nil when none was
    configured); what the logger receives is part of the event trace. *)
Record Client := {
  httpClient : http.Request -> Result http.Response;
  cache : option HTTPCache
}.

Definition userAgent : string :=
  "Mozilla/5.0 (Macintosh; Intel Mac OS X 10.15; rv:146.0) Gecko/20100101 Firefox/146.0".

(** The map literal of Match. *)
Definition nonProfiles : gmap string bool :=
  list_to_map
    (map (fun k => (k, true))
       ["explore"; "user"; "repo"; "org";
        "admin"; "api"; "swagger"; "assets";
        "codeberg"; "codeberg-infrastructure"]).

Section Matching.
Variable mapUnicodeToLower : string -> string.

Local Abbreviation ToLower := (GoStrings.ToLower mapUnicodeToLower).

(** Match returns true if the URL is a Codeberg profile URL. *)
Definition Match (urlStr : string) : bool :=
  let lower := ToLower urlStr in
  if negb (Contains lower "codeberg.org/") then false
  else
    let idx := Index lower "codeberg.org/" in
    let path := sliceFrom lower (idx + len "codeberg.org/") in
    let path := TrimSuffix path "/" in
    let qIdx := Index path "?" in
    let path := if 0 <=? qIdx then sliceTo path qIdx else path in
    if Contains path "/" then false
    else negb (String.eqb path EmptyString)
         && negb (default false (nonProfiles !! path)).
End Matching.

Definition AuthRequired : bool := false.

(** The keys [parseHTML] can set in Fields, and the test the pronouns
    passed. *)
Definition knownField (k v : string) : Prop :=
  k = "joined" \/ k = "followers" \/ k = "following"
  \/ (k = "pronouns" /\ v <> EmptyString /\ len v < 20).

Section Adapter.
(** [regexp.MustCompile(pattern).FindStringSubmatch(s)]: nil, or the match
    followed by its groups. *)
Variable FindStringSubmatch : string -> string -> list string.
Variable html_UnescapeString : string -> string.
Variable TrimSpace : string -> string.
(** [http.NewRequestWithContext(ctx, method, url, http.NoBody)] *)
Variable NewRequestWithContext : string -> string -> Result http.Request.

(** [len(m) > 1] and [m[1]] *)
Definition hasGroup (m : list string) : bool := (1 <? length m)%nat.
Definition group1 (m : list string) : string := nth 1 m EmptyString.

Definition extractUsername (urlStr : string) : string :=
  let urlStr := TrimPrefix urlStr "https://" in
  let urlStr := TrimPrefix urlStr "http://" in
  let urlStr := TrimPrefix urlStr "www." in
  let matches := FindStringSubmatch "codeberg\.org/([^/?]+)" urlStr in
  if hasGroup matches then group1 matches else EmptyString.

Definition parseHTML (data urlStr username : string) : Profile :=
  let content := data in
  let p := profile.new platform urlStr username EmptyString EmptyString EmptyString in
  (* name: og:title, then the avatar title, then the header span *)
  let m := FindStringSubmatch (re "<meta\s+property=#og:title#\s+content=#([^#]+)#") content in
  let p := if hasGroup m
           then setName (TrimSpace (html_UnescapeString (group1 m))) p else p in
  let p :=
    if String.eqb (Name p) EmptyString then
      let m := FindStringSubmatch
                 (re "<img[^>]+class=#[^#]*avatar[^#]*#[^>]+title=#([^#]+)#") content in
      if hasGroup m then setName (TrimSpace (html_UnescapeString (group1 m))) p else p
    else p in
  let p :=
    if String.eqb (Name p) EmptyString then
      let m := FindStringSubmatch
                 (re "<span\s+class=#header[^#]*#[^>]*>([^<]+)</span>") content in
      if hasGroup m then setName (TrimSpace (html_UnescapeString (group1 m))) p else p
    else p in
  (* bio: og:description, unless it is the site's default text *)
  let m := FindStringSubmatch
             (re "<meta\s+property=#og:description#\s+content=#([^#]+)#") content in
  let p :=
    if hasGroup m then
      let bio := TrimSpace (html_UnescapeString (group1 m)) in
      if negb (String.eqb bio EmptyString)
         && negb (Contains bio "Codeberg is a non-profit")
      then setBio bio p else p
    else p in
  (* website: a rel=me link, rel before href and then href before rel *)
  let m := FindStringSubmatch
             (re "<a[^>]+rel=#[^#]*\bme\b[^#]*#[^>]+href=#(https?://[^#]+)#") content in
  let p :=
    if hasGroup m then
      let website := group1 m in
      if negb (Contains website "codeberg.org")
         && negb (Contains website "docs.codeberg.org")
         && negb (Contains website "blog.codeberg.org")
      then setWebsite website p else p
    else p in
  let p :=
    if String.eqb (Website p) EmptyString then
      let m := FindStringSubmatch
                 (re "<a[^>]+href=#(https?://[^#]+)#[^>]+rel=#[^#]*\bme\b[^#]*#") content in
      if hasGroup m then
        let website := group1 m in
        if negb (Contains website "codeberg.org") then setWebsite website p else p
      else p
    else p in
  (* join date and follower counts *)
  let m := FindStringSubmatch "Joined\s+on\s+(\d{4}-\d{2}-\d{2})" content in
  let p := if hasGroup m then setField "joined" (group1 m) p else p in
  let m := FindStringSubmatch "(\d+)\s*followers" content in
  let p := if hasGroup m then setField "followers" (group1 m) p else p in
  let m := FindStringSubmatch "(\d+)\s*following" content in
  let p := if hasGroup m then setField "following" (group1 m) p else p in
  (* pronouns *)
  let m := FindStringSubmatch (re "class=#username#[^>]*>[^<]*·\s*([^<]+)</span>") content in
  let p :=
    if hasGroup m then
      let pronouns := TrimSpace (group1 m) in
      if negb (String.eqb pronouns EmptyString) && (len pronouns <? 20)
      then setField "pronouns" pronouns p else p
    else p in
  (* social links are deliberately not extracted *)
  p.

(** [Fetch] from the construction of the request on (codeberg.go:110-136). *)
Definition fetchPage (c : Client) (urlStr username : string) : IO Profile :=
  req <- lift (NewRequestWithContext http.MethodGet urlStr) ;;
  let req := http.SetHeader "User-Agent" userAgent req in
  emit (HTTPDo req) ;;;
  resp <- lift (httpClient c req) ;;
  if negb (http.StatusCode resp =? http.StatusOK)
  then fail ("HTTP " ++ Itoa (http.StatusCode resp))
  else
    body <- lift (http.ReadAllLimit (2 ^ 20) (http.respBody resp)) ;;
    (match cache c with
     | Some hc =>
         emit (CacheSetAsync urlStr body) ;;;
         (* the error SetAsync returns is assigned to the blank identifier *)
         let _ := SetAsync hc urlStr body EmptyString None in
         ret tt
     | None => ret tt
     end) ;;;
    ret (parseHTML body urlStr username).

Definition Fetch (c : Client) (urlStr : string) : IO Profile :=
  let username := extractUsername urlStr in
  if String.eqb username EmptyString
  then fail ("could not extract username from: " ++ urlStr)
  else
    let urlStr :=
      if negb (HasPrefix urlStr "http") then "https://codeberg.org/" ++ username
      else urlStr in
    emit (LogInfo "fetching codeberg profile"
            [("url", urlStr); ("username", username)]) ;;;
    match cache c with
    | Some hc =>
        emit (CacheGet urlStr) ;;;
        let '(data, _, _, found) := Get hc urlStr in
        if found then ret (parseHTML data urlStr username)
        else fetchPage c urlStr username
    | None => fetchPage c urlStr username
    end.

(** The URL [Fetch] works with after its normalisation step. *)
Definition profileURL (urlStr : string) : string :=
  if negb (HasPrefix urlStr "http")
  then "https://codeberg.org/" ++ extractUsername urlStr
  else urlStr.
End Adapter.

End codeberg.

(** ** Package net: the address predicates validateURL calls *)

Module net.

(** An IP is a byte slice; [ParseIP] returns the 16-byte form. *)
Definition IP := list Z.

Definition byteAt (ip : IP) (i : nat) : Z := nth i ip 0.

Definition isZeros (p : list Z) : bool := forallb (Z.eqb 0) p.

(** To4: the 4-byte form of an IPv4 address (also when it is stored as an
    IPv4-mapped IPv6 address), or nil. *)
Definition To4 (ip : IP) : option IP :=
  if (length ip =? 4)%nat then Some ip
  else if (length ip =? 16)%nat && isZeros (firstn 10 ip)
          && (byteAt ip 10 =? 255) && (byteAt ip 11 =? 255)
  then Some (skipn 12 ip)
  else None.

Definition IPv6loopback : IP := [0; 0; 0; 0; 0; 0; 0; 0; 0; 0; 0; 0; 0; 0; 0; 1].

Definition IsLoopback (ip : IP) : bool :=
  match To4 ip with
  | Some ip4 => byteAt ip4 0 =? 127
  | None => bool_decide (ip = IPv6loopback)
  end.

Definition IsPrivate (ip : IP) : bool :=
  match To4 ip with
  | Some ip4 =>
      (byteAt ip4 0 =? 10)
      || ((byteAt ip4 0 =? 172) && (Z.land (byteAt ip4 1) 240 =? 16))
      || ((byteAt ip4 0 =? 192) && (byteAt ip4 1 =? 168))
  | None => (length ip =? 16)%nat && (Z.land (byteAt ip 0) 254 =? 252)
  end.

Definition IsLinkLocalUnicast (ip : IP) : bool :=
  match To4 ip with
  | Some ip4 => (byteAt ip4 0 =? 169) && (byteAt ip4 1 =? 254)
  | None =>
      (length ip =? 16)%nat && (byteAt ip 0 =? 254) && (Z.land (byteAt ip 1) 192 =? 128)
  end.

Definition IsLinkLocalMulticast (ip : IP) : bool :=
  match To4 ip with
  | Some ip4 => (byteAt ip4 0 =? 224) && (byteAt ip4 1 =? 0) && (byteAt ip4 2 =? 0)
  | None =>
      (length ip =? 16)%nat && (byteAt ip 0 =? 255) && (Z.land (byteAt ip 1) 15 =? 2)
  end.

End net.

(** ** Package generic *)

Module generic.
Import GoStrings profile IO.

Definition platform : string := "generic".

(** Match always returns true as this is the fallback. *)
Definition Match (_ : string) : bool := true.

Definition AuthRequired : bool := false.

Record Client := {
  httpClient : http.Request -> Result http.Response;
  cache : option HTTPCache
}.

Section Adapter.
Variable mapUnicodeToLower : string -> string.
Variable url_Parse : string -> Result url.URL.
(** net.ParseIP: nil when the text is no IP address. *)
Variable net_ParseIP : string -> option net.IP.
Variable NewRequestWithContext : string -> string -> Result http.Request.
(** [cache.FetchURL(ctx, c.cache, c.httpClient, req, c.logger)], the one
    call of the adapter that reaches the network. *)
Variable cache_FetchURL : Client -> http.Request -> Result string.
(** [parseHTML] (generic.go:108-154) turns the fetched body into a
    Profile without any I/O. *)
Variable parseHTML : string -> string -> Profile.

Local Abbreviation ToLower := (GoStrings.ToLower mapUnicodeToLower).

(** The key dedupeLinks compares links by. *)
Definition normalize (link : string) : string :=
  TrimSuffix (ToLower link) "/".

(** The loop of dedupeLinks over the rest of [links]; a key that is not
    in the map [seen] reads as false. *)
Fixpoint dedupeLoop (links : list string) (seen : gmap string bool)
  (result : list string) : list string :=
  match links with
  | [] => result
  | link :: rest =>
      let normalized := normalize link in
      if negb (default false (seen !! normalized))
      then dedupeLoop rest (<[normalized := true]> seen) (result ++ [link])%list
      else dedupeLoop rest seen result
  end.

Definition dedupeLinks (links : list string) : list string :=
  dedupeLoop links ∅ [].

(** validateURL checks for SSRF vulnerabilities; [None] is the nil error. *)
Definition validateURL (urlStr : string) : option error :=
  match url_Parse urlStr with
  | Err e => Some ("invalid URL: " ++ e)
  | Ok parsed =>
      let host := ToLower (url.Hostname parsed) in
      if String.eqb host "localhost" || String.eqb host "127.0.0.1"
         || String.eqb host "::1"
         || HasSuffix host ".local" || HasSuffix host ".internal"
      then Some "blocked: local host"
      else if match net_ParseIP host with
              | Some ip =>
                  net.IsLoopback ip || net.IsPrivate ip
                  || net.IsLinkLocalUnicast ip || net.IsLinkLocalMulticast ip
              | None => false
              end
      then Some "blocked: private IP"
      else if String.eqb host "169.254.169.254"
              || String.eqb host "metadata.google.internal"
              || String.eqb host "metadata.azure.com"
      then Some "blocked: metadata service"
      else None
  end.

(** The targets validateURL is to refuse, as a property of the host name
    it compares (the lower-cased Hostname of the parsed URL): the local
    names, the domains .local and .internal, the addresses that are
    loopback, private or link-local, and the metadata endpoints. *)
Definition internalTarget (host : string) : Prop :=
  host = "localhost" \/ host = "127.0.0.1" \/ host = "::1"
  \/ HasSuffix host ".local" = true \/ HasSuffix host ".internal" = true
  \/ (exists ip, net_ParseIP host = Some ip
                 /\ (net.IsLoopback ip = true \/ net.IsPrivate ip = true
                     \/ net.IsLinkLocalUnicast ip = true
                     \/ net.IsLinkLocalMulticast ip = true))
  \/ host = "169.254.169.254" \/ host = "metadata.google.internal"
  \/ host = "metadata.azure.com".

(** The URL [Fetch] validates and requests: a scheme is put in front of a
    string that starts with neither http:// nor https://. *)
Definition withScheme (urlStr : string) : string :=
  if negb (HasPrefix urlStr "http://") && negb (HasPrefix urlStr "https://")
  then "https://" ++ urlStr
  else urlStr.

Definition userAgent : string :=
  "Mozilla/5.0 (Macintosh; Intel Mac OS X 10.15; rv:146.0) Gecko/20100101 Firefox/146.0".

Definition Fetch (c : Client) (urlStr : string) : IO Profile :=
  let urlStr := withScheme urlStr in
  match validateURL urlStr with
  | Some err => fail err
  | None =>
      emit (LogInfo "fetching generic website" [("url", urlStr)]) ;;;
      req <- lift (NewRequestWithContext http.MethodGet urlStr) ;;
      let req := http.SetHeader "User-Agent" userAgent req in
      let req := http.SetHeader "Accept"
                   "text/html,application/xhtml+xml,application/xml;q=0.9,*/*;q=0.8" req in
      let req := http.SetHeader "Accept-Language" "en-US,en;q=0.5" req in
      emit (FetchURL req) ;;;
      body <- lift (cache_FetchURL c req) ;;
      ret (parseHTML body urlStr)
  end.

(** The request [Fetch] hands to cache.FetchURL, with its three headers. *)
Definition browserRequest (req : http.Request) : http.Request :=
  http.SetHeader "Accept-Language" "en-US,en;q=0.5"
    (http.SetHeader "Accept"
       "text/html,application/xhtml+xml,application/xml;q=0.9,*/*;q=0.8"
       (http.SetHeader "User-Agent" userAgent req)).
End Adapter.

End generic.

(** ** Package github *)

Module github.
Import GoStrings profile IO.

Definition platform : string := "github".

Definition nonProfiles : gmap string bool :=
  list_to_map
    (map (fun k => (k, true))
       ["features"; "security"; "enterprise"; "team";
        "marketplace"; "sponsors"; "topics"; "trending";
        "collections"; "orgs"; "solutions"; "resources";
        "customer-stories"; "partners"; "accelerator";
        "trust-center"; "why-github"; "mcp"; "fluidicon";
        "login"; "join"; "pricing"; "about";
        "premium-support"; "newsletter"; "edu"; "mobile";
        "readme"; "explore"; "new"; "settings";
        "notifications"; "issues"; "pulls"; "codespaces";
        "copilot"; "actions"; "projects"; "packages";
        "discussions"; "wiki"; "stars"; "watching";
        "search"; "site"; "apps"]).

Definition AuthRequired : bool := false.

Record Client := {
  httpClient : http.Request -> Result http.Response;
  cache : option HTTPCache
}.

(** The anonymous struct parseJSON decodes into. *)
Record ghUser := {
  Login : string;
  ghName : string;
  ghBio : string;
  ghLocation : string;
  Blog : string;
  Email : string;
  TwitterUser : string;
  Company : string;
  PublicRepos : Z;
  Followers : Z;
  Following : Z;
  AvatarURL : string;
  HTMLURL : string;
  ghType : string
}.

Definition userAgent : string :=
  "Mozilla/5.0 (Macintosh; Intel Mac OS X 10.15; rv:146.0) Gecko/20100101 Firefox/146.0".

(** A map whose empty values sit under the keys email and company only. *)
Definition emptyOnlyAt (m : gmap string string) : Prop :=
  forall k, m !! k = Some EmptyString -> k = "email" \/ k = "company".

(** [len(m) > n] and [m[n]] for a submatch slice *)
Definition longer (n : nat) (m : list string) : bool := (n <? length m)%nat.
Definition group (n : nat) (m : list string) : string := nth n m EmptyString.

Section Adapter.
Variable mapUnicodeToLower : string -> string.
Variable FindStringSubmatch : string -> string -> list string.
(** [regexp.MustCompile(pattern).FindAllStringSubmatch(s, n)] *)
Variable FindAllStringSubmatch : string -> string -> Z -> list (list string).
Variable TrimSpace : string -> string.
(** [json.Unmarshal(data, &ghUser)] on the zero value of the struct *)
Variable json_Unmarshal : string -> Result ghUser.
Variable htmlutil_IsEmailURL : string -> bool.
Variable htmlutil_ExtractEmailFromURL : string -> string * bool.
Variable htmlutil_SocialLinks : string -> list string.
Variable htmlutil_ToMarkdown : string -> string.
Variable NewRequestWithContext : string -> string -> Result http.Request.
Variable cache_FetchURL : Client -> http.Request -> Result string.

Local Abbreviation ToLower := (GoStrings.ToLower mapUnicodeToLower).

(** Match returns true if the URL is a GitHub profile URL. *)
Definition Match (urlStr : string) : bool :=
  let lower := ToLower urlStr in
  if negb (Contains lower "github.com/") then false
  else
    let idx := Index lower "github.com/" in
    let path := sliceFrom lower (idx + len "github.com/") in
    let path := TrimSuffix path "/" in
    let qIdx := Index path "?" in
    let path := if 0 <=? qIdx then sliceTo path qIdx else path in
    if Contains path "/" then false
    else negb (String.eqb path EmptyString)
         && negb (default false (nonProfiles !! path)).

Definition extractUsername (urlStr : string) : string :=
  let urlStr := TrimPrefix urlStr "https://" in
  let urlStr := TrimPrefix urlStr "http://" in
  let urlStr := TrimPrefix urlStr "www." in
  let matches := FindStringSubmatch "github\.com/([^/?]+)" urlStr in
  if longer 1 matches then group 1 matches else EmptyString.

Definition filterSamePlatformLinks (links : list string) : list string :=
  fold_left (fun filtered link =>
               if negb (Match link) then (filtered ++ [link])%list else filtered)
    links [].

Definition normalize (link : string) : string :=
  TrimSuffix (ToLower link) "/".

Fixpoint dedupeLoop (links : list string) (seen : gmap string bool)
  (result : list string) : list string :=
  match links with
  | [] => result
  | link :: rest =>
      let normalized := normalize link in
      if negb (default false (seen !! normalized))
      then dedupeLoop rest (<[normalized := true]> seen) (result ++ [link])%list
      else dedupeLoop rest seen result
  end.

Definition dedupeLinks (links : list string) : list string :=
  dedupeLoop links ∅ [].

(** parseJSON from line 318 on: the profile built from the decoded
    struct. *)
Definition profileOf (u : ghUser) (urlStr : string) : Profile :=
  let prof := profile.new platform urlStr (Login u) (ghName u) (ghBio u)
                (ghLocation u) in
  (* website or email *)
  let prof :=
    if negb (String.eqb (Blog u) EmptyString) then
      let blog := Blog u in
      let blogLower := ToLower blog in
      if HasPrefix blogLower "mailto:" then
        let email := TrimPrefix blogLower "mailto:" in
        setField "email" email prof
      else
        let website :=
          if negb (HasPrefix blog "http") then "https://" ++ blog else blog in
        let '(email, isEmail) := htmlutil_ExtractEmailFromURL website in
        if isEmail then setField "email" email prof
        else setField "website" website (setWebsite website prof)
    else prof in
  let prof :=
    if negb (String.eqb (Email u) EmptyString)
    then setField "email" (Email u) prof else prof in
  let prof :=
    if negb (String.eqb (Company u) EmptyString) then
      let company := TrimPrefix (Company u) "@" in
      setField "company" company prof
    else prof in
  let prof :=
    if negb (String.eqb (TwitterUser u) EmptyString) then
      let twitterURL := "https://twitter.com/" ++ TwitterUser u in
      appendLinks [twitterURL] (setField "twitter" twitterURL prof)
    else prof in
  let prof :=
    if 0 <? PublicRepos u
    then setField "public_repos" (Itoa (PublicRepos u)) prof else prof in
  let prof :=
    if 0 <? Followers u
    then setField "followers" (Itoa (Followers u)) prof else prof in
  let prof :=
    if 0 <? Following u
    then setField "following" (Itoa (Following u)) prof else prof in
  let prof :=
    if negb (String.eqb (AvatarURL u) EmptyString)
    then setField "avatar_url" (AvatarURL u) prof else prof in
  let prof :=
    if negb (String.eqb (ghType u) EmptyString)
    then setField "type" (ghType u) prof else prof in
  prof.

Definition parseJSON (data urlStr _username : string) : Result Profile :=
  match json_Unmarshal data with
  | Err e => Err e
  | Ok u => Ok (profileOf u urlStr)
  end.

Definition extractREADMEHTML (htmlContent : string) : string :=
  let matches :=
    FindStringSubmatch
      (re "(?s)<article[^>]*class=#[^#]*markdown-body[^#]*#[^>]*>(.*?)</article>")
      htmlContent in
  if (length matches <? 2)%nat then EmptyString
  else
    let readmeHTML := group 1 matches in
    if String.eqb (TrimSpace readmeHTML) EmptyString then EmptyString
    else readmeHTML.

Definition extractSocialLinks (html : string) : list string :=
  let links : list string := [] in
  let matches :=
    FindAllStringSubmatch
      (re "<a[^>]+rel=[#'][^#']*\bme\b[^#']*[#'][^>]+href=[#']([^#']+)[#']") html (-1) in
  let links :=
    fold_left (fun links match_ =>
                 if longer 1 match_ then
                   let link := group 1 match_ in
                   if negb (Contains link "github.com")
                      && negb (htmlutil_IsEmailURL link)
                   then (links ++ [link])%list else links
                 else links)
      matches links in
  let matches :=
    FindAllStringSubmatch
      (re "<a[^>]+href=[#']([^#']+)[#'][^>]+rel=[#'][^#']*\bme\b[^#']*[#']") html (-1) in
  fold_left (fun links match_ =>
               if (length match_ <=? 1)%nat then links
               else
                 let link := group 1 match_ in
                 if Contains link "github.com" || htmlutil_IsEmailURL link then links
                 else
                   let isDuplicate := existsb (String.eqb link) links in
                   if negb isDuplicate then (links ++ [link])%list else links)
    matches links.

Definition extractOrganizations (html : string) : list string :=
  let matches :=
    FindAllStringSubmatch
      (re "aria-label=#([^#]+)#[^>]*>\s*<img[^>]+alt=#@([^#]+)#") html (-1) in
  let '(orgs, seen) :=
    fold_left (fun '(orgs, seen) match_ =>
                 if longer 2 match_ then
                   let orgName := group 1 match_ in
                   if default false ((seen : gmap string bool) !! orgName)
                   then (orgs, seen)
                   else ((orgs ++ [orgName])%list, <[orgName := true]> seen)
                 else (orgs, seen))
      matches (([] : list string), (∅ : gmap string bool)) in
  if (length orgs =? 0)%nat then
    let matches :=
      FindAllStringSubmatch (re "href=#/([^/#]+)#[^>]*aria-label=#([^#]+)#") html (-1) in
    fst (fold_left (fun '(orgs, seen) match_ =>
                 if longer 2 match_ then
                   let orgName := group 2 match_ in
                   if Contains (ToLower orgName) "organization"
                      || ((len orgName <? 50) && negb (Contains orgName " "))
                   then
                     if negb (default false ((seen : gmap string bool) !! orgName))
                     then ((orgs ++ [orgName])%list, <[orgName := true]> seen)
                     else (orgs, seen)
                   else (orgs, seen)
                 else (orgs, seen))
      matches (orgs, seen))
  else orgs.

Definition fetchAPI (c : Client) (urlStr username : string) : IO Profile :=
  let apiURL := "https://api.github.com/users/" ++ username in
  req <- lift (NewRequestWithContext http.MethodGet apiURL) ;;
  let req := http.SetHeader "Accept" "application/vnd.github.v3+json" req in
  let req := http.SetHeader "User-Agent" "sociopath/1.0" req in
  emit (FetchURL req) ;;;
  body <- lift (cache_FetchURL c req) ;;
  lift (parseJSON body urlStr username).

(** fetchHTML reports a failure to the debug log and returns nothing. *)
Definition fetchHTML (c : Client) (urlStr : string) : IO (string * list string) :=
  match NewRequestWithContext http.MethodGet urlStr with
  | Err err =>
      emit (LogDebug "failed to create HTML request" [("error", err)]) ;;;
      ret (EmptyString, [])
  | Ok req =>
      let req := http.SetHeader "User-Agent" userAgent req in
      emit (FetchURL req) ;;;
      match cache_FetchURL c req with
      | Err err =>
          emit (LogDebug "failed to fetch HTML" [("error", err)]) ;;;
          ret (EmptyString, [])
      | Ok body =>
          let content := body in
          let links := extractSocialLinks content in
          ret (content, links)
      end
  end.

Definition Fetch (c : Client) (urlStr : string) : IO Profile :=
  let username := extractUsername urlStr in
  if String.eqb username EmptyString
  then fail ("could not extract username from: " ++ urlStr)
  else
    let urlStr :=
      if negb (HasPrefix urlStr "http") then "https://github.com/" ++ username
      else urlStr in
    emit (LogInfo "fetching github profile"
            [("url", urlStr); ("username", username)]) ;;;
    prof <- fetchAPI c urlStr username ;;
    html <- fetchHTML c urlStr ;;
    let '(htmlContent, htmlLinks) := html in
    let prof := appendLinks htmlLinks prof in
    let prof :=
      if negb (String.eqb htmlContent EmptyString) then
        let orgs := extractOrganizations htmlContent in
        let prof :=
          if (0 <? length orgs)%nat
          then setField "organizations" (Join orgs ", ") prof else prof in
        let readmeHTML := extractREADMEHTML htmlContent in
        if negb (String.eqb readmeHTML EmptyString) then
          let readmeLinks := htmlutil_SocialLinks readmeHTML in
          let prof := appendLinks readmeLinks prof in
          setUnstructured (htmlutil_ToMarkdown readmeHTML) prof
        else prof
      else prof in
    (* deduplicate, then drop the links to GitHub itself *)
    let prof := setSocialLinks (dedupeLinks (SocialLinks prof)) prof in
    let prof := setSocialLinks (filterSamePlatformLinks (SocialLinks prof)) prof in
    ret prof.

(** The URL [Fetch] works with after its normalisation step. *)
Definition profileURL (urlStr : string) : string :=
  if negb (HasPrefix urlStr "http") then "https://github.com/" ++ extractUsername urlStr
  else urlStr.

(** The request [fetchAPI] sends, with its two headers. *)
Definition apiRequest (req : http.Request) : http.Request :=
  http.SetHeader "User-Agent" "sociopath/1.0"
    (http.SetHeader "Accept" "application/vnd.github.v3+json" req).
End Adapter.

(** The state of the loops of [extractOrganizations]: the names collected
    so far are distinct and all marked as seen. *)
Definition collected (acc : list string * gmap string bool) : Prop :=
  NoDup (fst acc) /\ forall x, In x (fst acc) -> snd acc !! x = Some true.

End github.

(** ** The platform registry *)

Module registry.

(** Modelled from the spec: the platform registry of section 4.1 (the
    ordered list of matcher and extractor pairs, and Resolve) is not among
    the sources.  Matchers are evaluated in a fixed priority order, and the
    first one that matches the URL gives the handle. *)
Record Platform := {
  name : string;
  Matches : string -> bool
}.

Fixpoint Resolve (matchers : list Platform) (urlStr : string) : option Platform :=
  match matchers with
  | [] => None
  | m :: rest => if Matches m urlStr then Some m else Resolve rest urlStr
  end.

Definition genericPlatform : Platform :=
  {| name := generic.platform; Matches := generic.Match |}.

End registry.

(** ** Command extract-cookies *)

Module extractcookies.

(** A supported platform of the table [platforms]. *)
Record platform := {
  envMap : gmap string string;
  name : string;
  domain : string;
  envPrefix : string;
  cookies : list string
}.

Definition platforms : list platform :=
  [ {| name := "instagram"; domain := "instagram.com"; envPrefix := "INSTAGRAM";
       cookies := ["sessionid"; "csrftoken"];
       envMap := list_to_map [("sessionid", "SESSIONID"); ("csrftoken", "CSRFTOKEN")] |};
    {| name := "linkedin"; domain := "linkedin.com"; envPrefix := "LINKEDIN";
       cookies := ["li_at"; "JSESSIONID"; "lidc"; "bcookie"];
       envMap := list_to_map [("li_at", "LI_AT"); ("JSESSIONID", "JSESSIONID");
                              ("lidc", "LIDC"); ("bcookie", "BCOOKIE")] |};
    {| name := "tiktok"; domain := "tiktok.com"; envPrefix := "TIKTOK";
       cookies := ["sessionid"];
       envMap := list_to_map [("sessionid", "SESSIONID")] |};
    {| name := "twitter"; domain := "x.com"; envPrefix := "TWITTER";
       cookies := ["auth_token"; "ct0"; "kdt"; "twid"; "att"];
       envMap := list_to_map [("auth_token", "AUTH_TOKEN"); ("ct0", "CT0"); ("kdt", "KDT");
                              ("twid", "TWID"); ("att", "ATT")] |};
    {| name := "vkontakte"; domain := "vk.com"; envPrefix := "VK";
       cookies := ["remixsid"];
       envMap := list_to_map [("remixsid", "REMIXSID")] |};
    {| name := "weibo"; domain := "weibo.com"; envPrefix := "WEIBO";
       cookies := ["SUB"; "SUBP"];
       envMap := list_to_map [("SUB", "SUB"); ("SUBP", "SUBP")] |} ].

(** The struct cookieResult: the cookies read and the platform they are
    for. *)
Record cookieResult := {
  cookiesOf : gmap string string;
  platformOf : platform
}.

(** What extractCookies does besides returning: it reads the cookies of a
    platform from the browser, and it writes to the debug log. *)
Inductive Event :=
| ReadCookies (platformName : string)     (* source.Cookies(ctx, p.name) *)
| LogDebug (msg : string) (attrs : list (string * string)).

Section Extract.
(** [auth.NewBrowserSource(logger).Cookies(ctx, name)] *)
Variable source_Cookies : string -> Result (gmap string string).

(** The loop of extractCookies over the rest of the table. *)
Fixpoint extractLoop (ps : list platform) (platformFilter : string)
  (results : list cookieResult) (trace : list Event)
  : list cookieResult * list Event :=
  match ps with
  | [] => (results, trace)
  | p :: rest =>
      if negb (String.eqb platformFilter EmptyString)
         && negb (String.eqb (name p) platformFilter)
      then extractLoop rest platformFilter results trace
      else
        match source_Cookies (name p) with
        | Err err =>
            extractLoop rest platformFilter results
              (trace ++ [ReadCookies (name p);
                         LogDebug "failed to read cookies"
                           [("platform", name p); ("error", err)]])%list
        | Ok found =>
            if (0 <? size found)%nat
            then extractLoop rest platformFilter
                   (results ++ [{| cookiesOf := found; platformOf := p |}])%list
                   (trace ++ [ReadCookies (name p)])%list
            else extractLoop rest platformFilter results
                   (trace ++ [ReadCookies (name p)])%list
        end
  end.

Definition extractCookies (platformFilter : string) : list cookieResult * list Event :=
  extractLoop platforms platformFilter [] [].
End Extract.

End extractcookies.

(** ** Sample collaborators

    Small stand-ins for the library functions and the network, used to run
    the adapters on concrete inputs. *)

Module samples.
Import GoStrings.

Definition noUnicode (s : string) : string := s.

(** A regexp engine that knows one user name and one README. *)
Definition findOctocat (pattern s : string) : list string :=
  if HasPrefix pattern "github" then ["github.com/octocat"; "octocat"]
  else if HasPrefix pattern "codeberg" then ["codeberg.org/octocat"; "octocat"]
  else if HasPrefix pattern "(?s)<article" then ["<article>readme</article>"; "readme"]
  else [].

Definition findAllNone (pattern s : string) (n : Z) : list (list string) := [].

Definition mkURL (scheme host path query : string) : url.URL :=
  {| url.Scheme := scheme; url.Opaque := EmptyString; url.Host := host;
     url.Path := path; url.RawQuery := query; url.Fragment := EmptyString |}.

(** url.Parse on the handful of strings the examples use; every other
    string is refused. *)
Definition parseURL (rawURL : string) : Result url.URL :=
  if String.eqb rawURL "https://example.com/a"
  then Ok (mkURL "https" "example.com" "/a" EmptyString)
  else if String.eqb rawURL "http://example.com/b?x=1"
  then Ok (mkURL "http" "example.com" "/b" "x=1")
  else if String.eqb rawURL "https://other.example:8443/"
  then Ok (mkURL "https" "other.example:8443" "/" EmptyString)
  else if String.eqb rawURL "/only/a/path"
  then Ok (mkURL EmptyString EmptyString "/only/a/path" EmptyString)
  else if String.eqb rawURL "https://LocalHost:8080/admin"
  then Ok (mkURL "https" "LocalHost:8080" "/admin" EmptyString)
  else if String.eqb rawURL "https://10.0.0.7/"
  then Ok (mkURL "https" "10.0.0.7" "/" EmptyString)
  else if String.eqb rawURL "https://[fe80::1]/"
  then Ok (mkURL "https" "[fe80::1]" "/" EmptyString)
  else Err "parse error".

(** net.ParseIP on the addresses the examples use. *)
Definition parseIP (s : string) : option net.IP :=
  if String.eqb s "10.0.0.7"
  then Some [0; 0; 0; 0; 0; 0; 0; 0; 0; 0; 255; 255; 10; 0; 0; 7]
  else if String.eqb s "fe80::1"
  then Some [254; 128; 0; 0; 0; 0; 0; 0; 0; 0; 0; 0; 0; 0; 0; 1]
  else if String.eqb s "169.254.169.254"
  then Some [0; 0; 0; 0; 0; 0; 0; 0; 0; 0; 255; 255; 169; 254; 169; 254]
  else None.

Definition lag (l s t : N) : cache.Lag :=
  {| cache.lagLock := l; cache.lagSleep := s; cache.lagStore := t |}.

Definition startOfTime : cache.World := {| cache.clock := 0; cache.sleeps := [] |}.

(** Three calls for example.com, one for another host and one with a URL
    that does not parse. *)
Definition fiveCalls : list (cache.Lag * string) :=
  [(lag 5 0 0, "https://example.com/a");
   (lag 200 3 1, "http://example.com/b?x=1");
   (lag 0 0 0, "https://other.example:8443/");
   (lag 7 0 0, "::not a url");
   (lag 4000 9 2, "https://example.com/a")].

Definition newRequest (method urlStr : string) : Result http.Request :=
  Ok {| http.Method := method; http.reqURL := urlStr; http.Header := ∅ |}.

Definition zeroUser : github.ghUser :=
  {| github.Login := EmptyString; github.ghName := EmptyString;
     github.ghBio := EmptyString; github.ghLocation := EmptyString;
     github.Blog := EmptyString; github.Email := EmptyString;
     github.TwitterUser := EmptyString; github.Company := EmptyString;
     github.PublicRepos := 0; github.Followers := 0; github.Following := 0;
     github.AvatarURL := EmptyString; github.HTMLURL := EmptyString;
     github.ghType := EmptyString |}.

(** What decoding the object with the single member company, of value @,
    leaves in the struct. *)
Definition companyAt : github.ghUser :=
  {| github.Login := EmptyString; github.ghName := EmptyString;
     github.ghBio := EmptyString; github.ghLocation := EmptyString;
     github.Blog := EmptyString; github.Email := EmptyString;
     github.TwitterUser := EmptyString; github.Company := "@";
     github.PublicRepos := 0; github.Followers := 0; github.Following := 0;
     github.AvatarURL := EmptyString; github.HTMLURL := EmptyString;
     github.ghType := EmptyString |}.

(** The JSON text of that object. *)
Definition companyAtJSON : string := re "{#company#:#@#}".

Definition octocat : github.ghUser :=
  {| github.Login := "octocat"; github.ghName := "The Octocat";
     github.ghBio := EmptyString; github.ghLocation := "San Francisco";
     github.Blog := "https://github.blog"; github.Email := EmptyString;
     github.TwitterUser := "octo"; github.Company := "@github";
     github.PublicRepos := 8; github.Followers := 120; github.Following := 9;
     github.AvatarURL := EmptyString; github.HTMLURL := "https://github.com/octocat";
     github.ghType := "User" |}.

(** A cache that holds one page, and one that holds none and whose writes
    fail. *)
Definition warmCache : HTTPCache :=
  {| Get := fun urlStr =>
              if String.eqb urlStr "https://codeberg.org/octocat"
              then ("<html>cached</html>", EmptyString, ∅, true)
              else (EmptyString, EmptyString, ∅, false);
     SetAsync := fun _ _ _ _ => None;
     SetAsyncWithTTL := fun _ _ _ _ _ => None |}.

Definition brokenCache : HTTPCache :=
  {| Get := fun _ => (EmptyString, EmptyString, ∅, false);
     SetAsync := fun _ _ _ _ => Some "disk full";
     SetAsyncWithTTL := fun _ _ _ _ _ => Some "disk full" |}.

Definition page : http.Response :=
  {| http.StatusCode := 200;
     http.respBody := {| http.content := "<html>fresh</html>"; http.failure := None |} |}.

Definition codebergClient (hc : option HTTPCache) : codeberg.Client :=
  {| codeberg.httpClient := fun _ => Ok page; codeberg.cache := hc |}.

Definition fetchCodeberg (hc : option HTTPCache) (urlStr : string) :=
  codeberg.Fetch findOctocat (fun s => s) (fun s => s) newRequest
    (codebergClient hc) urlStr.

(** A regexp engine for one Codeberg page: the og:title, the follower count
    and the pronouns match, nothing else does. *)
Definition findCodeberg (pattern s : string) : list string :=
  if String.eqb pattern (re "<meta\s+property=#og:title#\s+content=#([^#]+)#")
  then ["<meta property=#og:title# content=#Mona#"; "Mona"]
  else if String.eqb pattern "(\d+)\s*followers" then ["12 followers"; "12"]
  else if String.eqb pattern (re "class=#username#[^>]*>[^<]*·\s*([^<]+)</span>")
  then ["class=#username#>mona · they/them</span>"; "they/them"]
  else [].

Definition parseCodeberg (data urlStr username : string) : profile.Profile :=
  codeberg.parseHTML findOctocat (fun s => s) (fun s => s) data urlStr username.

Definition genericClient : generic.Client :=
  {| generic.httpClient := fun _ => Err "unused"; generic.cache := None |}.

Definition fetchGeneric (urlStr : string) :=
  generic.Fetch noUnicode parseURL parseIP newRequest (fun _ _ => Ok "<html>")
    (fun body urlStr =>
       profile.new generic.platform urlStr EmptyString EmptyString EmptyString EmptyString)
    genericClient urlStr.

Definition githubClient : github.Client :=
  {| github.httpClient := fun _ => Err "unused"; github.cache := None |}.

Definition readmeLinks (html : string) : list string :=
  ["https://github.com/monalisa"; "https://mastodon.social/@octo";
   "https://Mastodon.social/@octo/"].

Definition fetchOctocat (c : github.Client) (urlStr : string) :=
  github.Fetch noUnicode findOctocat findAllNone (fun s => s) (fun _ => Ok octocat)
    (fun _ => false) (fun _ => (EmptyString, false)) readmeLinks (fun s => s)
    newRequest (fun _ _ => Ok "<html>") c urlStr.
(** An account with an e-mail address of its own and a mailto blog. *)
Definition monalisa : github.ghUser :=
  {| github.Login := "monalisa"; github.ghName := "Mona Lisa";
     github.ghBio := EmptyString; github.ghLocation := EmptyString;
     github.Blog := "mailto:Other@example.com"; github.Email := "mona@example.com";
     github.TwitterUser := EmptyString; github.Company := EmptyString;
     github.PublicRepos := 0; github.Followers := 3; github.Following := 0;
     github.AvatarURL := EmptyString; github.HTMLURL := EmptyString;
     github.ghType := "User" |}.

Definition parseOctocat (u : github.ghUser) : Result profile.Profile :=
  github.parseJSON noUnicode (fun _ => Ok u) (fun _ => (EmptyString, false))
    "{}" "https://github.com/octocat" "octocat".
(** A browser that is logged in to two platforms, holds no cookie for a
    third and cannot be read for the others. *)
Definition browser (platformName : string) : Result (gmap string string) :=
  if String.eqb platformName "linkedin" then Ok {["li_at" := "AQED"]}
  else if String.eqb platformName "twitter"
  then Ok (<["auth_token" := "a1"]> {["ct0" := "c0"]})
  else if String.eqb platformName "tiktok" then Ok ∅
  else Err "no cookie store".

End samples.

(* ===================================================================== *)
(** * Part II.  Lemmas and theorems                                       *)
(* ===================================================================== *)

(** ** Byte strings *)

Module GoStringsFacts.
Import GoStrings.
#[local] Arguments String.append !s1 s2 : simpl nomatch.

Lemma take_drop (n : nat) (s : string) : takeBytes n s ++ dropBytes n s = s.
Proof.
  revert s; induction n as [|n IH]; intros [|c s]; simpl; try reflexivity.
  now rewrite IH.
Qed.

Lemma length_append (s t : string) :
  String.length (s ++ t) = (String.length s + String.length t)%nat.
Proof. induction s as [|c s IH]; simpl; [reflexivity | now rewrite IH]. Qed.

Lemma drop_append (s t : string) : dropBytes (String.length s) (s ++ t) = t.
Proof. induction s as [|c s IH]; simpl; [now destruct t | exact IH]. Qed.

Lemma take_append (s t : string) : takeBytes (String.length s) (s ++ t) = s.
Proof. induction s as [|c s IH]; simpl; [now destruct t | now rewrite IH]. Qed.

Lemma append_empty_r (s : string) : s ++ EmptyString = s.
Proof. induction s as [|c s IH]; simpl; [reflexivity | now rewrite IH]. Qed.

Lemma append_assoc (s t u : string) : (s ++ t) ++ u = s ++ (t ++ u).
Proof. induction s as [|c s IH]; simpl; [reflexivity | now rewrite IH]. Qed.

Lemma append_inj_r (s t t' : string) :
  String.length t = String.length t' -> forall s', s ++ t = s' ++ t' -> s = s' /\ t = t'.
Proof.
  intros Hlen; induction s as [|c s IH]; intros [|c' s'] H; simpl in *.
  - now split.
  - exfalso. apply (f_equal String.length) in H. simpl in H.
    rewrite length_append in H. lia.
  - exfalso. apply (f_equal String.length) in H. simpl in H.
    rewrite length_append in H. lia.
  - injection H as -> H. destruct (IH _ H) as [-> ->]. now split.
Qed.

(** [HasSuffix] is the suffix relation, and [TrimSuffix] cuts that suffix. *)
Lemma HasSuffix_append (p x : string) : HasSuffix (p ++ x) x = true.
Proof.
  unfold HasSuffix, sliceFrom, len. rewrite length_append.
  apply andb_true_intro; split; [apply Z.leb_le; lia|].
  replace (Z.to_nat _) with (String.length p) by lia.
  rewrite drop_append. apply String.eqb_refl.
Qed.

Lemma HasSuffix_inv (s x : string) :
  HasSuffix s x = true -> s = sliceTo s (len s - len x) ++ x.
Proof.
  unfold HasSuffix, sliceFrom, sliceTo. intros H.
  apply andb_prop in H as [_ H]. apply String.eqb_eq in H.
  set (k := Z.to_nat (len s - len x)) in *.
  transitivity (takeBytes k s ++ dropBytes k s);
    [symmetry; apply take_drop | now rewrite H].
Qed.

Lemma TrimSuffix_append (p x : string) : TrimSuffix (p ++ x) x = p.
Proof.
  unfold TrimSuffix. rewrite HasSuffix_append.
  unfold sliceTo, len. rewrite length_append.
  replace (Z.to_nat _) with (String.length p) by lia.
  apply take_append.
Qed.

Lemma TrimSuffix_cases (s x : string) :
  (HasSuffix s x = true /\ s = TrimSuffix s x ++ x)
  \/ (HasSuffix s x = false /\ TrimSuffix s x = s).
Proof.
  unfold TrimSuffix. destruct (HasSuffix s x) eqn:E; [left | right]; split; trivial.
  now apply HasSuffix_inv.
Qed.

Lemma HasSuffix_slash_slash (n : string) :
  HasSuffix (n ++ "/") "//" = HasSuffix n "/".
Proof.
  destruct (HasSuffix n "/") eqn:E.
  - apply HasSuffix_inv in E. rewrite E at 1.
    rewrite append_assoc. apply HasSuffix_append.
  - destruct (HasSuffix (n ++ "/") "//") eqn:E'; [|reflexivity].
    apply HasSuffix_inv in E'.
    change "//" with ("/" ++ "/") in E' at 2. rewrite <- append_assoc in E'.
    apply append_inj_r in E' as [E' _]; [|reflexivity].
    rewrite E' in E. now rewrite HasSuffix_append in E.
Qed.

(** The ASCII path of [ToLower]. *)
Lemma lowerByte_not_upper (c : ascii) : isUpperASCII (lowerByte c) = false.
Proof.
  destruct c as [[] [] [] [] [] [] [] []]; reflexivity.
Qed.

Lemma lowerByte_ascii (c : ascii) :
  (byteOf c <? 128) = true -> (byteOf (lowerByte c) <? 128) = true.
Proof.
  destruct c as [[] [] [] [] [] [] [] []]; intros H; try reflexivity; exact H.
Qed.

Lemma mapBytes_lower_isASCII (s : string) :
  isASCII s = true -> isASCII (mapBytes lowerByte s) = true.
Proof.
  induction s as [|c s IH]; cbn [isASCII mapBytes]; [trivial|]. intros H.
  apply andb_prop in H as [Hc Hs].
  now rewrite (lowerByte_ascii c Hc), (IH Hs).
Qed.

Lemma mapBytes_lower_hasUpper (s : string) : hasUpper (mapBytes lowerByte s) = false.
Proof.
  induction s as [|c s IH]; cbn [hasUpper mapBytes]; [reflexivity|].
  now rewrite lowerByte_not_upper, IH.
Qed.

Lemma mapBytes_id_no_upper (s : string) :
  hasUpper s = false -> mapBytes lowerByte s = s.
Proof.
  induction s as [|c s IH]; cbn [hasUpper mapBytes]; [reflexivity|]. intros H.
  apply orb_false_elim in H as [Hc Hs].
  rewrite (IH Hs). unfold lowerByte. now rewrite Hc.
Qed.

Lemma isASCII_append (s t : string) :
  isASCII (s ++ t) = isASCII s && isASCII t.
Proof.
  induction s as [|c s IH]; simpl; [reflexivity|].
  now rewrite IH, andb_assoc.
Qed.

Lemma hasUpper_append (s t : string) :
  hasUpper (s ++ t) = hasUpper s || hasUpper t.
Proof.
  induction s as [|c s IH]; simpl; [reflexivity|].
  now rewrite IH, orb_assoc.
Qed.

Section ToLowerFacts.
Variable M : string -> string.

(** An ASCII-only string is lowered byte by byte. *)
Lemma ToLower_ascii (s : string) :
  isASCII s = true -> ToLower M s = mapBytes lowerByte s.
Proof.
  intros H. unfold ToLower. rewrite H.
  destruct (hasUpper s) eqn:E; [reflexivity|].
  symmetry. now apply mapBytes_id_no_upper.
Qed.

Lemma ToLower_fixed_iff_ascii (s : string) :
  isASCII s = true -> (ToLower M s = s <-> hasUpper s = false).
Proof.
  intros H. rewrite (ToLower_ascii s H). split.
  - intros E. rewrite <- E. apply mapBytes_lower_hasUpper.
  - apply mapBytes_id_no_upper.
Qed.

Lemma ToLower_idem_ascii (s : string) :
  isASCII s = true -> ToLower M (ToLower M s) = ToLower M s.
Proof.
  intros H. rewrite (ToLower_ascii s H).
  apply ToLower_fixed_iff_ascii.
  - now apply mapBytes_lower_isASCII.
  - apply mapBytes_lower_hasUpper.
Qed.

(** A lowered ASCII string stays lowered when a suffix is cut off. *)
Lemma ToLower_fixed_prefix_ascii (t x : string) :
  isASCII (t ++ x) = true -> ToLower M (t ++ x) = t ++ x -> ToLower M t = t.
Proof.
  intros Ha Hf. pose proof Ha as Ha'. rewrite isASCII_append in Ha'.
  apply andb_prop in Ha' as [Ht _].
  apply (ToLower_fixed_iff_ascii _ Ha) in Hf.
  rewrite hasUpper_append in Hf. apply orb_false_elim in Hf as [Hu _].
  now apply ToLower_fixed_iff_ascii.
Qed.
End ToLowerFacts.

End GoStringsFacts.

(** ** Link normalisation and deduplication (github and generic) *)

Module LinkFacts.
Import GoStrings GoStringsFacts.

(** The two packages hold the same dedupeLinks. *)
Lemma generic_normalize_eq (M : string -> string) (u : string) :
  generic.normalize M u = github.normalize M u.
Proof. reflexivity. Qed.

Lemma generic_dedupeLoop_eq (M : string -> string) (links : list string) :
  forall seen result,
    generic.dedupeLoop M links seen result = github.dedupeLoop M links seen result.
Proof.
  induction links as [|l links IH]; intros seen result; simpl; [reflexivity|].
  rewrite generic_normalize_eq, !IH. reflexivity.
Qed.

Lemma generic_dedupeLinks_eq (M : string -> string) (links : list string) :
  generic.dedupeLinks M links = github.dedupeLinks M links.
Proof. apply generic_dedupeLoop_eq. Qed.

Section Dedupe.
Variable M : string -> string.

Local Abbreviation key := (github.normalize M).
Local Abbreviation loop := (github.dedupeLoop M).

(** The accumulator is only ever appended to. *)
Lemma dedupeLoop_result (links : list string) :
  forall seen result, loop links seen result = (result ++ loop links seen [])%list.
Proof.
  induction links as [|l links IH]; intros seen result; simpl.
  - now rewrite app_nil_r.
  - destruct (negb (default false (seen !! key l))).
    + rewrite IH, (IH _ ([] ++ [l])%list). simpl. now rewrite <- app_assoc.
    + apply IH.
Qed.

(** Every link the loop keeps has a key that was not seen before, so a
    second pass over its result keeps all of it. *)
Lemma dedupeLoop_idempotent (links : list string) :
  forall seen, loop (loop links seen []) seen [] = loop links seen [].
Proof.
  induction links as [|l links IH]; intros seen; simpl; [reflexivity|].
  destruct (negb (default false (seen !! key l))) eqn:E.
  - rewrite (dedupeLoop_result links _ ([] ++ [l])%list). simpl. rewrite E.
    rewrite (dedupeLoop_result _ _ ([] ++ [l])%list). simpl.
    now rewrite IH.
  - apply IH.
Qed.

Lemma dedupeLinks_idempotent (links : list string) :
  github.dedupeLinks M (github.dedupeLinks M links) = github.dedupeLinks M links.
Proof. apply dedupeLoop_idempotent. Qed.

(** The keys of the kept links are pairwise different. *)
Lemma dedupeLoop_keys_fresh (links : list string) :
  forall seen l, In l (loop links seen []) -> default false (seen !! key l) = false.
Proof.
  induction links as [|x links IH]; intros seen l; simpl; [tauto|].
  destruct (default false (seen !! key x)) eqn:E; simpl.
  - apply IH.
  - rewrite (dedupeLoop_result links _ ([] ++ [x])%list). simpl.
    intros [<- | Hin]; [exact E|].
    specialize (IH _ _ Hin).
    destruct (decide (key x = key l)) as [Heq | Hne].
    + rewrite Heq, lookup_insert_eq in IH. discriminate.
    + now rewrite lookup_insert_ne in IH.
Qed.

Hypothesis HM1 : unicodeLowerIdempotent M.
Hypothesis HM2 : unicodeLowerCutsSlash M.

Lemma ToLower_idempotent (s : string) : ToLower M (ToLower M s) = ToLower M s.
Proof.
  destruct (isASCII s) eqn:E.
  - now apply ToLower_idem_ascii.
  - unfold ToLower at 2 3. rewrite E. now apply HM1.
Qed.

Lemma ToLower_fixed_cut_slash (t : string) :
  ToLower M (t ++ "/") = t ++ "/" -> ToLower M t = t.
Proof.
  destruct (isASCII (t ++ "/")) eqn:E.
  - now apply ToLower_fixed_prefix_ascii.
  - intros H. pose proof E as Et. rewrite isASCII_append in Et.
    change (isASCII "/") with true in Et. rewrite andb_true_r in Et.
    unfold ToLower in *. rewrite E in H. rewrite Et. now apply HM2.
Qed.

Lemma normalize_idempotent (u : string) :
  HasSuffix (ToLower M u) "//" = false -> key (key u) = key u.
Proof.
  intros Hss. unfold github.normalize.
  pose proof (ToLower_idempotent u) as Hfix.
  set (t := ToLower M u) in *.
  destruct (TrimSuffix_cases t "/") as [[Hs Ht] | [Hs Ht]].
  - set (n := TrimSuffix t "/") in *.
    assert (Hn : ToLower M n = n)
      by (apply ToLower_fixed_cut_slash;
          exact (eq_ind t (fun x => ToLower M x = x) Hfix _ Ht)).
    rewrite Hn.
    destruct (TrimSuffix_cases n "/") as [[Hs' _] | [_ Hn']]; [|exact Hn'].
    rewrite Ht, HasSuffix_slash_slash in Hss. congruence.
  - rewrite Ht, Hfix. exact Ht.
Qed.
(** A lower-cased form that ends in two slashes loses one of them at each
    application. *)
Lemma normalize_double_slash (u : string) :
  HasSuffix (ToLower M u) "//" = true -> key (key u) <> key u.
Proof.
  intros Hss. unfold github.normalize.
  pose proof (ToLower_idempotent u) as Hfix.
  set (t := ToLower M u) in *.
  apply HasSuffix_inv in Hss.
  set (p := sliceTo t (len t - len "//")) in *.
  assert (Ht : t = (p ++ "/") ++ "/") by (now rewrite append_assoc).
  assert (Hn : TrimSuffix t "/" = p ++ "/")
    by (rewrite Ht at 1; apply TrimSuffix_append).
  rewrite Hn.
  assert (Hl : ToLower M (p ++ "/") = p ++ "/")
    by (apply ToLower_fixed_cut_slash;
        exact (eq_ind t (fun x => ToLower M x = x) Hfix _ Ht)).
  rewrite Hl, TrimSuffix_append. intros E.
  apply (f_equal String.length) in E. rewrite length_append in E. simpl in E. lia.
Qed.

Lemma normalize_idempotent_iff (u : string) :
  key (key u) = key u <-> HasSuffix (ToLower M u) "//" = false.
Proof.
  split.
  - intros E. destruct (HasSuffix (ToLower M u) "//") eqn:Hss; [|reflexivity].
    now elim (normalize_double_slash u Hss).
  - apply normalize_idempotent.
Qed.
End Dedupe.

(** On an ASCII string the Unicode path is never taken: the key, and the key
    of the key, are those of the byte-wise lowering. *)
Lemma isASCII_take (s : string) (n : nat) :
  isASCII s = true -> isASCII (takeBytes n s) = true.
Proof.
  revert n. induction s as [|c s IH]; intros [|n] H; simpl in *; trivial.
  apply andb_prop in H as [Hc Hs]. now rewrite Hc, (IH n Hs).
Qed.

Lemma ToLower_isASCII (M : string -> string) (s : string) :
  isASCII s = true -> isASCII (ToLower M s) = true.
Proof.
  intros H. rewrite (ToLower_ascii M s H). now apply mapBytes_lower_isASCII.
Qed.

Lemma normalize_ascii (M : string -> string) (u : string) :
  isASCII u = true ->
  github.normalize M u = github.normalize (fun s => s) u
  /\ isASCII (github.normalize M u) = true.
Proof.
  intros H. unfold github.normalize.
  rewrite (ToLower_ascii M u H), <- (ToLower_ascii (fun s => s) u H).
  split; [reflexivity|].
  pose proof (ToLower_isASCII (fun s => s) u H) as Hl.
  unfold TrimSuffix. destruct (HasSuffix _ "/"); [|exact Hl].
  now apply isASCII_take.
Qed.

Lemma lower_identity_idempotent : unicodeLowerIdempotent (fun s => s).
Proof. intros s H. unfold ToLower. now rewrite H. Qed.

Lemma lower_identity_cuts_slash : unicodeLowerCutsSlash (fun s => s).
Proof. intros t _ _. reflexivity. Qed.

Lemma normalize_idempotent_iff_ascii (M : string -> string) (u : string) :
  isASCII u = true ->
  (github.normalize M (github.normalize M u) = github.normalize M u
   <-> HasSuffix (ToLower M u) "//" = false).
Proof.
  intros H. destruct (normalize_ascii M u H) as [E1 Ha].
  destruct (normalize_ascii M (github.normalize M u) Ha) as [E2 _].
  rewrite E2, E1, (ToLower_ascii M u H), <- (ToLower_ascii (fun s => s) u H).
  apply (normalize_idempotent_iff (fun s => s)
           lower_identity_idempotent lower_identity_cuts_slash).
Qed.

End LinkFacts.

(** C4 (as stated, refuted).  The normalisation used for duplicate detection
    is not idempotent on every string: it strips a single trailing slash, so
    a string that ends in two slashes loses one per application;
    [normalize] maps a//  to a/ and that to a, whatever the Unicode path of
    ToLower does. *)
Lemma normalize_not_idempotent :
  exists u : string,
    forall M : string -> string,
      github.normalize M u = "a/"
      /\ github.normalize M (github.normalize M u) = "a"
      /\ generic.normalize M u = "a/"
      /\ generic.normalize M (generic.normalize M u) = "a".
Proof. exists "a//". intros M. repeat split; reflexivity. Qed.

(** C4 (amended).  For every list of links, with no assumption at all,
    dedupeLinks applied twice yields the same list as applied once.
    Normalising twice gives the same key as normalising once exactly for the
    URL strings whose lower-cased form does not end in two slashes: this
    holds for every ASCII string, and for every string at all given two
    properties of the Unicode path of strings.ToLower (lowering what it
    returned changes nothing, and a string it leaves unchanged stays so when
    its final slash is cut off).  All of it holds for the copy of the code in
    package github and for the one in package generic. *)
Theorem normalize_idempotent_single_slash (M : string -> string) :
  (forall links : list string,
      github.dedupeLinks M (github.dedupeLinks M links) = github.dedupeLinks M links
      /\ generic.dedupeLinks M (generic.dedupeLinks M links)
         = generic.dedupeLinks M links)
  /\ (forall u : string,
         GoStrings.isASCII u = true ->
         (github.normalize M (github.normalize M u) = github.normalize M u
          <-> GoStrings.HasSuffix (GoStrings.ToLower M u) "//" = false)
         /\ (generic.normalize M (generic.normalize M u) = generic.normalize M u
             <-> GoStrings.HasSuffix (GoStrings.ToLower M u) "//" = false))
  /\ (GoStrings.unicodeLowerIdempotent M ->
      GoStrings.unicodeLowerCutsSlash M ->
      forall u : string,
        (github.normalize M (github.normalize M u) = github.normalize M u
         <-> GoStrings.HasSuffix (GoStrings.ToLower M u) "//" = false)
        /\ (generic.normalize M (generic.normalize M u) = generic.normalize M u
            <-> GoStrings.HasSuffix (GoStrings.ToLower M u) "//" = false)).
Proof.
  split; [|split].
  - intros links. split; [apply LinkFacts.dedupeLinks_idempotent|].
    rewrite (LinkFacts.generic_dedupeLinks_eq M links).
    rewrite (LinkFacts.generic_dedupeLinks_eq M (github.dedupeLinks M links)).
    apply LinkFacts.dedupeLinks_idempotent.
  - intros u Hu. split; exact (LinkFacts.normalize_idempotent_iff_ascii M u Hu).
  - intros HM1 HM2 u.
    split; exact (LinkFacts.normalize_idempotent_iff M HM1 HM2 u).
Qed.

Lemma normalize_idempotent_single_slash_witness :
  GoStrings.isASCII "https://GitHub.com/Octocat/" = true
  /\ GoStrings.HasSuffix (GoStrings.ToLower (fun s => s) "https://GitHub.com/Octocat/") "//"
     = false
  /\ github.normalize (fun s => s) (github.normalize (fun s => s) "https://GitHub.com/Octocat/")
     = github.normalize (fun s => s) "https://GitHub.com/Octocat/"
  /\ github.dedupeLinks (fun s => s)
       (github.dedupeLinks (fun s => s) ["https://a.example/"; "HTTPS://A.EXAMPLE"; "https://b.example"])
     = github.dedupeLinks (fun s => s)
         ["https://a.example/"; "HTTPS://A.EXAMPLE"; "https://b.example"].
Proof.
  destruct (normalize_idempotent_single_slash (fun s => s)) as (Hd & Hn & _).
  split; [reflexivity|]. split; [reflexivity|].
  split; [apply (proj1 (Hn "https://GitHub.com/Octocat/" eq_refl)); reflexivity
         | apply Hd].
Defined.

(** ** The effect layer *)

Module IOFacts.
Import IO.

Lemma bind_Ok {A B} (m : IO A) (k : A -> IO B) (b : B) (t : list Event) :
  IO.bind m k = (Ok b, t) ->
  exists a t1 t2, m = (Ok a, t1) /\ k a = (Ok b, t2) /\ t = (t1 ++ t2)%list.
Proof.
  destruct m as [[a|e] t1]; simpl; [|discriminate].
  destruct (k a) as [r t2] eqn:E. intros [= -> <-].
  now exists a, t1, t2.
Qed.

Lemma bind_ret_l {A B} (a : A) (k : A -> IO B) : IO.bind (ret a) k = k a.
Proof. unfold IO.bind, ret. now destruct (k a). Qed.

Lemma bind_fail {A B} (e : error) (k : A -> IO B) : IO.bind (fail e) k = fail e.
Proof. reflexivity. Qed.

Lemma bind_emit {B} (ev : Event) (k : unit -> IO B) :
  IO.bind (emit ev) k = (fst (k tt), ev :: snd (k tt)).
Proof. unfold IO.bind, emit. now destruct (k tt). Qed.

Lemma bind_lift_Ok {A B} (a : A) (k : A -> IO B) : IO.bind (lift (Ok a)) k = k a.
Proof. unfold IO.bind, lift. now destruct (k a). Qed.

Lemma bind_lift_Err {A B} (e : error) (k : A -> IO B) :
  IO.bind (lift (Err e)) k = (Err e, []).
Proof. reflexivity. Qed.

End IOFacts.

(** ** Package github *)

Module githubFacts.
Import GoStrings profile IO github.

Section Facts.
Variable M : string -> string.
Variable FindStringSubmatch : string -> string -> list string.
Variable FindAllStringSubmatch : string -> string -> Z -> list (list string).
Variable TrimSpace : string -> string.
Variable json_Unmarshal : string -> Result ghUser.
Variable htmlutil_IsEmailURL : string -> bool.
Variable htmlutil_ExtractEmailFromURL : string -> string * bool.
Variable htmlutil_SocialLinks : string -> list string.
Variable htmlutil_ToMarkdown : string -> string.
Variable NewRequestWithContext : string -> string -> Result http.Request.
Variable cache_FetchURL : Client -> http.Request -> Result string.

(** The filter keeps exactly the links Match rejects, in order. *)
Lemma filterSamePlatformLinks_filter (links : list string) :
  filterSamePlatformLinks M links
  = List.filter (fun link => negb (Match M link)) links.
Proof.
  unfold filterSamePlatformLinks.
  enough (H : forall acc,
             fold_left (fun filtered link =>
                          if negb (Match M link) then (filtered ++ [link])%list
                          else filtered) links acc
             = (acc ++ List.filter (fun link => negb (Match M link)) links)%list)
    by apply (H []).
  induction links as [|l links IH]; intros acc; simpl.
  - now rewrite app_nil_r.
  - rewrite IH. destruct (negb (Match M l)); [|reflexivity].
    now rewrite <- app_assoc.
Qed.

Lemma filterSamePlatformLinks_no_match (links : list string) :
  Forall (fun link => Match M link = false) (filterSamePlatformLinks M links).
Proof.
  rewrite filterSamePlatformLinks_filter. apply List.Forall_forall.
  intros l Hl. apply List.filter_In in Hl as [_ Hl].
  now apply negb_true_iff in Hl.
Qed.

Lemma Fetch_SocialLinks (c : Client) (urlStr : string) (prof : Profile)
  (t : list Event) :
  Fetch M FindStringSubmatch FindAllStringSubmatch TrimSpace json_Unmarshal
    htmlutil_IsEmailURL htmlutil_ExtractEmailFromURL htmlutil_SocialLinks
    htmlutil_ToMarkdown NewRequestWithContext cache_FetchURL c urlStr = (Ok prof, t) ->
  exists links, SocialLinks prof = filterSamePlatformLinks M links.
Proof.
  unfold Fetch.
  destruct (String.eqb (extractUsername FindStringSubmatch urlStr) EmptyString);
    [discriminate|].
  intros H.
  apply IOFacts.bind_Ok in H as (_ & _ & t2 & _ & H & _).
  apply IOFacts.bind_Ok in H as (prof0 & _ & t3 & _ & H & _).
  apply IOFacts.bind_Ok in H as ([htmlContent htmlLinks] & _ & t4 & _ & H & _).
  injection H as <- _. simpl. eexists. reflexivity.
Qed.
End Facts.

End githubFacts.

(** C3.  Same-platform links are filtered before they can reach the
    frontier: for every Profile that the GitHub client's Fetch returns
    without an error, no element of its SocialLinks satisfies the GitHub
    Match predicate.  This holds whatever the API and the profile page
    return and whatever the regular expressions and htmlutil extract. *)
Theorem github_Fetch_no_github_links
  (M : string -> string)
  (FindStringSubmatch : string -> string -> list string)
  (FindAllStringSubmatch : string -> string -> Z -> list (list string))
  (TrimSpace : string -> string)
  (json_Unmarshal : string -> Result github.ghUser)
  (htmlutil_IsEmailURL : string -> bool)
  (htmlutil_ExtractEmailFromURL : string -> string * bool)
  (htmlutil_SocialLinks : string -> list string)
  (htmlutil_ToMarkdown : string -> string)
  (NewRequestWithContext : string -> string -> Result http.Request)
  (cache_FetchURL : github.Client -> http.Request -> Result string)
  (c : github.Client) (urlStr : string) (prof : profile.Profile) (t : list IO.Event) :
  github.Fetch M FindStringSubmatch FindAllStringSubmatch TrimSpace json_Unmarshal
    htmlutil_IsEmailURL htmlutil_ExtractEmailFromURL htmlutil_SocialLinks
    htmlutil_ToMarkdown NewRequestWithContext cache_FetchURL c urlStr = (Ok prof, t) ->
  Forall (fun link => github.Match M link = false) (profile.SocialLinks prof).
Proof.
  intros H. apply githubFacts.Fetch_SocialLinks in H as [links ->].
  apply githubFacts.filterSamePlatformLinks_no_match.
Qed.

Lemma github_Fetch_no_github_links_witness :
  exists prof t,
    samples.fetchOctocat samples.githubClient "github.com/octocat" = (Ok prof, t)
    /\ Forall (fun link => github.Match samples.noUnicode link = false)
         (profile.SocialLinks prof).
Proof.
  destruct (samples.fetchOctocat samples.githubClient "github.com/octocat")
    as [[prof | e] t] eqn:E.
  - exists prof, t. split; [reflexivity|].
    exact (github_Fetch_no_github_links _ _ _ _ _ _ _ _ _ _ _ _ _ _ _ E).
  - vm_compute in E. discriminate E.
Defined.

Module githubExamples.
Import samples.

Example Match_profile : github.Match noUnicode "https://GitHub.com/octocat/" = true.
Proof. reflexivity. Qed.

Example Match_repository : github.Match noUnicode "https://github.com/octocat/hello" = false.
Proof. reflexivity. Qed.

Example Match_non_profile : github.Match noUnicode "https://github.com/features" = false.
Proof. reflexivity. Qed.

Example Match_query : github.Match noUnicode "github.com/octocat?tab=repositories" = true.
Proof. reflexivity. Qed.

Example Match_other_site : github.Match noUnicode "https://mastodon.social/@octo" = false.
Proof. reflexivity. Qed.

(** The link to GitHub found in the README is dropped, and so is the
    second spelling of the Mastodon link. *)
Example Fetch_octocat_links :
  match fst (fetchOctocat githubClient "github.com/octocat") with
  | Ok prof => profile.SocialLinks prof
  | Err _ => []
  end = ["https://twitter.com/octo"; "https://mastodon.social/@octo"].
Proof. vm_compute. reflexivity. Qed.
End githubExamples.

(** ** Stepping through a chain of [let prof := ... in] *)

(** Names the value bound by the outermost [let] of the profile the goal
    speaks of. *)
Ltac let_next y :=
  lazymatch goal with
  | |- ?g (let x := ?v in @?f x) !! ?k = ?r =>
      pose (y := v); change (g (f y) !! k = r); cbv beta
  | |- ?g (let x := ?v in @?f x) = ?r =>
      pose (y := v); change (g (f y) = r); cbv beta
  | |- ?P (?g (let x := ?v in @?f x)) =>
      pose (y := v); change (P (g (f y))); cbv beta
  end.

(** Splits on the conditions a step tests. *)
Ltac split_step :=
  cbv zeta;
  repeat match goal with
    | |- context [if ?c then _ else _] => destruct c eqn:?
    | |- context [match ?e with pair _ _ => _ end] => destruct e eqn:?
    end.

(** One step of the chain that keeps the invariant [Inv], proved by [tac]
    from the invariant of the profile before it. *)
Ltac keep_step Inv tac :=
  let y := fresh "prof" in
  let Hy := fresh "Hprof" in
  let_next y;
  let goal_y := eval cbv beta in (Inv y) in
  assert (Hy : goal_y) by (subst y; split_step; tac);
  clearbody y.

(** One step of the chain of which nothing is remembered. *)
Ltac skip_step :=
  let y := fresh "prof" in
  let_next y; clearbody y.

Lemma Ok_inj {A : Type} (a b : A) : Ok a = Ok b -> a = b.
Proof. now intros [= ->]. Qed.

Module parseJSONFacts.
Import GoStrings profile github.

Lemma Itoa_not_empty (n : Z) : Itoa n <> EmptyString.
Proof.
  unfold Itoa. destruct n as [|p|p]; simpl; try discriminate;
    destruct (Pos.to_uint p); simpl; discriminate.
Qed.

Lemma emptyOnlyAt_empty : emptyOnlyAt ∅.
Proof. intros k H. now rewrite lookup_empty in H. Qed.

Lemma emptyOnlyAt_insert (m : gmap string string) (k v : string) :
  emptyOnlyAt m ->
  (v <> EmptyString \/ k = "email" \/ k = "company") ->
  emptyOnlyAt (<[k := v]> m).
Proof.
  intros Hm Hv k' Hk'. destruct (decide (k = k')) as [<- | Hne].
  - rewrite lookup_insert_eq in Hk'. injection Hk' as ->.
    destruct Hv as [Hv | Hv]; [now elim Hv | exact Hv].
  - rewrite lookup_insert_ne in Hk' by exact Hne. now apply Hm.
Qed.

Lemma eqb_false_not_empty (s : string) :
  negb (String.eqb s EmptyString) = true -> s <> EmptyString.
Proof. intros H ->. discriminate H. Qed.

Section Facts.
Variable M : string -> string.
Variable json_Unmarshal : string -> Result ghUser.
Variable htmlutil_ExtractEmailFromURL : string -> string * bool.

Local Abbreviation parse := (parseJSON M json_Unmarshal htmlutil_ExtractEmailFromURL).
Local Abbreviation build := (profileOf M htmlutil_ExtractEmailFromURL).

Lemma parseJSON_Err (data urlStr username : string) (e : error) :
  json_Unmarshal data = Err e -> parse data urlStr username = Err e.
Proof. intros H. unfold parseJSON. now rewrite H. Qed.

Lemma parseJSON_Ok (data urlStr username : string) (prof : Profile) :
  parse data urlStr username = Ok prof ->
  exists u, json_Unmarshal data = Ok u /\ prof = build u urlStr.
Proof.
  unfold parseJSON. destruct (json_Unmarshal data) as [u | e]; [|discriminate].
  intros H. apply Ok_inj in H. now exists u.
Qed.

(** Every profile built is of the platform github. *)
Lemma profileOf_Platform (u : ghUser) (urlStr : string) :
  Platform (build u urlStr) = "github".
Proof.
  cbv beta delta [profileOf].
  keep_step (fun p => Platform p = "github") ltac:(reflexivity).
  do 9 (keep_step (fun p => Platform p = "github") ltac:(simpl; assumption)).
  assumption.
Qed.

(** The URL is the one the caller passed. *)
Lemma profileOf_URL (u : ghUser) (urlStr : string) :
  URL (build u urlStr) = urlStr.
Proof.
  cbv beta delta [profileOf].
  keep_step (fun p => URL p = urlStr) ltac:(reflexivity).
  do 9 (keep_step (fun p => URL p = urlStr) ltac:(simpl; assumption)).
  assumption.
Qed.

Lemma profileOf_empty_values (u : ghUser) (urlStr : string) :
  emptyOnlyAt (Fields (build u urlStr)).
Proof.
  cbv beta delta [profileOf].
  keep_step (fun p => emptyOnlyAt (Fields p)) ltac:(apply emptyOnlyAt_empty).
  do 9 (keep_step (fun p => emptyOnlyAt (Fields p))
          ltac:(simpl;
                first [ assumption
                      | apply emptyOnlyAt_insert;
                        [ assumption
                        | solve [ right; left; reflexivity
                                | right; right; reflexivity
                                | left; apply Itoa_not_empty
                                | left; discriminate
                                | left; apply eqb_false_not_empty; assumption ] ] ])).
  assumption.
Qed.

(** What a company of a single at sign leaves in the map. *)
Lemma profileOf_company_at (u : ghUser) (urlStr : string) :
  Company u = "@" -> Fields (build u urlStr) !! "company" = Some EmptyString.
Proof.
  intros Hc. cbv beta delta [profileOf].
  do 3 skip_step.
  keep_step (fun p => Fields p !! "company" = Some EmptyString)
    ltac:(rewrite Hc in *; try discriminate; simpl; apply lookup_insert_eq).
  do 6 (keep_step (fun p => Fields p !! "company" = Some EmptyString)
          ltac:(simpl; rewrite ?lookup_insert_ne by discriminate; assumption)).
  assumption.
Qed.

(** What a blog of the bare scheme mailto leaves in the map when the
    account shows no e-mail address. *)
Lemma profileOf_blog_mailto (u : ghUser) (urlStr : string) :
  Blog u = "mailto:" -> Email u = EmptyString ->
  Fields (build u urlStr) !! "email" = Some EmptyString.
Proof.
  intros Hb He. cbv beta delta [profileOf].
  skip_step.
  keep_step (fun p => Fields p !! "email" = Some EmptyString)
    ltac:(rewrite Hb in *; try discriminate; simpl; apply lookup_insert_eq).
  keep_step (fun p => Fields p !! "email" = Some EmptyString)
    ltac:(rewrite He in *; try discriminate; assumption).
  do 7 (keep_step (fun p => Fields p !! "email" = Some EmptyString)
          ltac:(simpl; rewrite ?lookup_insert_ne by discriminate; assumption)).
  assumption.
Qed.
End Facts.

End parseJSONFacts.

(** C7 (the code departs from the claim).  parseJSON accepts the JSON object
    whose only member is a company of a single at sign; the profile it
    returns has the platform github, and its Fields map holds the key company
    with the empty string as value: the test for an empty company precedes
    the removal of the at sign. *)
Theorem github_parseJSON_empty_company
  (M : string -> string)
  (json_Unmarshal : string -> Result github.ghUser)
  (htmlutil_ExtractEmailFromURL : string -> string * bool)
  (data urlStr username : string) (u : github.ghUser) :
  json_Unmarshal data = Ok u ->
  github.Company u = "@" ->
  exists prof,
    github.parseJSON M json_Unmarshal htmlutil_ExtractEmailFromURL data urlStr username
    = Ok prof
    /\ profile.Platform prof = "github"
    /\ profile.Fields prof !! "company" = Some EmptyString.
Proof.
  intros Hu Hc. unfold github.parseJSON. rewrite Hu.
  eexists. split; [reflexivity|]. split.
  - apply parseJSONFacts.profileOf_Platform.
  - now apply parseJSONFacts.profileOf_company_at.
Qed.

Lemma github_parseJSON_empty_company_witness :
  exists prof,
    github.parseJSON samples.noUnicode (fun _ => Ok samples.companyAt)
      (fun _ => (EmptyString, false)) samples.companyAtJSON
      "https://github.com/octocat" "octocat" = Ok prof
    /\ profile.Platform prof = "github"
    /\ profile.Fields prof !! "company" = Some EmptyString.
Proof.
  apply (github_parseJSON_empty_company samples.noUnicode (fun _ => Ok samples.companyAt)
           (fun _ => (EmptyString, false)) samples.companyAtJSON
           "https://github.com/octocat" "octocat" samples.companyAt);
    reflexivity.
Defined.

Module parseJSONExamples.
Import samples.

Example companyAtJSON_text :
  String.length companyAtJSON = 15%nat
  /\ String.get 1 companyAtJSON = Some dquote.
Proof. split; reflexivity. Qed.

(** The fields of a well-filled account: the at sign of the company is
    stripped, the numbers are printed in decimal. *)
Example profileOf_octocat :
  profile.Fields (github.profileOf noUnicode (fun _ => (EmptyString, false))
                    octocat "https://github.com/octocat")
  = list_to_map
      [("company", "github"); ("followers", "120"); ("following", "9");
       ("public_repos", "8"); ("twitter", "https://twitter.com/octo");
       ("type", "User"); ("website", "https://github.blog")].
Proof. vm_compute. reflexivity. Qed.
End parseJSONExamples.

(** ** Package cache: the rate limiter *)

Module cacheFacts.
Import cache.

Lemma wrap64_small (z : Z) : isDuration z -> wrap64 z = z.
Proof.
  unfold isDuration, minDuration, maxDuration, wrap64. intros H.
  rewrite Z.mod_small; lia.
Qed.

Lemma timeSub_le (t u : Z) : u <= t -> 0 <= timeSub t u <= t - u.
Proof.
  unfold timeSub, maxDuration, minDuration. intros H.
  destruct (Z.ltb_spec (2 ^ 63 - 1) (t - u)); [lia|].
  destruct (Z.ltb_spec (t - u) (- 2 ^ 63)); lia.
Qed.

Lemma timeSub_exact (t u : Z) :
  u <= t -> timeSub t u = t - u \/ (timeSub t u = maxDuration /\ maxDuration < t - u).
Proof.
  unfold timeSub, maxDuration, minDuration. intros H.
  destruct (Z.ltb_spec (2 ^ 63 - 1) (t - u)); [right; lia|].
  destruct (Z.ltb_spec (t - u) (- 2 ^ 63)); left; lia.
Qed.

Lemma spacedAfter_spaced (d : Z) (before : option Z) (ts : list Z) :
  spacedAfter d before ts -> spaced d ts.
Proof.
  destruct before as [last|]; [|trivial]. destruct ts as [|t ts]; simpl; tauto.
Qed.

Lemma issuedAt_cons_eq (d : string) (t : Z) (log : list (string * Z)) :
  issuedAt d ((d, t) :: log) = t :: issuedAt d log.
Proof. unfold issuedAt. rewrite filter_cons_True by reflexivity. reflexivity. Qed.

Lemma issuedAt_cons_ne (d d' : string) (t : Z) (log : list (string * Z)) :
  d' <> d -> issuedAt d ((d', t) :: log) = issuedAt d log.
Proof. intros H. unfold issuedAt. now rewrite filter_cons_False. Qed.

Section Limiter.
Variable url_Parse : string -> Result url.URL.

Local Abbreviation Wait := (cache.Wait url_Parse).
Local Abbreviation WaitAll := (cache.WaitAll url_Parse).
Local Abbreviation domainOf := (extractDomain url_Parse).

(** A URL without a domain: nothing happens. *)
Lemma Wait_no_domain (r : DomainRateLimiter) (lag : Lag) (rawURL : string) (w : World) :
  domainOf rawURL = EmptyString -> Wait r lag rawURL w = (r, w, None).
Proof. intros H. unfold cache.Wait. now rewrite H. Qed.

(** A URL with a domain: the call stores the instant at which it ends
    under that domain, and the instant is at least [minDelay] after the
    one stored before. *)
Lemma Wait_domain (r : DomainRateLimiter) (lag : Lag) (rawURL : string) (w : World) :
  domainOf rawURL <> EmptyString ->
  exists w',
    Wait r lag rawURL w
    = ({| lastRequest := <[domainOf rawURL := clock w']> (lastRequest r);
          mu := {[ domainOf rawURL ]} ∪ mu r;
          minDelay := minDelay r |}, w', Some (domainOf rawURL, clock w'))
    /\ clock w <= clock w'
    /\ (isDuration (minDelay r) ->
        forall last, lastRequest r !! domainOf rawURL = Some last ->
                     last <= clock w -> minDelay r <= clock w' - last).
Proof.
  intros Hd. unfold cache.Wait.
  destruct (String.eqb_spec (domainOf rawURL) EmptyString) as [E | _]; [now elim Hd|].
  eexists. split; [reflexivity|].
  destruct (lastRequest r !! domainOf rawURL) as [last|] eqn:El.
  - unfold timeSince, timeNow. cbn [clock elapse].
    set (now1 := clock w + Z.of_N (lagLock lag)).
    assert (H1 : clock w <= now1) by (unfold now1; lia).
    destruct (Z.ltb_spec (timeSub now1 last) (minDelay r)) as [Hlt | Hge].
    + unfold timeSleep.
      destruct (Z.leb_spec (subDuration (minDelay r) (timeSub now1 last)) 0) as [Hs | Hs];
        cbn [clock sleeps elapse]; fold now1.
      * split; [lia|]. intros Hdur last' [= <-] Hlast.
        pose proof (timeSub_le now1 last ltac:(lia)) as Hsub.
        unfold subDuration in Hs.
        rewrite wrap64_small in Hs by (unfold isDuration, minDuration in *; lia).
        lia.
      * split; [lia|]. intros Hdur last' [= <-] Hlast.
        pose proof (timeSub_le now1 last ltac:(lia)) as Hsub.
        unfold subDuration in *.
        rewrite wrap64_small in * by (unfold isDuration, minDuration in *; lia).
        lia.
    + cbn [clock elapse]. fold now1. split; [lia|].
      intros Hdur last' [= <-] Hlast.
      destruct (timeSub_exact now1 last ltac:(lia)) as [Hs | [Hs Hbig]];
        unfold isDuration in Hdur; lia.
  - cbn [clock elapse]. split; [lia | discriminate].
Qed.

Lemma Wait_minDelay (r : DomainRateLimiter) (lag : Lag) (rawURL : string) (w : World) :
  minDelay (fst (fst (Wait r lag rawURL w))) = minDelay r.
Proof.
  unfold cache.Wait. now destruct (String.eqb (domainOf rawURL) EmptyString).
Qed.

Lemma Wait_notInFuture (r : DomainRateLimiter) (lag : Lag) (rawURL : string) (w : World) :
  notInFuture r w ->
  notInFuture (fst (fst (Wait r lag rawURL w))) (snd (fst (Wait r lag rawURL w))).
Proof.
  intros Hn.
  destruct (String.eqb_spec (domainOf rawURL) EmptyString) as [E | E].
  - now rewrite (Wait_no_domain _ _ _ _ E).
  - destruct (Wait_domain r lag rawURL w E) as (w' & -> & Hle & _).
    unfold notInFuture in *. cbn [fst snd lastRequest].
    intros d last. destruct (decide (domainOf rawURL = d)) as [<- | Hne].
    + rewrite lookup_insert_eq. intros [= <-]. lia.
    + rewrite lookup_insert_ne by exact Hne. intros H.
      specialize (Hn _ _ H). lia.
Qed.

(** The instants a sequence of calls records for a domain are spaced by
    at least [minDelay], the first of them counted from the instant the
    limiter held for the domain before the sequence. *)
Lemma WaitAll_spaced (calls : list (Lag * string)) :
  forall (r : DomainRateLimiter) (w : World) (d : string),
    isDuration (minDelay r) -> notInFuture r w ->
    spacedAfter (minDelay r) (lastRequest r !! d)
      (issuedAt d (snd (WaitAll calls r w))).
Proof.
  induction calls as [|[lag rawURL] calls IH]; intros r w d Hdur Hn.
  - simpl. destruct (lastRequest r !! d); exact I.
  - cbn [cache.WaitAll].
    pose proof (Wait_minDelay r lag rawURL w) as Hmin.
    pose proof (Wait_notInFuture r lag rawURL w Hn) as Hn'.
    destruct (String.eqb_spec (domainOf rawURL) EmptyString) as [E | E].
    + rewrite (Wait_no_domain _ _ _ _ E) in *. simpl in Hmin, Hn'.
      specialize (IH r w d Hdur Hn).
      destruct (cache.WaitAll url_Parse calls r w) as [[r2 w2] log]. exact IH.
    + destruct (Wait_domain r lag rawURL w E) as (w' & Hw & Hle & Hsp).
      rewrite Hw in *. simpl in Hmin, Hn'.
      set (r1 := {| lastRequest := _ |}) in *.
      specialize (IH r1 w' d Hdur Hn').
      destruct (cache.WaitAll url_Parse calls r1 w') as [[r2 w2] log].
      cbn [snd] in *. change (minDelay r1) with (minDelay r) in IH.
      destruct (decide (domainOf rawURL = d)) as [<- | Hne].
      * rewrite issuedAt_cons_eq.
        unfold r1 in IH; cbn [lastRequest] in IH. rewrite lookup_insert_eq in IH.
        destruct (lastRequest r !! domainOf rawURL) as [last|] eqn:El;
          cbn [spacedAfter] in *; [|exact IH].
        split; [|exact IH]. apply (Hsp Hdur last eq_refl). exact (Hn _ _ El).
      * rewrite issuedAt_cons_ne by exact Hne.
        unfold r1 in IH; cbn [lastRequest] in IH.
        now rewrite lookup_insert_ne in IH by exact Hne.
Qed.

(** A caller that finds less than [minDelay] elapsed asks [time.Sleep]
    for exactly the remainder. *)
Lemma Wait_sleeps_remainder (r : DomainRateLimiter) (lag : Lag) (rawURL : string)
  (w : World) (last : Z) :
  isDuration (minDelay r) ->
  domainOf rawURL <> EmptyString ->
  lastRequest r !! domainOf rawURL = Some last ->
  last <= clock w ->
  timeSince last (elapse (lagLock lag) w) < minDelay r ->
  sleeps (snd (fst (Wait r lag rawURL w)))
  = (minDelay r - timeSince last (elapse (lagLock lag) w)) :: sleeps w.
Proof.
  intros Hdur Hd Hl Hlast Hlt. unfold cache.Wait.
  destruct (String.eqb_spec (domainOf rawURL) EmptyString) as [E | _]; [now elim Hd|].
  rewrite Hl. apply Z.ltb_lt in Hlt. rewrite Hlt. cbn [fst snd elapse sleeps].
  apply Z.ltb_lt in Hlt.
  assert (Hs : 0 <= timeSince last (elapse (lagLock lag) w)).
  { unfold timeSince, timeNow. apply timeSub_le. simpl. lia. }
  unfold subDuration. rewrite wrap64_small by (unfold isDuration, minDuration in *; lia).
  unfold timeSleep. now destruct (_ <=? 0).
Qed.
End Limiter.

End cacheFacts.

(** What a sequence of calls leaves in the limiter. *)

Module cacheMore.
Import cache cacheFacts.

Section Limiter.
Variable url_Parse : string -> Result url.URL.

Local Abbreviation Wait := (cache.Wait url_Parse).
Local Abbreviation WaitAll := (cache.WaitAll url_Parse).
Local Abbreviation domainOf := (extractDomain url_Parse).

(** What a sequence of calls leaves in the two maps. *)
Lemma WaitAll_maps (calls : list (Lag * string)) :
  forall (r : DomainRateLimiter) (w : World),
    (forall d,
        lastRequest (fst (fst (WaitAll calls r w))) !! d
        = match last (issuedAt d (snd (WaitAll calls r w))) with
          | Some t => Some t
          | None => lastRequest r !! d
          end)
    /\ mu (fst (fst (WaitAll calls r w)))
       = mu r ∪ list_to_set (map fst (snd (WaitAll calls r w))).
Proof.
  induction calls as [|[lag rawURL] calls IH]; intros r w.
  - simpl. split; [reflexivity | now rewrite (right_id_L ∅ (∪))].
  - cbn [cache.WaitAll].
    destruct (String.eqb_spec (domainOf rawURL) EmptyString) as [E | E].
    + rewrite (Wait_no_domain _ _ _ _ _ E).
      specialize (IH r w).
      destruct (cache.WaitAll url_Parse calls r w) as [[r2 w2] log]. exact IH.
    + destruct (Wait_domain url_Parse r lag rawURL w E) as (w' & Hw & _ & _).
      rewrite Hw. set (r1 := {| lastRequest := _ |}).
      specialize (IH r1 w').
      destruct (cache.WaitAll url_Parse calls r1 w') as [[r2 w2] log].
      cbn [fst snd] in *. destruct IH as [IHl IHm]. split.
      * intros d. rewrite IHl.
        destruct (decide (domainOf rawURL = d)) as [<- | Hne].
        -- rewrite issuedAt_cons_eq. unfold r1; cbn [lastRequest].
           rewrite lookup_insert_eq.
           destruct (issuedAt (domainOf rawURL) log) as [|t ts] eqn:El;
             [reflexivity|].
           change (last (clock w' :: t :: ts)) with (last (t :: ts)).
           destruct (last (t :: ts)) eqn:E2; [reflexivity|].
           apply last_None in E2. discriminate.
        -- rewrite issuedAt_cons_ne by exact Hne. unfold r1; cbn [lastRequest].
           now rewrite lookup_insert_ne by exact Hne.
      * rewrite IHm. unfold r1; cbn [mu map fst list_to_set].
        rewrite (comm_L (∪) {[domainOf rawURL]} (mu r)).
        now rewrite <- (assoc_L (∪)).
Qed.

Lemma issuedAt_in_log (d : string) (log : list (string * Z)) :
  issuedAt d log <> [] <-> d ∈ map fst log.
Proof.
  induction log as [|[d' t] log IH]; simpl.
  - unfold issuedAt. simpl. split; [congruence | intros H; inversion H].
  - destruct (decide (d' = d)) as [-> | Hne].
    + rewrite issuedAt_cons_eq. split; [intros _; left | discriminate].
    + rewrite issuedAt_cons_ne by exact Hne. rewrite IH.
      split; [intros H; now right | intros H].
      apply elem_of_cons in H as [H | H]; [congruence | exact H].
Qed.
(** Every call whose URL has a host records one instant, in the order of
    the calls. *)
Lemma WaitAll_domains (calls : list (Lag * string)) :
  forall (r : DomainRateLimiter) (w : World),
    map fst (snd (WaitAll calls r w))
    = filter (fun d => d <> EmptyString) (map (fun c => domainOf (snd c)) calls).
Proof.
  induction calls as [|[lag rawURL] calls IH]; intros r w; [reflexivity|].
  cbn [cache.WaitAll map snd].
  destruct (String.eqb_spec (domainOf rawURL) EmptyString) as [E | E].
  - rewrite (Wait_no_domain _ _ _ _ _ E), filter_cons_False by (intros H; now apply H).
    specialize (IH r w).
    destruct (cache.WaitAll url_Parse calls r w) as [[r2 w2] log]. exact IH.
  - destruct (Wait_domain url_Parse r lag rawURL w E) as (w' & Hw & _ & _).
    rewrite Hw, filter_cons_True by exact E. set (r1 := {| lastRequest := _ |}).
    specialize (IH r1 w').
    destruct (cache.WaitAll url_Parse calls r1 w') as [[r2 w2] log].
    cbn [snd map fst] in *. now rewrite IH.
Qed.

(** A call for a host without a recorded instant does not sleep. *)
Lemma Wait_new_host (r : DomainRateLimiter) (lag : Lag) (rawURL : string) (w : World) :
  lastRequest r !! domainOf rawURL = None ->
  sleeps (snd (fst (Wait r lag rawURL w))) = sleeps w.
Proof.
  intros Hl. unfold cache.Wait.
  destruct (String.eqb (domainOf rawURL) EmptyString); [reflexivity|].
  now rewrite Hl.
Qed.

(** What a call leaves of the entries of the other hosts. *)
Lemma Wait_other_hosts (r : DomainRateLimiter) (lag : Lag) (rawURL : string) (w : World)
  (d : string) :
  d <> domainOf rawURL ->
  lastRequest (fst (fst (Wait r lag rawURL w))) !! d = lastRequest r !! d.
Proof.
  intros Hd. unfold cache.Wait.
  destruct (String.eqb (domainOf rawURL) EmptyString); [reflexivity|].
  cbn [fst lastRequest]. now rewrite lookup_insert_ne by congruence.
Qed.

(** A run over hosts that are pairwise distinct and have no recorded
    instant never sleeps. *)
Lemma WaitAll_distinct_hosts (calls : list (Lag * string)) :
  forall (r : DomainRateLimiter) (w : World),
    NoDup (filter (fun d => d <> EmptyString) (map (fun c => domainOf (snd c)) calls)) ->
    (forall c, In c calls -> lastRequest r !! domainOf (snd c) = None) ->
    sleeps (snd (fst (WaitAll calls r w))) = sleeps w.
Proof.
  induction calls as [|[lag rawURL] calls IH]; intros r w Hnd Hnew; [reflexivity|].
  cbn [cache.WaitAll].
  pose proof (Wait_new_host r lag rawURL w (Hnew (lag, rawURL) (or_introl eq_refl))) as Hs.
  assert (Hrest : forall c, In c calls ->
                    lastRequest (fst (fst (Wait r lag rawURL w))) !! domainOf (snd c)
                    = None).
  { intros c Hc.
    destruct (String.eqb_spec (domainOf rawURL) EmptyString) as [E | E].
    - rewrite (Wait_no_domain _ _ _ _ _ E). apply Hnew. now right.
    - destruct (decide (domainOf (snd c) = domainOf rawURL)) as [Heq | Hne].
      + exfalso. cbn [map snd] in Hnd. rewrite filter_cons_True in Hnd by exact E.
        apply NoDup_cons in Hnd as [Hnotin _]. apply Hnotin.
        apply list_elem_of_filter. split; [exact E|].
        rewrite <- Heq. apply list_elem_of_In, in_map_iff. now exists c.
      + rewrite Wait_other_hosts by exact Hne. apply Hnew. now right. }
  assert (Hnd' : NoDup (filter (fun d => d <> EmptyString)
                          (map (fun c => domainOf (snd c)) calls))).
  { cbn [map snd] in Hnd.
    destruct (String.eqb_spec (domainOf rawURL) EmptyString) as [E | E].
    - now rewrite filter_cons_False in Hnd by (intros H; now apply H).
    - rewrite filter_cons_True in Hnd by exact E. now apply NoDup_cons in Hnd as [_ ?]. }
  destruct (Wait r lag rawURL w) as [[r1 w1] ev]. cbn [fst snd] in *.
  specialize (IH r1 w1 Hnd' Hrest).
  destruct (cache.WaitAll url_Parse calls r1 w1) as [[r2 w2] log].
  cbn [fst snd] in *. congruence.
Qed.
End Limiter.

End cacheMore.

(** C1.  With a delay that is a time.Duration: every completed call of Wait
    whose URL has a host records its own request time, the instant at which
    it returns, in lastRequest under that host; when the limiter held an
    earlier instant for the host, the recorded one is at least minDelay after
    it, and a caller that finds less than minDelay elapsed asks time.Sleep
    for exactly the remainder before it records.  So for any sequence of
    completed calls on a new limiter, whatever other hosts it visits and
    however the clock advances in between, each call with a host recorded
    one instant, lastRequest holds for each host the latest instant recorded
    for it, and the instants recorded for one host are at least minDelay
    apart. *)
Theorem Wait_spaces_requests
  (url_Parse : string -> Result url.URL) (minDelay : Z) :
  cache.isDuration minDelay ->
  (forall (calls : list (cache.Lag * string)) (w : cache.World),
      map fst (snd (cache.WaitAll url_Parse calls (cache.NewDomainRateLimiter minDelay) w))
      = filter (fun d => d <> EmptyString)
          (map (fun c => cache.extractDomain url_Parse (snd c)) calls)
      /\ forall domain : string,
          cache.lastRequest
            (fst (fst (cache.WaitAll url_Parse calls
                         (cache.NewDomainRateLimiter minDelay) w))) !! domain
          = last (cache.issuedAt domain
                    (snd (cache.WaitAll url_Parse calls
                            (cache.NewDomainRateLimiter minDelay) w)))
          /\ cache.spaced minDelay
               (cache.issuedAt domain
                  (snd (cache.WaitAll url_Parse calls
                          (cache.NewDomainRateLimiter minDelay) w))))
  /\ (forall (r : cache.DomainRateLimiter) (lag : cache.Lag) (rawURL : string)
        (w : cache.World),
         cache.minDelay r = minDelay ->
         cache.extractDomain url_Parse rawURL <> EmptyString ->
         exists t,
           snd (cache.Wait url_Parse r lag rawURL w)
           = Some (cache.extractDomain url_Parse rawURL, t)
           /\ cache.lastRequest (fst (fst (cache.Wait url_Parse r lag rawURL w)))
                !! cache.extractDomain url_Parse rawURL = Some t
           /\ t = cache.clock (snd (fst (cache.Wait url_Parse r lag rawURL w)))
           /\ forall last,
               cache.lastRequest r !! cache.extractDomain url_Parse rawURL = Some last ->
               last <= cache.clock w ->
               minDelay <= t - last
               /\ (cache.timeSince last (cache.elapse (cache.lagLock lag) w) < minDelay ->
                   cache.sleeps (snd (fst (cache.Wait url_Parse r lag rawURL w)))
                   = (minDelay - cache.timeSince last (cache.elapse (cache.lagLock lag) w))
                       :: cache.sleeps w)).
Proof.
  intros Hdur. split.
  - intros calls w. split; [apply cacheMore.WaitAll_domains|].
    intros domain. split.
    + rewrite (proj1 (cacheMore.WaitAll_maps url_Parse calls
                        (cache.NewDomainRateLimiter minDelay) w)).
      cbn [cache.lastRequest cache.NewDomainRateLimiter]. rewrite lookup_empty.
      now destruct (last _).
    + apply (cacheFacts.spacedAfter_spaced minDelay
               (cache.lastRequest (cache.NewDomainRateLimiter minDelay) !! domain)).
      apply (cacheFacts.WaitAll_spaced url_Parse calls
               (cache.NewDomainRateLimiter minDelay)); [exact Hdur|].
      intros d last H. simpl in H. now rewrite lookup_empty in H.
  - intros r lag rawURL w <- Hd.
    destruct (cacheFacts.Wait_domain url_Parse r lag rawURL w Hd) as (w' & Hw & _ & Hsp).
    exists (cache.clock w').
    split; [now rewrite Hw|]. split; [rewrite Hw; apply lookup_insert_eq|].
    split; [now rewrite Hw|].
    intros last Hl Hlast. split; [now apply Hsp|].
    intros Hlt. now apply cacheFacts.Wait_sleeps_remainder.
Qed.

Lemma Wait_spaces_requests_witness :
  cache.isDuration 1000
  /\ cache.spaced 1000
       (cache.issuedAt "example.com"
          (snd (cache.WaitAll samples.parseURL samples.fiveCalls
                  (cache.NewDomainRateLimiter 1000) samples.startOfTime)))
  /\ exists t,
      cache.lastRequest
        (fst (fst (cache.Wait samples.parseURL
                     {| cache.lastRequest := {[ "example.com" := 5 ]};
                        cache.mu := {[ "example.com" ]}; cache.minDelay := 1000 |}
                     (samples.lag 200 3 1) "http://example.com/b?x=1"
                     {| cache.clock := 5; cache.sleeps := [] |})))
        !! "example.com" = Some t
      /\ 1000 <= t - 5.
Proof.
  assert (H : cache.isDuration 1000) by (unfold cache.isDuration; vm_compute; split; discriminate).
  destruct (Wait_spaces_requests samples.parseURL 1000 H) as [Hrun Hcall].
  split; [exact H|]. split; [apply (proj2 (proj2 (Hrun _ _) _))|].
  destruct (Hcall {| cache.lastRequest := {[ "example.com" := 5 ]};
                     cache.mu := {[ "example.com" ]}; cache.minDelay := 1000 |}
              (samples.lag 200 3 1) "http://example.com/b?x=1"
              {| cache.clock := 5; cache.sleeps := [] |} eq_refl)
    as (t & _ & Hrec & _ & Hlast); [discriminate|].
  exists t. split; [exact Hrec|].
  apply (Hlast 5); [reflexivity | reflexivity].
Defined.

(** C8.  The rate limiter fails open: for a URL that url.Parse refuses, or
    that parses with an empty Host, Wait returns at once: the limiter (its
    lastRequest entries and its per-host mutexes) and the world (the clock
    and the sleeps) are what they were, and nothing is recorded.  The key
    used for pacing is the Host of the parsed URL alone: two URLs with the
    same Host are treated alike, whatever their scheme, path and query. *)
Theorem Wait_fails_open
  (url_Parse : string -> Result url.URL)
  (r : cache.DomainRateLimiter) (lag : cache.Lag) (w : cache.World) :
  (forall rawURL : string,
      (exists e, url_Parse rawURL = Err e)
      \/ (exists u, url_Parse rawURL = Ok u /\ url.Host u = EmptyString) ->
      cache.Wait url_Parse r lag rawURL w = (r, w, None))
  /\ (forall (rawURL1 rawURL2 : string) (u1 u2 : url.URL),
         url_Parse rawURL1 = Ok u1 ->
         url_Parse rawURL2 = Ok u2 ->
         url.Host u1 = url.Host u2 ->
         cache.extractDomain url_Parse rawURL1 = url.Host u1
         /\ cache.Wait url_Parse r lag rawURL1 w = cache.Wait url_Parse r lag rawURL2 w).
Proof.
  split.
  - intros rawURL H. apply cacheFacts.Wait_no_domain. unfold cache.extractDomain.
    destruct H as [[e ->] | (u & -> & Hu)]; [reflexivity | exact Hu].
  - intros rawURL1 rawURL2 u1 u2 H1 H2 Hh.
    unfold cache.Wait, cache.extractDomain. rewrite H1, H2, Hh. now split.
Qed.

Lemma Wait_fails_open_witness :
  cache.Wait samples.parseURL (cache.NewDomainRateLimiter 1000) (samples.lag 5 0 0)
    "::not a url" samples.startOfTime
  = (cache.NewDomainRateLimiter 1000, samples.startOfTime, None)
  /\ cache.Wait samples.parseURL (cache.NewDomainRateLimiter 1000) (samples.lag 5 0 0)
       "/only/a/path" samples.startOfTime
     = (cache.NewDomainRateLimiter 1000, samples.startOfTime, None)
  /\ cache.Wait samples.parseURL (cache.NewDomainRateLimiter 1000) (samples.lag 5 0 0)
       "https://example.com/a" samples.startOfTime
     = cache.Wait samples.parseURL (cache.NewDomainRateLimiter 1000) (samples.lag 5 0 0)
         "http://example.com/b?x=1" samples.startOfTime.
Proof.
  destruct (Wait_fails_open samples.parseURL (cache.NewDomainRateLimiter 1000)
              (samples.lag 5 0 0) samples.startOfTime) as [Hopen Hkey].
  split; [|split].
  - apply Hopen. left. exists "parse error". reflexivity.
  - apply Hopen. right. eexists. split; reflexivity.
  - eapply Hkey; reflexivity.
Defined.

Module cacheExamples.
Import samples.

(** The second call for example.com arrives 200ns after the first and
    sleeps 800ns (and 3ns more); the third arrives late and does not
    sleep.  The URL that does not parse leaves no trace. *)
Example fiveCalls_log :
  snd (cache.WaitAll parseURL fiveCalls (cache.NewDomainRateLimiter 1000) startOfTime)
  = [("example.com", 5); ("example.com", 1009); ("other.example:8443", 1009);
     ("example.com", 5011)].
Proof. vm_compute. reflexivity. Qed.

Example fiveCalls_sleeps :
  cache.sleeps
    (snd (fst (cache.WaitAll parseURL fiveCalls (cache.NewDomainRateLimiter 1000)
                 startOfTime)))
  = [800].
Proof. vm_compute. reflexivity. Qed.

Example fiveCalls_mutexes :
  cache.mu
    (fst (fst (cache.WaitAll parseURL fiveCalls (cache.NewDomainRateLimiter 1000)
                 startOfTime)))
  = {[ "example.com"; "other.example:8443" ]}.
Proof. vm_compute. reflexivity. Qed.

Example timeSub_saturates : cache.timeSub (2 ^ 64) 0 = 2 ^ 63 - 1.
Proof. reflexivity. Qed.
End cacheExamples.

(** ** The generic fallback *)

(** C2.  The generic matcher accepts every URL string; so a registry that
    tries its matchers in order and has the generic one last resolves every
    URL to a handle. *)
Theorem generic_Match_always (urlStr : string) :
  generic.Match urlStr = true
  /\ forall platforms : list registry.Platform,
      exists handle,
        registry.Resolve (platforms ++ [registry.genericPlatform]) urlStr = Some handle.
Proof.
  split; [reflexivity|].
  induction platforms as [|m platforms IH]; simpl.
  - now exists registry.genericPlatform.
  - destruct (registry.Matches m urlStr); [now exists m | exact IH].
Qed.

Module genericFacts.
Import GoStrings profile IO generic.

Section Facts.
Variable M : string -> string.
Variable url_Parse : string -> Result url.URL.
Variable net_ParseIP : string -> option net.IP.

Local Abbreviation validate := (validateURL M url_Parse net_ParseIP).
Local Abbreviation internal := (internalTarget net_ParseIP).

Lemma validateURL_parse_error (urlStr : string) (e : error) :
  url_Parse urlStr = Err e -> validate urlStr = Some ("invalid URL: " ++ e).
Proof. intros H. unfold validateURL. now rewrite H. Qed.

(** validateURL refuses exactly the internal targets among the URLs that
    parse. *)
Lemma validateURL_internal (urlStr : string) (parsed : url.URL) :
  url_Parse urlStr = Ok parsed ->
  internal (ToLower M (url.Hostname parsed)) ->
  exists e, validate urlStr = Some e.
Proof.
  intros Hp Hi. unfold validateURL. rewrite Hp.
  set (host := ToLower M (url.Hostname parsed)) in *.
  destruct (_ || _ || _ || _ || _) eqn:E1; [eauto|].
  repeat (apply orb_false_elim in E1 as [E1 ?]).
  destruct (match net_ParseIP host with Some _ => _ | None => _ end) eqn:E2; [eauto|].
  destruct (_ || _ || _) eqn:E3; [eauto|].
  repeat (apply orb_false_elim in E3 as [E3 ?]).
  exfalso. unfold internalTarget in Hi.
  destruct Hi as [Hi | [Hi | [Hi | [Hi | [Hi | [Hi | [Hi | [Hi | Hi]]]]]]]];
    try (apply String.eqb_eq in Hi; congruence); try congruence.
  destruct Hi as (ip & Hip & Hi). rewrite Hip in E2.
  repeat (apply orb_false_elim in E2 as [E2 ?]).
  destruct Hi as [Hi | [Hi | [Hi | Hi]]]; congruence.
Qed.

Lemma validateURL_accepts (urlStr : string) :
  validate urlStr = None ->
  exists parsed, url_Parse urlStr = Ok parsed
                 /\ ~ internal (ToLower M (url.Hostname parsed)).
Proof.
  intros Hv. destruct (url_Parse urlStr) as [parsed | e] eqn:Hp.
  - exists parsed. split; [reflexivity|]. intros Hi.
    destruct (validateURL_internal urlStr parsed Hp Hi) as [e He]. congruence.
  - rewrite (validateURL_parse_error _ _ Hp) in Hv. discriminate.
Qed.
End Facts.

End genericFacts.

(** C9.  The generic client refuses internal targets before any I/O: when the
    URL it is to fetch (the argument, with https:// in front when it carries
    no http scheme) parses and its host name, compared in lower case as
    validateURL does, is localhost, 127.0.0.1 or ::1, ends in .local or
    .internal, parses as a loopback, private or link-local address, or is a
    metadata endpoint, Fetch returns an error and its trace of events is
    empty: nothing was logged, no request was built and cache.FetchURL was
    not called. *)
Theorem generic_Fetch_refuses_internal
  (M : string -> string)
  (url_Parse : string -> Result url.URL)
  (net_ParseIP : string -> option net.IP)
  (NewRequestWithContext : string -> string -> Result http.Request)
  (cache_FetchURL : generic.Client -> http.Request -> Result string)
  (parseHTML : string -> string -> profile.Profile)
  (c : generic.Client) (urlStr : string) (parsed : url.URL) :
  url_Parse (generic.withScheme urlStr) = Ok parsed ->
  generic.internalTarget net_ParseIP (GoStrings.ToLower M (url.Hostname parsed)) ->
  exists e,
    generic.Fetch M url_Parse net_ParseIP NewRequestWithContext cache_FetchURL parseHTML
      c urlStr = (Err e, []).
Proof.
  intros Hp Hi.
  destruct (genericFacts.validateURL_internal M url_Parse net_ParseIP _ _ Hp Hi) as [e He].
  exists e. unfold generic.Fetch. now rewrite He.
Qed.

Lemma generic_Fetch_refuses_internal_witness :
  samples.parseURL (generic.withScheme "https://LocalHost:8080/admin")
  = Ok (samples.mkURL "https" "LocalHost:8080" "/admin" EmptyString)
  /\ GoStrings.ToLower samples.noUnicode
       (url.Hostname (samples.mkURL "https" "LocalHost:8080" "/admin" EmptyString))
     = "localhost"
  /\ exists e, samples.fetchGeneric "https://LocalHost:8080/admin" = (Err e, []).
Proof.
  split; [reflexivity|]. split; [reflexivity|].
  apply (generic_Fetch_refuses_internal samples.noUnicode samples.parseURL samples.parseIP
           samples.newRequest (fun _ _ => Ok "<html>") _ samples.genericClient
           "https://LocalHost:8080/admin"
           (samples.mkURL "https" "LocalHost:8080" "/admin" EmptyString)).
  - reflexivity.
  - left. reflexivity.
Defined.

Module genericExamples.
Import samples.

Example Hostname_port : url.Hostname (mkURL "https" "other.example:8443" "/" EmptyString)
                        = "other.example".
Proof. reflexivity. Qed.

Example Hostname_brackets : url.Hostname (mkURL "https" "[fe80::1]" "/" EmptyString)
                            = "fe80::1".
Proof. reflexivity. Qed.

Example Hostname_brackets_port :
  url.Hostname (mkURL "https" "[::1]:8080" "/" EmptyString) = "::1".
Proof. reflexivity. Qed.

Example private_address : fetchGeneric "https://10.0.0.7/" = (Err "blocked: private IP", []).
Proof. reflexivity. Qed.

Example link_local_address :
  fetchGeneric "https://[fe80::1]/" = (Err "blocked: private IP", []).
Proof. reflexivity. Qed.

Example unparsable : fetchGeneric "::not a url" = (Err "invalid URL: parse error", []).
Proof. reflexivity. Qed.

Example public_site :
  IO.noRequest (snd (fetchGeneric "https://example.com/a")) = false.
Proof. vm_compute. reflexivity. Qed.

(** The metadata address is link-local, so the address test already
    refuses it. *)
Example metadata_address :
  net.IsLinkLocalUnicast [0; 0; 0; 0; 0; 0; 0; 0; 0; 0; 255; 255; 169; 254; 169; 254]
  = true.
Proof. reflexivity. Qed.

Example loopback_addresses :
  net.IsLoopback [127; 0; 0; 1] = true /\ net.IsLoopback net.IPv6loopback = true
  /\ net.IsLoopback [0; 0; 0; 0; 0; 0; 0; 0; 0; 0; 255; 255; 127; 1; 2; 3] = true
  /\ net.IsLoopback [8; 8; 8; 8] = false.
Proof. repeat split; reflexivity. Qed.

Example private_addresses :
  net.IsPrivate [172; 31; 0; 1] = true /\ net.IsPrivate [172; 32; 0; 1] = false
  /\ net.IsPrivate [192; 168; 1; 1] = true
  /\ net.IsPrivate [253; 0; 0; 0; 0; 0; 0; 0; 0; 0; 0; 0; 0; 0; 0; 1] = true.
Proof. repeat split; reflexivity. Qed.
End genericExamples.

(** ** Package codeberg *)

Module codebergFacts.
Import GoStrings profile IO codeberg.

Section Facts.
Variable FindStringSubmatch : string -> string -> list string.
Variable html_UnescapeString : string -> string.
Variable TrimSpace : string -> string.
Variable NewRequestWithContext : string -> string -> Result http.Request.

Local Abbreviation parse :=
  (parseHTML FindStringSubmatch html_UnescapeString TrimSpace).
Local Abbreviation page :=
  (fetchPage FindStringSubmatch html_UnescapeString TrimSpace NewRequestWithContext).
Local Abbreviation fetch :=
  (Fetch FindStringSubmatch html_UnescapeString TrimSpace NewRequestWithContext).
Local Abbreviation usernameOf := (extractUsername FindStringSubmatch).
Local Abbreviation urlOf := (profileURL FindStringSubmatch).

(** No step of parseHTML touches SocialLinks. *)
Lemma parseHTML_SocialLinks (data urlStr username : string) :
  SocialLinks (parse data urlStr username) = [].
Proof.
  cbv beta delta [parseHTML].
  skip_step.
  keep_step (fun p => SocialLinks p = []) ltac:(reflexivity).
  repeat first
    [ keep_step (fun p => SocialLinks p = []) ltac:(simpl; assumption)
    | skip_step ].
  assumption.
Qed.

Lemma parseHTML_Platform (data urlStr username : string) :
  Platform (parse data urlStr username) = "codeberg".
Proof.
  cbv beta delta [parseHTML].
  skip_step.
  keep_step (fun p => Platform p = "codeberg") ltac:(reflexivity).
  repeat first
    [ keep_step (fun p => Platform p = "codeberg") ltac:(simpl; assumption)
    | skip_step ].
  assumption.
Qed.

(** Fetch once a user name was extracted. *)
Lemma Fetch_with_username (c : Client) (urlStr : string) :
  usernameOf urlStr <> EmptyString ->
  fetch c urlStr
  = (emit (LogInfo "fetching codeberg profile"
             [("url", urlOf urlStr); ("username", usernameOf urlStr)]) ;;;
     match cache c with
     | Some hc =>
         emit (CacheGet (urlOf urlStr)) ;;;
         let '(data, _, _, found) := Get hc (urlOf urlStr) in
         if found then ret (parse data (urlOf urlStr) (usernameOf urlStr))
         else page c (urlOf urlStr) (usernameOf urlStr)
     | None => page c (urlOf urlStr) (usernameOf urlStr)
     end).
Proof.
  intros Hu. unfold Fetch, profileURL.
  destruct (String.eqb_spec (usernameOf urlStr) EmptyString) as [E | _];
    [now elim Hu | reflexivity].
Qed.

Lemma Fetch_hit (c : Client) (hc : HTTPCache) (urlStr data etag : string)
  (headers : gmap string string) :
  usernameOf urlStr <> EmptyString ->
  cache c = Some hc ->
  Get hc (urlOf urlStr) = (data, etag, headers, true) ->
  fetch c urlStr
  = (Ok (parse data (urlOf urlStr) (usernameOf urlStr)),
     [LogInfo "fetching codeberg profile"
        [("url", urlOf urlStr); ("username", usernameOf urlStr)];
      CacheGet (urlOf urlStr)]).
Proof.
  intros Hu Hc Hg. rewrite (Fetch_with_username c urlStr Hu), Hc, Hg.
  reflexivity.
Qed.

Lemma Fetch_miss (c : Client) (hc : HTTPCache) (urlStr data etag : string)
  (headers : gmap string string) :
  usernameOf urlStr <> EmptyString ->
  cache c = Some hc ->
  Get hc (urlOf urlStr) = (data, etag, headers, false) ->
  fetch c urlStr
  = (fst (page c (urlOf urlStr) (usernameOf urlStr)),
     ([LogInfo "fetching codeberg profile"
         [("url", urlOf urlStr); ("username", usernameOf urlStr)];
       CacheGet (urlOf urlStr)]
      ++ snd (page c (urlOf urlStr) (usernameOf urlStr)))%list).
Proof.
  intros Hu Hc Hg. rewrite (Fetch_with_username c urlStr Hu), Hc, Hg.
  rewrite !IOFacts.bind_emit. cbn [fst snd].
  now destruct (page c (urlOf urlStr) (usernameOf urlStr)).
Qed.

(** The network path sends the request as soon as one could be built. *)
Lemma fetchPage_sends (c : Client) (urlStr username : string) (req : http.Request) :
  NewRequestWithContext http.MethodGet urlStr = Ok req ->
  exists rest,
    snd (page c urlStr username)
    = HTTPDo (http.SetHeader "User-Agent" userAgent req) :: rest.
Proof.
  intros Hr. unfold fetchPage. rewrite Hr, IOFacts.bind_lift_Ok, IOFacts.bind_emit.
  cbn [snd]. eauto.
Qed.

(** The network path with a page that was read: the profile parsed from
    the body, whatever the cache and its SetAsync do. *)
Lemma fetchPage_Ok (c : Client) (urlStr username body : string)
  (req : http.Request) (resp : http.Response) :
  NewRequestWithContext http.MethodGet urlStr = Ok req ->
  httpClient c (http.SetHeader "User-Agent" userAgent req) = Ok resp ->
  http.StatusCode resp = http.StatusOK ->
  http.ReadAllLimit (2 ^ 20) (http.respBody resp) = Ok body ->
  fst (page c urlStr username) = Ok (parse body urlStr username).
Proof.
  intros Hr Hd Hs Hb. unfold fetchPage.
  rewrite Hr, IOFacts.bind_lift_Ok, IOFacts.bind_emit. cbn [fst].
  rewrite Hd, IOFacts.bind_lift_Ok, Hs. cbn [negb Z.eqb http.StatusOK Pos.eqb].
  rewrite Hb, IOFacts.bind_lift_Ok.
  now destruct (cache c) as [hc|].
Qed.
End Facts.

End codebergFacts.

(** C10.  Codeberg profiles never extend the crawl frontier: for every HTML
    input (and every URL and user name), the Profile that the Codeberg
    parseHTML returns has an empty SocialLinks list, whatever the regular
    expressions match. *)
Theorem codeberg_parseHTML_no_SocialLinks
  (FindStringSubmatch : string -> string -> list string)
  (html_UnescapeString TrimSpace : string -> string)
  (data urlStr username : string) :
  profile.SocialLinks
    (codeberg.parseHTML FindStringSubmatch html_UnescapeString TrimSpace
       data urlStr username) = [].
Proof. apply codebergFacts.parseHTML_SocialLinks. Qed.

(** C6.  A cache hit short-circuits the network.  For a URL from which a
    user name can be extracted and a client with a cache: when Get reports
    found for the normalised profile URL, Fetch returns the Profile parsed
    from the cached bytes with a nil error, and its trace (the log entry and
    the cache lookup) holds no HTTP request; when Get reports a miss, Fetch
    is no error of its own: it continues with the network path, returns what
    that path returns, and sends the HTTP request as soon as the request
    could be built. *)
Theorem codeberg_Fetch_cache_hit
  (FindStringSubmatch : string -> string -> list string)
  (html_UnescapeString TrimSpace : string -> string)
  (NewRequestWithContext : string -> string -> Result http.Request)
  (c : codeberg.Client) (hc : HTTPCache) (urlStr data etag : string)
  (headers : gmap string string) (found : bool) :
  codeberg.extractUsername FindStringSubmatch urlStr <> EmptyString ->
  codeberg.cache c = Some hc ->
  Get hc (codeberg.profileURL FindStringSubmatch urlStr) = (data, etag, headers, found) ->
  if found then
    fst (codeberg.Fetch FindStringSubmatch html_UnescapeString TrimSpace
           NewRequestWithContext c urlStr)
    = Ok (codeberg.parseHTML FindStringSubmatch html_UnescapeString TrimSpace data
            (codeberg.profileURL FindStringSubmatch urlStr)
            (codeberg.extractUsername FindStringSubmatch urlStr))
    /\ IO.noRequest
         (snd (codeberg.Fetch FindStringSubmatch html_UnescapeString TrimSpace
                 NewRequestWithContext c urlStr)) = true
  else
    fst (codeberg.Fetch FindStringSubmatch html_UnescapeString TrimSpace
           NewRequestWithContext c urlStr)
    = fst (codeberg.fetchPage FindStringSubmatch html_UnescapeString TrimSpace
             NewRequestWithContext c
             (codeberg.profileURL FindStringSubmatch urlStr)
             (codeberg.extractUsername FindStringSubmatch urlStr))
    /\ forall req,
        NewRequestWithContext http.MethodGet (codeberg.profileURL FindStringSubmatch urlStr)
        = Ok req ->
        In (IO.HTTPDo (http.SetHeader "User-Agent" codeberg.userAgent req))
          (snd (codeberg.Fetch FindStringSubmatch html_UnescapeString TrimSpace
                  NewRequestWithContext c urlStr)).
Proof.
  intros Hu Hc Hg. destruct found.
  - rewrite (codebergFacts.Fetch_hit _ _ _ _ c hc urlStr data etag headers Hu Hc Hg).
    split; reflexivity.
  - rewrite (codebergFacts.Fetch_miss _ _ _ _ c hc urlStr data etag headers Hu Hc Hg).
    split; [reflexivity|]. intros req Hr. cbn [snd].
    destruct (codebergFacts.fetchPage_sends FindStringSubmatch html_UnescapeString
                TrimSpace NewRequestWithContext c _
                (codeberg.extractUsername FindStringSubmatch urlStr) req Hr) as [rest ->].
    simpl. tauto.
Qed.

Lemma codeberg_Fetch_cache_hit_witness :
  fst (samples.fetchCodeberg (Some samples.warmCache) "codeberg.org/octocat")
  = Ok (samples.parseCodeberg "<html>cached</html>" "https://codeberg.org/octocat" "octocat")
  /\ IO.noRequest (snd (samples.fetchCodeberg (Some samples.warmCache) "codeberg.org/octocat"))
     = true.
Proof.
  apply (codeberg_Fetch_cache_hit samples.findOctocat (fun s => s) (fun s => s)
           samples.newRequest (samples.codebergClient (Some samples.warmCache))
           samples.warmCache "codeberg.org/octocat" "<html>cached</html>" EmptyString ∅ true).
  - discriminate.
  - reflexivity.
  - reflexivity.
Defined.

(** C5.  A failing cache write never fails the fetch.  When the cache misses
    and the page is fetched and read, the Codeberg client's Fetch returns the
    Profile parsed from the body with a nil error for every behaviour of the
    cache's SetAsync (and SetAsyncWithTTL), in particular for every error it
    returns. *)
Theorem codeberg_Fetch_ignores_SetAsync
  (FindStringSubmatch : string -> string -> list string)
  (html_UnescapeString TrimSpace : string -> string)
  (NewRequestWithContext : string -> string -> Result http.Request)
  (do : http.Request -> Result http.Response)
  (get : string -> string * string * gmap string string * bool)
  (urlStr body data etag : string) (headers : gmap string string)
  (req : http.Request) (resp : http.Response) :
  codeberg.extractUsername FindStringSubmatch urlStr <> EmptyString ->
  get (codeberg.profileURL FindStringSubmatch urlStr) = (data, etag, headers, false) ->
  NewRequestWithContext http.MethodGet (codeberg.profileURL FindStringSubmatch urlStr)
  = Ok req ->
  do (http.SetHeader "User-Agent" codeberg.userAgent req) = Ok resp ->
  http.StatusCode resp = http.StatusOK ->
  http.ReadAllLimit (2 ^ 20) (http.respBody resp) = Ok body ->
  forall (setAsync : string -> string -> string -> option (gmap string string) -> option error)
         (setAsyncWithTTL :
           string -> string -> string -> option (gmap string string) -> Z -> option error),
    fst (codeberg.Fetch FindStringSubmatch html_UnescapeString TrimSpace
           NewRequestWithContext
           {| codeberg.httpClient := do;
              codeberg.cache := Some {| Get := get; SetAsync := setAsync;
                                        SetAsyncWithTTL := setAsyncWithTTL |} |}
           urlStr)
    = Ok (codeberg.parseHTML FindStringSubmatch html_UnescapeString TrimSpace body
            (codeberg.profileURL FindStringSubmatch urlStr)
            (codeberg.extractUsername FindStringSubmatch urlStr)).
Proof.
  intros Hu Hg Hr Hd Hs Hb setAsync setAsyncWithTTL.
  erewrite codebergFacts.Fetch_miss; [| exact Hu | reflexivity | exact Hg].
  cbn [fst]. eapply codebergFacts.fetchPage_Ok; eassumption.
Qed.

Lemma codeberg_Fetch_ignores_SetAsync_witness :
  fst (samples.fetchCodeberg (Some samples.brokenCache) "codeberg.org/octocat")
  = Ok (samples.parseCodeberg "<html>fresh</html>" "https://codeberg.org/octocat" "octocat").
Proof.
  apply (codeberg_Fetch_ignores_SetAsync samples.findOctocat (fun s => s) (fun s => s)
           samples.newRequest (fun _ => Ok samples.page)
           (fun _ => (EmptyString, EmptyString, ∅, false))
           "codeberg.org/octocat" "<html>fresh</html>" EmptyString EmptyString ∅
           {| http.Method := "GET"; http.reqURL := "https://codeberg.org/octocat";
              http.Header := ∅ |}
           samples.page);
    try reflexivity.
  discriminate.
Defined.

Module codebergExamples.
Import samples.

(** With the failing cache the trace shows the request and the attempted
    write; the result is the parsed page. *)
Example broken_cache_trace :
  map IO.isHTTP (snd (fetchCodeberg (Some brokenCache) "codeberg.org/octocat"))
  = [false; false; true; false].
Proof. vm_compute. reflexivity. Qed.

Example no_cache_trace :
  map IO.isHTTP (snd (fetchCodeberg None "codeberg.org/octocat")) = [false; true].
Proof. vm_compute. reflexivity. Qed.

Example not_found :
  fst (codeberg.Fetch findOctocat (fun s => s) (fun s => s) newRequest
         {| codeberg.httpClient :=
              fun _ => Ok {| http.StatusCode := 404;
                             http.respBody := {| http.content := EmptyString;
                                                 http.failure := None |} |};
            codeberg.cache := None |}
         "https://codeberg.org/octocat")
  = Err "HTTP 404".
Proof. vm_compute. reflexivity. Qed.

Example no_username :
  codeberg.Fetch (fun _ _ => []) (fun s => s) (fun s => s) newRequest
    (codebergClient None) "https://example.com/a"
  = (Err "could not extract username from: https://example.com/a", []).
Proof. reflexivity. Qed.

Example ReadAllLimit_cuts :
  http.ReadAllLimit 4 {| http.content := "abcdefgh"; http.failure := Some "reset" |}
  = Ok "abcd"
  /\ http.ReadAllLimit 20 {| http.content := "abcdefgh"; http.failure := Some "reset" |}
     = Err "reset".
Proof. split; reflexivity. Qed.
End codebergExamples.

(* ===================================================================== *)
(** * Part III.  Further properties of the modelled code                  *)
(* ===================================================================== *)

(** ** The rate limiter *)


(** X1.  Pacing is per host.  A call of Wait reads and writes the
    lastRequest entry of its own host only: the world it leaves and the
    instant it records are the same for two limiters that agree on minDelay
    and on that entry, and the entry of every other host is left as it was.
    So requests to different hosts are never paced against one another: a
    run of calls whose hosts are pairwise distinct and have no recorded
    instant never calls time.Sleep, whatever minDelay is and however the
    clock advances. *)
Theorem Wait_hosts_independent (url_Parse : string -> Result url.URL) :
  (forall (r r' : cache.DomainRateLimiter) (lag : cache.Lag) (rawURL : string)
          (w : cache.World),
      cache.minDelay r = cache.minDelay r' ->
      cache.lastRequest r !! cache.extractDomain url_Parse rawURL
      = cache.lastRequest r' !! cache.extractDomain url_Parse rawURL ->
      snd (fst (cache.Wait url_Parse r lag rawURL w))
      = snd (fst (cache.Wait url_Parse r' lag rawURL w))
      /\ snd (cache.Wait url_Parse r lag rawURL w)
         = snd (cache.Wait url_Parse r' lag rawURL w)
      /\ forall d, d <> cache.extractDomain url_Parse rawURL ->
                   cache.lastRequest (fst (fst (cache.Wait url_Parse r lag rawURL w))) !! d
                   = cache.lastRequest r !! d)
  /\ (forall (r : cache.DomainRateLimiter) (calls : list (cache.Lag * string))
             (w : cache.World),
         NoDup (filter (fun d => d <> EmptyString)
                  (map (fun c => cache.extractDomain url_Parse (snd c)) calls)) ->
         (forall c, In c calls ->
                    cache.lastRequest r !! cache.extractDomain url_Parse (snd c) = None) ->
         cache.sleeps (snd (fst (cache.WaitAll url_Parse calls r w))) = cache.sleeps w).
Proof.
  split.
  - intros r r' lag rawURL w Hm Hl. split; [|split].
    + unfold cache.Wait.
      destruct (String.eqb (cache.extractDomain url_Parse rawURL) EmptyString);
        [reflexivity|].
      cbn [fst snd]. now rewrite Hl, Hm.
    + unfold cache.Wait.
      destruct (String.eqb (cache.extractDomain url_Parse rawURL) EmptyString);
        [reflexivity|].
      cbn [fst snd]. now rewrite Hl, Hm.
    + intros d Hd. now apply cacheMore.Wait_other_hosts.
  - intros r calls w. apply cacheMore.WaitAll_distinct_hosts.
Qed.

Lemma Wait_hosts_independent_witness :
  cache.sleeps
    (snd (fst (cache.WaitAll samples.parseURL
                 [(samples.lag 5 0 0, "https://example.com/a");
                  (samples.lag 0 0 1, "https://other.example:8443/");
                  (samples.lag 2 0 0, "https://10.0.0.7/")]
                 (cache.NewDomainRateLimiter 1000) samples.startOfTime))) = [].
Proof.
  apply (proj2 (Wait_hosts_independent samples.parseURL)
           (cache.NewDomainRateLimiter 1000)
           [(samples.lag 5 0 0, "https://example.com/a");
            (samples.lag 0 0 1, "https://other.example:8443/");
            (samples.lag 2 0 0, "https://10.0.0.7/")]
           samples.startOfTime).
  - vm_compute. repeat constructor; rewrite ?elem_of_cons, ?elem_of_nil;
      intuition discriminate.
  - intros c _. apply lookup_empty.
Defined.

(** X2.  The sleep is bounded.  With a delay that is a time.Duration and no
    recorded instant in the future, a call of Wait asks time.Sleep at most
    once, for a duration that is positive and at most minDelay; it does not
    sleep at all for a host without a recorded instant, nor when minDelay is
    zero or negative; and it returns no later than minDelay (when positive)
    plus the time that passed outside its control. *)
Theorem Wait_sleep_bounded
  (url_Parse : string -> Result url.URL)
  (r : cache.DomainRateLimiter) (lag : cache.Lag) (rawURL : string) (w : cache.World) :
  cache.isDuration (cache.minDelay r) ->
  cache.notInFuture r w ->
  (cache.sleeps (snd (fst (cache.Wait url_Parse r lag rawURL w))) = cache.sleeps w
   \/ exists d,
       cache.sleeps (snd (fst (cache.Wait url_Parse r lag rawURL w))) = d :: cache.sleeps w
       /\ 0 < d <= cache.minDelay r)
  /\ (cache.lastRequest r !! cache.extractDomain url_Parse rawURL = None
      \/ cache.minDelay r <= 0 ->
      cache.sleeps (snd (fst (cache.Wait url_Parse r lag rawURL w))) = cache.sleeps w)
  /\ cache.clock w <= cache.clock (snd (fst (cache.Wait url_Parse r lag rawURL w)))
     <= cache.clock w + Z.of_N (cache.lagLock lag) + Z.max 0 (cache.minDelay r)
        + Z.of_N (cache.lagSleep lag) + Z.of_N (cache.lagStore lag).
Proof.
  intros Hdur Hn. unfold cache.Wait.
  destruct (String.eqb (cache.extractDomain url_Parse rawURL) EmptyString).
  - cbn [fst snd]. split; [now left|]. split; [reflexivity | lia].
  - cbn [fst snd].
    destruct (cache.lastRequest r !! cache.extractDomain url_Parse rawURL)
      as [last|] eqn:El.
    + pose proof (Hn _ _ El) as Hlast.
      unfold cache.timeSince, cache.timeNow. cbn [cache.clock cache.elapse].
      set (now1 := cache.clock w + Z.of_N (cache.lagLock lag)).
      pose proof (cacheFacts.timeSub_le now1 last ltac:(unfold now1; lia)) as Hsub.
      destruct (Z.ltb_spec (cache.timeSub now1 last) (cache.minDelay r)) as [Hlt | Hge].
      * unfold cache.subDuration.
        rewrite cacheFacts.wrap64_small
          by (unfold cache.isDuration, cache.minDuration in *; lia).
        unfold cache.timeSleep.
        destruct (Z.leb_spec (cache.minDelay r - cache.timeSub now1 last) 0) as [Hz | Hz];
          [lia|].
        cbn [cache.clock cache.sleeps cache.elapse]. fold now1. split; [|split].
        -- right. eexists. split; [reflexivity | lia].
        -- intros [Hc | Hc]; [discriminate | exfalso; lia].
        -- subst now1. lia.
      * cbn [cache.clock cache.sleeps cache.elapse]. split; [now left|].
        split; [reflexivity | subst now1; lia].
    + cbn [cache.clock cache.sleeps cache.elapse]. split; [now left|].
      split; [reflexivity | lia].
Qed.

Lemma Wait_sleep_bounded_witness :
  cache.isDuration 1000
  /\ cache.sleeps
       (snd (fst (cache.Wait samples.parseURL
                    {| cache.lastRequest := {[ "example.com" := 5 ]};
                       cache.mu := {[ "example.com" ]}; cache.minDelay := 1000 |}
                    (samples.lag 200 3 1) "http://example.com/b?x=1"
                    {| cache.clock := 5; cache.sleeps := [] |})))
     = [800].
Proof.
  assert (Hd : cache.isDuration 1000)
    by (unfold cache.isDuration; vm_compute; split; discriminate).
  split; [exact Hd|].
  destruct (Wait_sleep_bounded samples.parseURL
              {| cache.lastRequest := {[ "example.com" := 5 ]};
                 cache.mu := {[ "example.com" ]}; cache.minDelay := 1000 |}
              (samples.lag 200 3 1) "http://example.com/b?x=1"
              {| cache.clock := 5; cache.sleeps := [] |} Hd) as [_ _].
  - intros d last H. cbn [cache.lastRequest] in H.
    destruct (decide (d = "example.com")) as [-> | Hne].
    + rewrite lookup_singleton_eq in H. injection H as <-. simpl. lia.
    + rewrite lookup_singleton_ne in H by congruence. discriminate.
  - vm_compute. reflexivity.
Defined.

(** X3.  After any sequence of calls on a new limiter, the entry of
    lastRequest for a host is the latest instant recorded for it (and there
    is none for a host that recorded nothing), and the hosts that own a
    mutex are exactly the hosts with an entry. *)
Theorem WaitAll_latest_recorded
  (url_Parse : string -> Result url.URL) (minDelay : Z)
  (calls : list (cache.Lag * string)) (w : cache.World) (d : string) :
  cache.lastRequest
    (fst (fst (cache.WaitAll url_Parse calls (cache.NewDomainRateLimiter minDelay) w))) !! d
  = last (cache.issuedAt d
            (snd (cache.WaitAll url_Parse calls (cache.NewDomainRateLimiter minDelay) w)))
  /\ dom (cache.lastRequest
            (fst (fst (cache.WaitAll url_Parse calls
                         (cache.NewDomainRateLimiter minDelay) w))))
     = cache.mu
         (fst (fst (cache.WaitAll url_Parse calls (cache.NewDomainRateLimiter minDelay) w))).
Proof.
  destruct (cacheMore.WaitAll_maps url_Parse calls (cache.NewDomainRateLimiter minDelay) w)
    as [Hl Hm].
  split.
  - rewrite Hl. cbn [cache.lastRequest cache.NewDomainRateLimiter].
    rewrite lookup_empty. now destruct (last _).
  - rewrite Hm. cbn [cache.mu cache.NewDomainRateLimiter].
    apply set_eq. intros x. rewrite elem_of_dom, Hl.
    cbn [cache.lastRequest cache.NewDomainRateLimiter]. rewrite lookup_empty.
    rewrite elem_of_union, elem_of_list_to_set, <- cacheMore.issuedAt_in_log.
    split.
    + intros [t Ht]. right. intros E. rewrite E in Ht. discriminate.
    + intros [H | H]; [now apply not_elem_of_empty in H|].
      destruct (cache.issuedAt x _) as [|t ts] eqn:E; [congruence|].
      destruct (last (t :: ts)) eqn:E2; [eauto|].
      apply last_None in E2. discriminate.
Qed.

(** ** Link deduplication and the same-platform filter *)

Module LinkMore.
Import GoStrings LinkFacts.

Section Dedupe.
Variable M : string -> string.

Local Abbreviation key := (github.normalize M).
Local Abbreviation loop := (github.dedupeLoop M).

Lemma dedupeLoop_cons_fresh (l : string) (links : list string) (seen : gmap string bool) :
  default false (seen !! key l) = false ->
  loop (l :: links) seen [] = l :: loop links (<[key l := true]> seen) [].
Proof.
  intros E. simpl. rewrite E. simpl.
  now rewrite (dedupeLoop_result M links _ ([] ++ [l])%list).
Qed.

Lemma dedupeLoop_cons_seen (l : string) (links : list string) (seen : gmap string bool) :
  default false (seen !! key l) = true ->
  loop (l :: links) seen [] = loop links seen [].
Proof. intros E. simpl. now rewrite E. Qed.

Lemma seen_insert_eq (seen : gmap string bool) (k : string) :
  default false (<[k := true]> seen !! k) = true.
Proof. now rewrite lookup_insert_eq. Qed.

Lemma dedupeLoop_NoDup (links : list string) :
  forall seen, NoDup (map key (loop links seen [])).
Proof.
  induction links as [|l links IH]; intros seen; [constructor|].
  destruct (default false (seen !! key l)) eqn:E.
  - rewrite (dedupeLoop_cons_seen _ _ _ E). apply IH.
  - rewrite (dedupeLoop_cons_fresh _ _ _ E). cbn [map]. constructor; [|apply IH].
    intros Hin. apply list_elem_of_In, in_map_iff in Hin as (x & Hx & Hin).
    apply (dedupeLoop_keys_fresh M) in Hin.
    rewrite Hx, seen_insert_eq in Hin. discriminate.
Qed.

Lemma dedupeLoop_sublist (links : list string) :
  forall seen, sublist (loop links seen []) links.
Proof.
  induction links as [|l links IH]; intros seen; [constructor|].
  destruct (default false (seen !! key l)) eqn:E.
  - rewrite (dedupeLoop_cons_seen _ _ _ E). apply sublist_cons, IH.
  - rewrite (dedupeLoop_cons_fresh _ _ _ E). apply sublist_skip, IH.
Qed.

(** A kept link is the first link of its key. *)
Lemma dedupeLoop_first (links : list string) :
  forall seen l',
    In l' (loop links seen []) ->
    exists pre post,
      links = (pre ++ l' :: post)%list /\ Forall (fun x => key x <> key l') pre.
Proof.
  induction links as [|l links IH]; intros seen l'; [intros []|].
  destruct (default false (seen !! key l)) eqn:E.
  - rewrite (dedupeLoop_cons_seen _ _ _ E). intros Hin.
    destruct (IH _ _ Hin) as (pre & post & -> & Hpre).
    exists (l :: pre), post. split; [reflexivity|]. constructor; [|exact Hpre].
    intros Hk. apply (dedupeLoop_keys_fresh M) in Hin. congruence.
  - rewrite (dedupeLoop_cons_fresh _ _ _ E). intros [<- | Hin].
    + exists [], links. split; [reflexivity | constructor].
    + destruct (IH _ _ Hin) as (pre & post & -> & Hpre).
      exists (l :: pre), post. split; [reflexivity|]. constructor; [|exact Hpre].
      intros Hk. apply (dedupeLoop_keys_fresh M) in Hin.
      rewrite <- Hk, seen_insert_eq in Hin. discriminate.
Qed.

(** Every link whose key was not seen before is represented. *)
Lemma dedupeLoop_cover (links : list string) :
  forall seen l,
    In l links -> default false (seen !! key l) = false ->
    exists l', In l' (loop links seen []) /\ key l' = key l.
Proof.
  induction links as [|x links IH]; intros seen l; [intros []|].
  intros [-> | Hin] Hl.
  - rewrite (dedupeLoop_cons_fresh _ _ _ Hl). exists l. split; [now left | reflexivity].
  - destruct (default false (seen !! key x)) eqn:E.
    + rewrite (dedupeLoop_cons_seen _ _ _ E). now apply IH.
    + rewrite (dedupeLoop_cons_fresh _ _ _ E).
      destruct (decide (key x = key l)) as [Hk | Hk].
      * exists x. split; [now left | exact Hk].
      * destruct (IH (<[key x := true]> seen) l Hin) as (l' & Hl' & Hkl).
        { now rewrite lookup_insert_ne by exact Hk. }
        exists l'. split; [now right | exact Hkl].
Qed.

Lemma NoDup_map_filter (f : string -> bool) (l : list string) :
  NoDup (map key l) -> NoDup (map key (List.filter f l)).
Proof.
  induction l as [|x l IH]; simpl; [trivial|]. intros H.
  apply NoDup_cons in H as [Hx Hl]. destruct (f x); [|now apply IH].
  cbn [map]. apply NoDup_cons. split; [|now apply IH].
  intros Hin. apply Hx. apply list_elem_of_In, in_map_iff in Hin as (y & Hy & Hin).
  apply List.filter_In in Hin as [Hin _].
  apply list_elem_of_In, in_map_iff. now exists y.
Qed.
End Dedupe.

End LinkMore.

(** X4.  dedupeLinks leaves no two links with the same normalised key (the
    lower-cased link without one trailing slash), in package github and in
    package generic. *)
Theorem dedupeLinks_distinct_keys (M : string -> string) (links : list string) :
  NoDup (map (github.normalize M) (github.dedupeLinks M links))
  /\ NoDup (map (generic.normalize M) (generic.dedupeLinks M links)).
Proof.
  split; [apply LinkMore.dedupeLoop_NoDup|].
  rewrite (LinkFacts.generic_dedupeLinks_eq M links).
  apply (LinkMore.dedupeLoop_NoDup M links ∅).
Qed.

(** X5.  First discovery wins in dedupeLinks: the result is a subsequence of
    the input, every link it keeps is the first link of the input with its
    key, and every link of the input has a kept link with the same key. *)
Theorem dedupeLinks_first_wins (M : string -> string) (links : list string) :
  sublist (github.dedupeLinks M links) links
  /\ (forall kept,
         In kept (github.dedupeLinks M links) ->
         exists pre post,
           links = (pre ++ kept :: post)%list
           /\ Forall (fun x => github.normalize M x <> github.normalize M kept) pre)
  /\ (forall link,
         In link links ->
         exists kept,
           In kept (github.dedupeLinks M links)
           /\ github.normalize M kept = github.normalize M link).
Proof.
  split; [apply LinkMore.dedupeLoop_sublist|]. split.
  - intros kept. apply LinkMore.dedupeLoop_first.
  - intros link Hin. apply LinkMore.dedupeLoop_cover; [exact Hin|].
    now rewrite lookup_empty.
Qed.

(** X6.  filterSamePlatformLinks is the filter by the negated Match: it
    keeps exactly the links that Match rejects, in their order, so applying
    it again changes nothing. *)
Theorem filterSamePlatformLinks_exact (M : string -> string) (links : list string) :
  github.filterSamePlatformLinks M links
  = List.filter (fun link => negb (github.Match M link)) links
  /\ github.filterSamePlatformLinks M (github.filterSamePlatformLinks M links)
     = github.filterSamePlatformLinks M links.
Proof.
  rewrite !githubFacts.filterSamePlatformLinks_filter. split; [reflexivity|].
  induction links as [|l links IH]; [reflexivity|]. simpl.
  destruct (negb (github.Match M l)) eqn:E; simpl; [rewrite E|]; now rewrite ?IH.
Qed.

(** ** Package github: the extractors and parseJSON *)

(** Names the value bound by the outermost [let] under the predicate of the
    goal. *)
Ltac let_head y :=
  lazymatch goal with
  | |- ?P (let x := ?v in @?f x) =>
      pose (y := v); change (P (f y)); cbv beta
  end.

(** One step of a chain that keeps the predicate [P] of the goal. *)
Ltac keep_inv P tac :=
  let y := fresh "prof" in
  let Hy := fresh "Hprof" in
  let_head y;
  assert (Hy : P y) by (subst y; split_step; tac);
  clearbody y.

Module githubMore.
Import GoStrings profile IO github.

Section Facts.
Variable M : string -> string.
Variable FindStringSubmatch : string -> string -> list string.
Variable FindAllStringSubmatch : string -> string -> Z -> list (list string).
Variable TrimSpace : string -> string.
Variable json_Unmarshal : string -> Result ghUser.
Variable htmlutil_IsEmailURL : string -> bool.
Variable htmlutil_ExtractEmailFromURL : string -> string * bool.
Variable htmlutil_SocialLinks : string -> list string.
Variable htmlutil_ToMarkdown : string -> string.
Variable NewRequestWithContext : string -> string -> Result http.Request.
Variable cache_FetchURL : Client -> http.Request -> Result string.

Local Abbreviation build := (profileOf M htmlutil_ExtractEmailFromURL).
Local Abbreviation fetch :=
  (Fetch M FindStringSubmatch FindAllStringSubmatch TrimSpace json_Unmarshal
     htmlutil_IsEmailURL htmlutil_ExtractEmailFromURL htmlutil_SocialLinks
     htmlutil_ToMarkdown NewRequestWithContext cache_FetchURL).

(** The links of a fetched profile went through both passes. *)
Lemma Fetch_links_deduped (c : Client) (urlStr : string) (prof : Profile)
  (t : list Event) :
  fetch c urlStr = (Ok prof, t) ->
  exists links,
    SocialLinks prof = filterSamePlatformLinks M (dedupeLinks M links).
Proof.
  unfold Fetch.
  destruct (String.eqb (extractUsername FindStringSubmatch urlStr) EmptyString);
    [discriminate|].
  intros H.
  apply IOFacts.bind_Ok in H as (_ & _ & t2 & _ & H & _).
  apply IOFacts.bind_Ok in H as (prof0 & _ & t3 & _ & H & _).
  apply IOFacts.bind_Ok in H as ([htmlContent htmlLinks] & _ & t4 & _ & H & _).
  injection H as <- _. simpl. eexists. reflexivity.
Qed.

(** The loops of extractSocialLinks only append links that passed the two
    tests. *)
Lemma extractSocialLinks_clean (html : string) :
  Forall (fun link => Contains link "github.com" = false
                      /\ htmlutil_IsEmailURL link = false)
    (extractSocialLinks FindAllStringSubmatch htmlutil_IsEmailURL html).
Proof.
  unfold extractSocialLinks.
  set (P := fun link => Contains link "github.com" = false
                        /\ htmlutil_IsEmailURL link = false).
  assert (Hstep1 : forall ms acc,
             Forall P acc ->
             Forall P (fold_left
                         (fun links match_ =>
                            if longer 1 match_ then
                              if negb (Contains (group 1 match_) "github.com")
                                 && negb (htmlutil_IsEmailURL (group 1 match_))
                              then (links ++ [group 1 match_])%list else links
                            else links) ms acc)).
  { induction ms as [|m ms IH]; intros acc Hacc; [exact Hacc|]. simpl. apply IH.
    destruct (longer 1 m); [|exact Hacc].
    destruct (Contains (group 1 m) "github.com") eqn:E1; [exact Hacc|].
    destruct (htmlutil_IsEmailURL (group 1 m)) eqn:E2; [exact Hacc|]. simpl.
    apply Forall_app. split; [exact Hacc|]. constructor; [now split | constructor]. }
  assert (Hstep2 : forall ms acc,
             Forall P acc ->
             Forall P (fold_left
                         (fun links match_ =>
                            if (length match_ <=? 1)%nat then links
                            else
                              if Contains (group 1 match_) "github.com"
                                 || htmlutil_IsEmailURL (group 1 match_) then links
                              else
                                if negb (existsb (String.eqb (group 1 match_)) links)
                                then (links ++ [group 1 match_])%list else links)
                         ms acc)).
  { induction ms as [|m ms IH]; intros acc Hacc; [exact Hacc|]. simpl. apply IH.
    destruct (length m <=? 1)%nat; [exact Hacc|].
    destruct (Contains (group 1 m) "github.com") eqn:E1; [exact Hacc|].
    destruct (htmlutil_IsEmailURL (group 1 m)) eqn:E2; [exact Hacc|]. simpl.
    destruct (negb _); [|exact Hacc].
    apply Forall_app. split; [exact Hacc|]. constructor; [now split | constructor]. }
  apply Hstep2, Hstep1. constructor.
Qed.
End Facts.

End githubMore.

Module organizationsFacts.
Import GoStrings github.

Lemma collected_empty : collected ([], ∅).
Proof. split; [constructor | intros x []]. Qed.

Lemma collected_add (orgs : list string) (seen : gmap string bool) (name : string) :
  collected (orgs, seen) ->
  default false (seen !! name) = false ->
  collected ((orgs ++ [name])%list, <[name := true]> seen).
Proof.
  intros [Hnd Hin] Hs. split; cbn [fst snd] in *.
  - apply NoDup_app. split; [exact Hnd|]. split; [|apply NoDup_singleton].
    intros x Hx Hx'. apply list_elem_of_singleton in Hx' as ->.
    apply list_elem_of_In in Hx. rewrite (Hin _ Hx) in Hs. discriminate.
  - intros x Hx. apply in_app_or in Hx as [Hx | [<- | []]].
    + destruct (decide (name = x)) as [-> | Hne];
        [apply lookup_insert_eq | rewrite lookup_insert_ne by exact Hne; now apply Hin].
    + apply lookup_insert_eq.
Qed.

Section Facts.
Variable M : string -> string.
Variable FindAllStringSubmatch : string -> string -> Z -> list (list string).

Lemma extractOrganizations_NoDup (html : string) :
  NoDup (extractOrganizations M FindAllStringSubmatch html).
Proof.
  unfold extractOrganizations.
  match goal with
  | |- context [fold_left ?f ?ms ([], ∅)] => set (step1 := f); set (ms1 := ms)
  end.
  clearbody ms1.
  assert (H1 : collected (fold_left step1 ms1 ([], ∅))).
  { generalize collected_empty.
    generalize (([], ∅) : list string * gmap string bool).
    induction ms1 as [|m ms IH]; intros acc Hacc; [exact Hacc|].
    simpl. apply IH. destruct acc as [orgs seen]. unfold step1.
    destruct (longer 2 m); [|exact Hacc].
    destruct (default false (seen !! group 1 m)) eqn:E; [exact Hacc|].
    now apply collected_add. }
  destruct (fold_left step1 ms1 ([], ∅)) as [orgs seen].
  destruct (length orgs =? 0)%nat; [|exact (proj1 H1)].
  match goal with
  | |- context [fold_left ?f ?ms (orgs, seen)] => set (step2 := f); set (ms2 := ms)
  end.
  clearbody ms2.
  enough (H2 : collected (fold_left step2 ms2 (orgs, seen))) by exact (proj1 H2).
  revert H1. generalize (orgs, seen).
  induction ms2 as [|m ms IH]; intros acc Hacc; [exact Hacc|].
  simpl. apply IH. destruct acc as [orgs' seen']. unfold step2.
  destruct (longer 2 m); [|exact Hacc].
  destruct (_ || _); [|exact Hacc].
  destruct (default false (seen' !! group 2 m)) eqn:E; [exact Hacc|].
  now apply collected_add.
Qed.
End Facts.

End organizationsFacts.

(** X7.  A GitHub profile is returned without duplicate links: in every
    Profile that Fetch returns without an error, no two SocialLinks have the
    same normalised key. *)
Theorem github_Fetch_links_distinct
  (M : string -> string)
  (FindStringSubmatch : string -> string -> list string)
  (FindAllStringSubmatch : string -> string -> Z -> list (list string))
  (TrimSpace : string -> string)
  (json_Unmarshal : string -> Result github.ghUser)
  (htmlutil_IsEmailURL : string -> bool)
  (htmlutil_ExtractEmailFromURL : string -> string * bool)
  (htmlutil_SocialLinks : string -> list string)
  (htmlutil_ToMarkdown : string -> string)
  (NewRequestWithContext : string -> string -> Result http.Request)
  (cache_FetchURL : github.Client -> http.Request -> Result string)
  (c : github.Client) (urlStr : string) (prof : profile.Profile) (t : list IO.Event) :
  github.Fetch M FindStringSubmatch FindAllStringSubmatch TrimSpace json_Unmarshal
    htmlutil_IsEmailURL htmlutil_ExtractEmailFromURL htmlutil_SocialLinks
    htmlutil_ToMarkdown NewRequestWithContext cache_FetchURL c urlStr = (Ok prof, t) ->
  NoDup (map (github.normalize M) (profile.SocialLinks prof)).
Proof.
  intros H. apply githubMore.Fetch_links_deduped in H as [links ->].
  rewrite githubFacts.filterSamePlatformLinks_filter.
  apply LinkMore.NoDup_map_filter, LinkMore.dedupeLoop_NoDup.
Qed.

Lemma github_Fetch_links_distinct_witness :
  exists prof t,
    samples.fetchOctocat samples.githubClient "https://github.com/octocat" = (Ok prof, t)
    /\ NoDup (map (github.normalize samples.noUnicode) (profile.SocialLinks prof)).
Proof.
  destruct (samples.fetchOctocat samples.githubClient "https://github.com/octocat")
    as [[prof | e] t] eqn:E.
  - exists prof, t. split; [reflexivity|].
    exact (github_Fetch_links_distinct _ _ _ _ _ _ _ _ _ _ _ _ _ _ _ E).
  - vm_compute in E. discriminate E.
Defined.

(** X8.  extractSocialLinks never returns a link that contains github.com,
    nor one that htmlutil.IsEmailURL takes for an e-mail address, whatever
    the two regular expressions match. *)
Theorem github_extractSocialLinks_clean
  (FindAllStringSubmatch : string -> string -> Z -> list (list string))
  (htmlutil_IsEmailURL : string -> bool) (html : string) :
  Forall (fun link => GoStrings.Contains link "github.com" = false
                      /\ htmlutil_IsEmailURL link = false)
    (github.extractSocialLinks FindAllStringSubmatch htmlutil_IsEmailURL html).
Proof. apply githubMore.extractSocialLinks_clean. Qed.

(** X9.  extractOrganizations returns every organisation name once, in the
    sidebar pattern and in the fallback pattern alike. *)
Theorem github_extractOrganizations_distinct
  (M : string -> string)
  (FindAllStringSubmatch : string -> string -> Z -> list (list string)) (html : string) :
  NoDup (github.extractOrganizations M FindAllStringSubmatch html).
Proof. apply organizationsFacts.extractOrganizations_NoDup. Qed.

Module parseJSONMore.
Import GoStrings profile github.

Lemma append_not_empty (c : ascii) (s t : string) : (String c s ++ t) <> EmptyString.
Proof. discriminate. Qed.

Lemma HasPrefix_append (p s : string) : HasPrefix (p ++ s) p = true.
Proof.
  unfold HasPrefix, sliceTo, len. rewrite GoStringsFacts.length_append.
  apply andb_true_intro. split; [apply Z.leb_le; lia|].
  rewrite Nat2Z.id, GoStringsFacts.take_append. apply String.eqb_refl.
Qed.

Section Facts.
Variable M : string -> string.
Variable htmlutil_ExtractEmailFromURL : string -> string * bool.

Local Abbreviation build := (profileOf M htmlutil_ExtractEmailFromURL).

(** The fields of the composite literal are never assigned again. *)
Lemma profileOf_identity (u : ghUser) (urlStr : string) :
  URL (build u urlStr) = urlStr
  /\ Username (build u urlStr) = Login u
  /\ Name (build u urlStr) = ghName u
  /\ Bio (build u urlStr) = ghBio u
  /\ Location (build u urlStr) = ghLocation u
  /\ Authenticated (build u urlStr) = false.
Proof.
  pose (P := fun p : Profile =>
               URL p = urlStr /\ Username p = Login u /\ Name p = ghName u
               /\ Bio p = ghBio u /\ Location p = ghLocation u
               /\ Authenticated p = false).
  change (P (build u urlStr)). cbv beta delta [profileOf].
  keep_inv P ltac:(unfold P; repeat split; reflexivity).
  do 9 (keep_inv P ltac:(unfold P in *; simpl; assumption)).
  assumption.
Qed.

(** The e-mail address of the account overrides one found in the blog
    field. *)
Lemma profileOf_email (u : ghUser) (urlStr : string) :
  Email u <> EmptyString -> Fields (build u urlStr) !! "email" = Some (Email u).
Proof.
  intros He. apply String.eqb_neq in He. cbv beta delta [profileOf].
  do 2 skip_step.
  keep_step (fun p => Fields p !! "email" = Some (Email u))
    ltac:(rewrite He in *; try discriminate; simpl; apply lookup_insert_eq).
  do 7 (keep_step (fun p => Fields p !! "email" = Some (Email u))
          ltac:(simpl; rewrite ?lookup_insert_ne by discriminate; assumption)).
  assumption.
Qed.

(** Website and the field website are set together and to the same
    value. *)
Lemma profileOf_website (u : ghUser) (urlStr : string) :
  Fields (build u urlStr) !! "website"
  = (if String.eqb (Website (build u urlStr)) EmptyString then None
     else Some (Website (build u urlStr)))
  /\ (Website (build u urlStr) = EmptyString
      \/ HasPrefix (Website (build u urlStr)) "http" = true).
Proof.
  pose (P := fun p : Profile =>
               Fields p !! "website"
               = (if String.eqb (Website p) EmptyString then None else Some (Website p))
               /\ (Website p = EmptyString \/ HasPrefix (Website p) "http" = true)).
  change (P (build u urlStr)). cbv beta delta [profileOf].
  keep_inv P ltac:(unfold P; simpl; split; [apply lookup_empty | now left]).
  keep_inv P
    ltac:(unfold P in *; simpl;
          first
            [ assumption
            | rewrite lookup_insert_ne by discriminate; assumption
            | rewrite lookup_insert_eq; split;
              [ first [ reflexivity
                      | destruct (String.eqb (Blog u) EmptyString);
                        [discriminate | reflexivity] ]
              | right;
                first [ apply (HasPrefix_append "http" ("s://" ++ Blog u))
                      | now apply negb_false_iff ] ] ]).
  do 8 (keep_inv P
          ltac:(unfold P in *; simpl;
                first [ assumption
                      | rewrite lookup_insert_ne by discriminate; assumption ])).
  assumption.
Qed.

(** The Twitter link is the only social link parseJSON produces, and it is
    the value of the field twitter. *)
Lemma profileOf_twitter (u : ghUser) (urlStr : string) :
  (TwitterUser u = EmptyString ->
   SocialLinks (build u urlStr) = [] /\ Fields (build u urlStr) !! "twitter" = None)
  /\ (TwitterUser u <> EmptyString ->
      SocialLinks (build u urlStr) = ["https://twitter.com/" ++ TwitterUser u]
      /\ Fields (build u urlStr) !! "twitter"
         = Some ("https://twitter.com/" ++ TwitterUser u)).
Proof.
  pose (Q := fun p : Profile => SocialLinks p = [] /\ Fields p !! "twitter" = None).
  pose (P := fun p : Profile =>
               (TwitterUser u = EmptyString -> Q p)
               /\ (TwitterUser u <> EmptyString ->
                   SocialLinks p = ["https://twitter.com/" ++ TwitterUser u]
                   /\ Fields p !! "twitter"
                      = Some ("https://twitter.com/" ++ TwitterUser u))).
  change (P (build u urlStr)). cbv beta delta [profileOf].
  keep_inv Q ltac:(unfold Q; simpl; split; [reflexivity | apply lookup_empty]).
  do 3 (keep_inv Q
          ltac:(unfold Q in *; simpl;
                first [ assumption
                      | rewrite lookup_insert_ne by discriminate; assumption ])).
  keep_inv P
    ltac:(unfold P, Q in *; simpl;
          destruct (String.eqb_spec (TwitterUser u) EmptyString) as [Ht | Ht];
          try discriminate;
          split; intros Ht'; try congruence;
          first [ assumption
                | match goal with
                  | H : _ /\ _ |- _ =>
                      destruct H as [Hs Hf]; rewrite Hs;
                      split; [reflexivity | apply lookup_insert_eq]
                  end ]).
  do 5 (keep_inv P
          ltac:(unfold P, Q in *; simpl;
                first [ assumption
                      | rewrite !lookup_insert_ne by discriminate; assumption ])).
  assumption.
Qed.
End Facts.

End parseJSONMore.

(** A count is stored at its own step and at no other. *)
Tactic Notation "count_steps" constr(k) constr(c) integer(before) integer(after) :=
  let Q := fresh "Q" in
  let P := fresh "P" in
  pose (Q := fun p : profile.Profile => profile.Fields p !! k = None);
  pose (P := fun p : profile.Profile =>
               profile.Fields p !! k = (if 0 <? c then Some (Itoa c) else None));
  lazymatch goal with
  | |- profile.Fields ?t !! _ = _ => change (P t)
  end;
  cbv beta delta [github.profileOf];
  keep_inv Q ltac:(unfold Q; simpl; apply lookup_empty);
  do before (keep_inv Q
               ltac:(unfold Q in *; simpl;
                     first [ assumption
                           | rewrite !lookup_insert_ne by discriminate; assumption ]));
  keep_inv P
    ltac:(unfold P, Q in *; simpl;
          first [ assumption | apply lookup_insert_eq ]);
  do after (keep_inv P
              ltac:(unfold P in *; simpl;
                    first [ assumption
                          | rewrite !lookup_insert_ne by discriminate; assumption ]));
  assumption.

Module countFacts.
Import GoStrings profile github.

Section Facts.
Variable M : string -> string.
Variable htmlutil_ExtractEmailFromURL : string -> string * bool.

Local Abbreviation build := (profileOf M htmlutil_ExtractEmailFromURL).

Lemma profileOf_public_repos (u : ghUser) (urlStr : string) :
  Fields (build u urlStr) !! "public_repos"
  = (if 0 <? PublicRepos u then Some (Itoa (PublicRepos u)) else None).
Proof. count_steps "public_repos" (PublicRepos u) 4 4. Qed.

Lemma profileOf_followers (u : ghUser) (urlStr : string) :
  Fields (build u urlStr) !! "followers"
  = (if 0 <? Followers u then Some (Itoa (Followers u)) else None).
Proof. count_steps "followers" (Followers u) 5 3. Qed.

Lemma profileOf_following (u : ghUser) (urlStr : string) :
  Fields (build u urlStr) !! "following"
  = (if 0 <? Following u then Some (Itoa (Following u)) else None).
Proof. count_steps "following" (Following u) 6 2. Qed.
End Facts.

End countFacts.

(** X10.  parseJSON passes the decoder's error on unchanged; of an accepted
    input it returns a profile of the platform github whose URL is the URL
    the caller passed (not the html_url of the answer), whose Username, Name,
    Bio and Location are the login, name, bio and location of the answer, and
    which is not marked as authenticated. *)
Theorem github_parseJSON_identity
  (M : string -> string)
  (json_Unmarshal : string -> Result github.ghUser)
  (htmlutil_ExtractEmailFromURL : string -> string * bool)
  (data urlStr username : string) :
  match json_Unmarshal data with
  | Err e =>
      github.parseJSON M json_Unmarshal htmlutil_ExtractEmailFromURL data urlStr username
      = Err e
  | Ok u =>
      exists prof,
        github.parseJSON M json_Unmarshal htmlutil_ExtractEmailFromURL data urlStr username
        = Ok prof
        /\ profile.Platform prof = "github"
        /\ profile.URL prof = urlStr
        /\ profile.Username prof = github.Login u
        /\ profile.Name prof = github.ghName u
        /\ profile.Bio prof = github.ghBio u
        /\ profile.Location prof = github.ghLocation u
        /\ profile.Authenticated prof = false
  end.
Proof.
  unfold github.parseJSON. destruct (json_Unmarshal data) as [u | e]; [|reflexivity].
  eexists. split; [reflexivity|]. split; [apply parseJSONFacts.profileOf_Platform|].
  apply parseJSONMore.profileOf_identity.
Qed.

(** X11.  The e-mail address of the account wins: when the answer carries a
    non-empty email, the field email holds it, whatever the blog field
    says. *)
Theorem github_parseJSON_email_precedence
  (M : string -> string)
  (json_Unmarshal : string -> Result github.ghUser)
  (htmlutil_ExtractEmailFromURL : string -> string * bool)
  (data urlStr username : string) (u : github.ghUser) :
  json_Unmarshal data = Ok u ->
  github.Email u <> EmptyString ->
  exists prof,
    github.parseJSON M json_Unmarshal htmlutil_ExtractEmailFromURL data urlStr username
    = Ok prof
    /\ profile.Fields prof !! "email" = Some (github.Email u).
Proof.
  intros Hu He. unfold github.parseJSON. rewrite Hu.
  eexists. split; [reflexivity|]. now apply parseJSONMore.profileOf_email.
Qed.

(** X12.  Website and the field website agree: in every profile parseJSON
    returns, the field website is present exactly when Website is not empty,
    it holds the same value, and that value starts with http. *)
Theorem github_parseJSON_website_agrees
  (M : string -> string)
  (json_Unmarshal : string -> Result github.ghUser)
  (htmlutil_ExtractEmailFromURL : string -> string * bool)
  (data urlStr username : string) (prof : profile.Profile) :
  github.parseJSON M json_Unmarshal htmlutil_ExtractEmailFromURL data urlStr username
  = Ok prof ->
  profile.Fields prof !! "website"
  = (if String.eqb (profile.Website prof) EmptyString then None
     else Some (profile.Website prof))
  /\ (profile.Website prof = EmptyString
      \/ GoStrings.HasPrefix (profile.Website prof) "http" = true).
Proof.
  intros H. apply parseJSONFacts.parseJSON_Ok in H as (u & _ & ->).
  apply parseJSONMore.profileOf_website.
Qed.

(** X13.  The only social link parseJSON produces is the Twitter link: the
    list is empty when the answer has no twitter_username, and otherwise it
    holds https://twitter.com/ followed by that name and nothing else; the
    field twitter holds the same URL.  The blog is never among the social
    links. *)
Theorem github_parseJSON_twitter_link
  (M : string -> string)
  (json_Unmarshal : string -> Result github.ghUser)
  (htmlutil_ExtractEmailFromURL : string -> string * bool)
  (data urlStr username : string) (u : github.ghUser) :
  json_Unmarshal data = Ok u ->
  exists prof,
    github.parseJSON M json_Unmarshal htmlutil_ExtractEmailFromURL data urlStr username
    = Ok prof
    /\ profile.SocialLinks prof
       = (if String.eqb (github.TwitterUser u) EmptyString then []
          else ["https://twitter.com/" ++ github.TwitterUser u])
    /\ profile.Fields prof !! "twitter"
       = (if String.eqb (github.TwitterUser u) EmptyString then None
          else Some ("https://twitter.com/" ++ github.TwitterUser u)).
Proof.
  intros Hu. unfold github.parseJSON. rewrite Hu.
  eexists. split; [reflexivity|].
  destruct (parseJSONMore.profileOf_twitter M htmlutil_ExtractEmailFromURL u urlStr)
    as [Hnone Hsome].
  destruct (String.eqb_spec (github.TwitterUser u) EmptyString) as [E | E];
    [now apply Hnone | now apply Hsome].
Qed.

(** X14.  Counts that are zero or negative are left out: the fields
    public_repos, followers and following are present exactly when the count
    is positive, and then hold its decimal form. *)
Theorem github_parseJSON_counts
  (M : string -> string)
  (json_Unmarshal : string -> Result github.ghUser)
  (htmlutil_ExtractEmailFromURL : string -> string * bool)
  (data urlStr username : string) (u : github.ghUser) :
  json_Unmarshal data = Ok u ->
  exists prof,
    github.parseJSON M json_Unmarshal htmlutil_ExtractEmailFromURL data urlStr username
    = Ok prof
    /\ profile.Fields prof !! "public_repos"
       = (if 0 <? github.PublicRepos u then Some (Itoa (github.PublicRepos u)) else None)
    /\ profile.Fields prof !! "followers"
       = (if 0 <? github.Followers u then Some (Itoa (github.Followers u)) else None)
    /\ profile.Fields prof !! "following"
       = (if 0 <? github.Following u then Some (Itoa (github.Following u)) else None).
Proof.
  intros Hu. unfold github.parseJSON. rewrite Hu.
  eexists. split; [reflexivity|].
  split; [apply countFacts.profileOf_public_repos|].
  split; [apply countFacts.profileOf_followers | apply countFacts.profileOf_following].
Qed.

(** X15.  In a profile parseJSON returns, an empty value can only stand under
    the keys email and company: every other field that is present is not
    empty. *)
Theorem github_parseJSON_empty_values
  (M : string -> string)
  (json_Unmarshal : string -> Result github.ghUser)
  (htmlutil_ExtractEmailFromURL : string -> string * bool)
  (data urlStr username : string) (prof : profile.Profile) (k : string) :
  github.parseJSON M json_Unmarshal htmlutil_ExtractEmailFromURL data urlStr username
  = Ok prof ->
  profile.Fields prof !! k = Some EmptyString ->
  k = "email" \/ k = "company".
Proof.
  intros H. apply parseJSONFacts.parseJSON_Ok in H as (u & _ & ->).
  apply parseJSONFacts.profileOf_empty_values.
Qed.

Lemma github_parseJSON_email_precedence_witness :
  exists prof,
    samples.parseOctocat samples.monalisa = Ok prof
    /\ profile.Fields prof !! "email" = Some "mona@example.com".
Proof.
  apply (github_parseJSON_email_precedence samples.noUnicode (fun _ => Ok samples.monalisa)
           (fun _ => (EmptyString, false)) "{}" "https://github.com/octocat" "octocat"
           samples.monalisa); [reflexivity | discriminate].
Defined.

Lemma github_parseJSON_website_agrees_witness :
  exists prof,
    samples.parseOctocat samples.octocat = Ok prof
    /\ profile.Fields prof !! "website"
       = (if String.eqb (profile.Website prof) EmptyString then None
          else Some (profile.Website prof))
    /\ (profile.Website prof = EmptyString
        \/ GoStrings.HasPrefix (profile.Website prof) "http" = true).
Proof.
  eexists. split; [reflexivity|].
  apply (github_parseJSON_website_agrees samples.noUnicode (fun _ => Ok samples.octocat)
           (fun _ => (EmptyString, false)) "{}" "https://github.com/octocat" "octocat").
  reflexivity.
Defined.

Lemma github_parseJSON_twitter_link_witness :
  exists prof,
    samples.parseOctocat samples.octocat = Ok prof
    /\ profile.SocialLinks prof = ["https://twitter.com/octo"]
    /\ profile.Fields prof !! "twitter" = Some "https://twitter.com/octo".
Proof.
  apply (github_parseJSON_twitter_link samples.noUnicode (fun _ => Ok samples.octocat)
           (fun _ => (EmptyString, false)) "{}" "https://github.com/octocat" "octocat"
           samples.octocat).
  reflexivity.
Defined.

Lemma github_parseJSON_counts_witness :
  exists prof,
    samples.parseOctocat samples.monalisa = Ok prof
    /\ profile.Fields prof !! "public_repos" = None
    /\ profile.Fields prof !! "followers" = Some "3"
    /\ profile.Fields prof !! "following" = None.
Proof.
  apply (github_parseJSON_counts samples.noUnicode (fun _ => Ok samples.monalisa)
           (fun _ => (EmptyString, false)) "{}" "https://github.com/octocat" "octocat"
           samples.monalisa).
  reflexivity.
Defined.

Lemma github_parseJSON_empty_values_witness :
  exists prof,
    samples.parseOctocat samples.companyAt = Ok prof
    /\ profile.Fields prof !! "company" = Some EmptyString
    /\ ("company" = "email" \/ "company" = "company").
Proof.
  eexists. split; [reflexivity|]. split; [reflexivity|].
  apply (github_parseJSON_empty_values samples.noUnicode (fun _ => Ok samples.companyAt)
           (fun _ => (EmptyString, false)) "{}" "https://github.com/octocat" "octocat"
           (github.profileOf samples.noUnicode (fun _ => (EmptyString, false))
              samples.companyAt "https://github.com/octocat")
           "company"); reflexivity.
Defined.

(** ** Package github: Fetch *)

Module githubFetchFacts.
Import GoStrings profile IO github.

Section Facts.
Variable M : string -> string.
Variable FindStringSubmatch : string -> string -> list string.
Variable FindAllStringSubmatch : string -> string -> Z -> list (list string).
Variable TrimSpace : string -> string.
Variable json_Unmarshal : string -> Result ghUser.
Variable htmlutil_IsEmailURL : string -> bool.
Variable htmlutil_ExtractEmailFromURL : string -> string * bool.
Variable htmlutil_SocialLinks : string -> list string.
Variable htmlutil_ToMarkdown : string -> string.
Variable NewRequestWithContext : string -> string -> Result http.Request.
Variable cache_FetchURL : Client -> http.Request -> Result string.

Local Abbreviation fetch :=
  (Fetch M FindStringSubmatch FindAllStringSubmatch TrimSpace json_Unmarshal
     htmlutil_IsEmailURL htmlutil_ExtractEmailFromURL htmlutil_SocialLinks
     htmlutil_ToMarkdown NewRequestWithContext cache_FetchURL).
Local Abbreviation api :=
  (fetchAPI M json_Unmarshal htmlutil_ExtractEmailFromURL NewRequestWithContext
     cache_FetchURL).
Local Abbreviation page :=
  (fetchHTML FindAllStringSubmatch htmlutil_IsEmailURL NewRequestWithContext
     cache_FetchURL).
Local Abbreviation usernameOf := (extractUsername FindStringSubmatch).

Local Abbreviation profileURL := (github.profileURL FindStringSubmatch).

Lemma fetchAPI_request_error (c : Client) (urlStr username : string) (e : error) :
  NewRequestWithContext http.MethodGet ("https://api.github.com/users/" ++ username)
  = Err e ->
  api c urlStr username = (Err e, []).
Proof. intros H. unfold fetchAPI. now rewrite H. Qed.

Lemma fetchAPI_sent (c : Client) (urlStr username : string) (req : http.Request) :
  NewRequestWithContext http.MethodGet ("https://api.github.com/users/" ++ username)
  = Ok req ->
  api c urlStr username
  = (match cache_FetchURL c (apiRequest req) with
     | Ok body => parseJSON M json_Unmarshal htmlutil_ExtractEmailFromURL body urlStr username
     | Err e => Err e
     end, [FetchURL (apiRequest req)]).
Proof.
  intros H. unfold fetchAPI. rewrite H, IOFacts.bind_lift_Ok, IOFacts.bind_emit.
  fold (apiRequest req). now destruct (cache_FetchURL c (apiRequest req)).
Qed.

(** fetchHTML never fails. *)
Lemma fetchHTML_Ok (c : Client) (urlStr : string) :
  exists content links t, page c urlStr = (Ok (content, links), t).
Proof.
  unfold fetchHTML. destruct (NewRequestWithContext http.MethodGet urlStr) as [req | e].
  - rewrite IOFacts.bind_emit.
    destruct (cache_FetchURL c _) as [body | e]; simpl; eauto.
  - simpl. eauto.
Qed.

Lemma fetchHTML_failed (c : Client) (urlStr : string) :
  (exists e, NewRequestWithContext http.MethodGet urlStr = Err e)
  \/ (exists req e,
         NewRequestWithContext http.MethodGet urlStr = Ok req
         /\ cache_FetchURL c (http.SetHeader "User-Agent" userAgent req) = Err e) ->
  fst (page c urlStr) = Ok (EmptyString, []).
Proof.
  unfold fetchHTML. intros [[e ->] | (req & e & -> & Hf)]; [reflexivity|].
  rewrite IOFacts.bind_emit, Hf. reflexivity.
Qed.

Lemma Fetch_after_username (c : Client) (urlStr : string) :
  usernameOf urlStr <> EmptyString ->
  fetch c urlStr
  = (emit (LogInfo "fetching github profile"
             [("url", profileURL urlStr); ("username", usernameOf urlStr)]) ;;;
     prof <- api c (profileURL urlStr) (usernameOf urlStr) ;;
     html <- page c (profileURL urlStr) ;;
     let '(htmlContent, htmlLinks) := html in
     let prof := appendLinks htmlLinks prof in
     let prof :=
       if negb (String.eqb htmlContent EmptyString) then
         let orgs := extractOrganizations M FindAllStringSubmatch htmlContent in
         let prof :=
           if (0 <? length orgs)%nat
           then setField "organizations" (Join orgs ", ") prof else prof in
         let readmeHTML := extractREADMEHTML FindStringSubmatch TrimSpace htmlContent in
         if negb (String.eqb readmeHTML EmptyString) then
           let readmeLinks := htmlutil_SocialLinks readmeHTML in
           let prof := appendLinks readmeLinks prof in
           setUnstructured (htmlutil_ToMarkdown readmeHTML) prof
         else prof
       else prof in
     let prof := setSocialLinks (dedupeLinks M (SocialLinks prof)) prof in
     let prof := setSocialLinks (filterSamePlatformLinks M (SocialLinks prof)) prof in
     ret prof).
Proof.
  intros Hu. unfold Fetch, profileURL.
  destruct (String.eqb_spec (usernameOf urlStr) EmptyString) as [E | _];
    [now elim Hu | reflexivity].
Qed.
End Facts.

End githubFetchFacts.

(** X16.  Without a user name GitHub's Fetch does nothing: when no user name
    can be extracted from the URL it returns the error that names the URL,
    and its trace is empty (nothing was logged and nothing requested). *)
Theorem github_Fetch_no_username
  (M : string -> string)
  (FindStringSubmatch : string -> string -> list string)
  (FindAllStringSubmatch : string -> string -> Z -> list (list string))
  (TrimSpace : string -> string)
  (json_Unmarshal : string -> Result github.ghUser)
  (htmlutil_IsEmailURL : string -> bool)
  (htmlutil_ExtractEmailFromURL : string -> string * bool)
  (htmlutil_SocialLinks : string -> list string)
  (htmlutil_ToMarkdown : string -> string)
  (NewRequestWithContext : string -> string -> Result http.Request)
  (cache_FetchURL : github.Client -> http.Request -> Result string)
  (c : github.Client) (urlStr : string) :
  github.extractUsername FindStringSubmatch urlStr = EmptyString ->
  github.Fetch M FindStringSubmatch FindAllStringSubmatch TrimSpace json_Unmarshal
    htmlutil_IsEmailURL htmlutil_ExtractEmailFromURL htmlutil_SocialLinks
    htmlutil_ToMarkdown NewRequestWithContext cache_FetchURL c urlStr
  = (Err ("could not extract username from: " ++ urlStr), []).
Proof. intros H. unfold github.Fetch. now rewrite H. Qed.

Lemma github_Fetch_no_username_witness :
  github.Fetch samples.noUnicode (fun _ _ => []) samples.findAllNone (fun s => s)
    (fun _ => Ok samples.octocat) (fun _ => false) (fun _ => (EmptyString, false))
    samples.readmeLinks (fun s => s) samples.newRequest (fun _ _ => Ok "<html>")
    samples.githubClient "https://example.com/a"
  = (Err "could not extract username from: https://example.com/a", []).
Proof.
  apply (github_Fetch_no_username samples.noUnicode (fun _ _ => []) samples.findAllNone
           (fun s => s) (fun _ => Ok samples.octocat) (fun _ => false)
           (fun _ => (EmptyString, false)) samples.readmeLinks (fun s => s)
           samples.newRequest (fun _ _ => Ok "<html>") samples.githubClient
           "https://example.com/a").
  reflexivity.
Defined.

(** X17.  A failing API call fails GitHub's Fetch before the profile page is
    asked for: when cache.FetchURL returns an error for the API request,
    Fetch returns that error, and its trace holds the log entry and the API
    request and nothing else. *)
Theorem github_Fetch_API_failure
  (M : string -> string)
  (FindStringSubmatch : string -> string -> list string)
  (FindAllStringSubmatch : string -> string -> Z -> list (list string))
  (TrimSpace : string -> string)
  (json_Unmarshal : string -> Result github.ghUser)
  (htmlutil_IsEmailURL : string -> bool)
  (htmlutil_ExtractEmailFromURL : string -> string * bool)
  (htmlutil_SocialLinks : string -> list string)
  (htmlutil_ToMarkdown : string -> string)
  (NewRequestWithContext : string -> string -> Result http.Request)
  (cache_FetchURL : github.Client -> http.Request -> Result string)
  (c : github.Client) (urlStr : string) (req : http.Request) (e : error) :
  github.extractUsername FindStringSubmatch urlStr <> EmptyString ->
  NewRequestWithContext http.MethodGet
    ("https://api.github.com/users/" ++ github.extractUsername FindStringSubmatch urlStr)
  = Ok req ->
  cache_FetchURL c (github.apiRequest req) = Err e ->
  github.Fetch M FindStringSubmatch FindAllStringSubmatch TrimSpace json_Unmarshal
    htmlutil_IsEmailURL htmlutil_ExtractEmailFromURL htmlutil_SocialLinks
    htmlutil_ToMarkdown NewRequestWithContext cache_FetchURL c urlStr
  = (Err e,
     [IO.LogInfo "fetching github profile"
        [("url", github.profileURL FindStringSubmatch urlStr);
         ("username", github.extractUsername FindStringSubmatch urlStr)];
      IO.FetchURL (github.apiRequest req)]).
Proof.
  intros Hu Hr Hf.
  rewrite (githubFetchFacts.Fetch_after_username _ _ _ _ _ _ _ _ _ _ _ c urlStr Hu).
  rewrite IOFacts.bind_emit.
  rewrite (githubFetchFacts.fetchAPI_sent _ _ _ _ _ c _ _ req Hr), Hf. reflexivity.
Qed.

Lemma github_Fetch_API_failure_witness :
  github.Fetch samples.noUnicode samples.findOctocat samples.findAllNone (fun s => s)
    (fun _ => Ok samples.octocat) (fun _ => false) (fun _ => (EmptyString, false))
    samples.readmeLinks (fun s => s) samples.newRequest (fun _ _ => Err "rate limited")
    samples.githubClient "github.com/octocat"
  = (Err "rate limited",
     [IO.LogInfo "fetching github profile"
        [("url", "https://github.com/octocat"); ("username", "octocat")];
      IO.FetchURL
        (github.apiRequest
           {| http.Method := "GET"; http.reqURL := "https://api.github.com/users/octocat";
              http.Header := ∅ |})]).
Proof.
  apply (github_Fetch_API_failure samples.noUnicode samples.findOctocat samples.findAllNone
           (fun s => s) (fun _ => Ok samples.octocat) (fun _ => false)
           (fun _ => (EmptyString, false)) samples.readmeLinks (fun s => s)
           samples.newRequest (fun _ _ => Err "rate limited") samples.githubClient
           "github.com/octocat").
  - discriminate.
  - reflexivity.
  - reflexivity.
Defined.

(** X18.  A failing profile page does not fail GitHub's Fetch: when the API
    answer was parsed into a profile and the page cannot be requested or
    fetched, Fetch returns that profile with a nil error, its SocialLinks
    deduplicated and filtered and everything else as parseJSON left it. *)
Theorem github_Fetch_page_failure_tolerated
  (M : string -> string)
  (FindStringSubmatch : string -> string -> list string)
  (FindAllStringSubmatch : string -> string -> Z -> list (list string))
  (TrimSpace : string -> string)
  (json_Unmarshal : string -> Result github.ghUser)
  (htmlutil_IsEmailURL : string -> bool)
  (htmlutil_ExtractEmailFromURL : string -> string * bool)
  (htmlutil_SocialLinks : string -> list string)
  (htmlutil_ToMarkdown : string -> string)
  (NewRequestWithContext : string -> string -> Result http.Request)
  (cache_FetchURL : github.Client -> http.Request -> Result string)
  (c : github.Client) (urlStr body : string) (req : http.Request)
  (prof0 : profile.Profile) :
  github.extractUsername FindStringSubmatch urlStr <> EmptyString ->
  NewRequestWithContext http.MethodGet
    ("https://api.github.com/users/" ++ github.extractUsername FindStringSubmatch urlStr)
  = Ok req ->
  cache_FetchURL c (github.apiRequest req) = Ok body ->
  github.parseJSON M json_Unmarshal htmlutil_ExtractEmailFromURL body
    (github.profileURL FindStringSubmatch urlStr)
    (github.extractUsername FindStringSubmatch urlStr) = Ok prof0 ->
  ((exists e,
       NewRequestWithContext http.MethodGet
         (github.profileURL FindStringSubmatch urlStr) = Err e)
   \/ (exists req' e,
          NewRequestWithContext http.MethodGet
            (github.profileURL FindStringSubmatch urlStr) = Ok req'
          /\ cache_FetchURL c (http.SetHeader "User-Agent" github.userAgent req') = Err e)) ->
  fst (github.Fetch M FindStringSubmatch FindAllStringSubmatch TrimSpace json_Unmarshal
         htmlutil_IsEmailURL htmlutil_ExtractEmailFromURL htmlutil_SocialLinks
         htmlutil_ToMarkdown NewRequestWithContext cache_FetchURL c urlStr)
  = Ok (profile.setSocialLinks
          (github.filterSamePlatformLinks M
             (github.dedupeLinks M (profile.SocialLinks prof0)))
          prof0).
Proof.
  intros Hu Hr Hf Hp Hpage.
  rewrite (githubFetchFacts.Fetch_after_username _ _ _ _ _ _ _ _ _ _ _ c urlStr Hu).
  rewrite IOFacts.bind_emit. cbn [fst].
  rewrite (githubFetchFacts.fetchAPI_sent _ _ _ _ _ c _ _ req Hr), Hf, Hp.
  pose proof (githubFetchFacts.fetchHTML_failed FindAllStringSubmatch htmlutil_IsEmailURL
                NewRequestWithContext cache_FetchURL c _ Hpage) as Hh.
  destruct (github.fetchHTML FindAllStringSubmatch htmlutil_IsEmailURL
              NewRequestWithContext cache_FetchURL c
              (github.profileURL FindStringSubmatch urlStr)) as [r t].
  cbn [fst] in Hh. subst r. cbn.
  unfold profile.appendLinks. cbn. rewrite app_nil_r.
  destruct prof0. reflexivity.
Qed.

Lemma github_Fetch_page_failure_tolerated_witness :
  exists prof,
    fst (github.Fetch samples.noUnicode samples.findOctocat samples.findAllNone (fun s => s)
           (fun _ => Ok samples.octocat) (fun _ => false) (fun _ => (EmptyString, false))
           samples.readmeLinks (fun s => s) samples.newRequest
           (fun _ req =>
              if String.eqb (http.reqURL req) "https://api.github.com/users/octocat"
              then Ok "{}" else Err "timeout")
           samples.githubClient "github.com/octocat") = Ok prof
    /\ profile.SocialLinks prof = ["https://twitter.com/octo"].
Proof.
  eexists. split.
  - apply (github_Fetch_page_failure_tolerated samples.noUnicode samples.findOctocat
             samples.findAllNone (fun s => s) (fun _ => Ok samples.octocat) (fun _ => false)
             (fun _ => (EmptyString, false)) samples.readmeLinks (fun s => s)
             samples.newRequest
             (fun _ req =>
                if String.eqb (http.reqURL req) "https://api.github.com/users/octocat"
                then Ok "{}" else Err "timeout")
             samples.githubClient "github.com/octocat" "{}"
             {| http.Method := "GET"; http.reqURL := "https://api.github.com/users/octocat";
                http.Header := ∅ |}).
    + discriminate.
    + reflexivity.
    + reflexivity.
    + reflexivity.
    + right. eexists. exists "timeout". split; reflexivity.
  - vm_compute. reflexivity.
Defined.

(** ** Package codeberg: parseHTML and Fetch *)

Ltac skip_inv :=
  let y := fresh "step" in
  let_head y; clearbody y.

Module codebergMore.
Import GoStrings profile IO codeberg.

Section Facts.
Variable FindStringSubmatch : string -> string -> list string.
Variable html_UnescapeString : string -> string.
Variable TrimSpace : string -> string.
Variable NewRequestWithContext : string -> string -> Result http.Request.

Local Abbreviation parse :=
  (parseHTML FindStringSubmatch html_UnescapeString TrimSpace).
Local Abbreviation page :=
  (fetchPage FindStringSubmatch html_UnescapeString TrimSpace NewRequestWithContext).
Local Abbreviation fetch :=
  (Fetch FindStringSubmatch html_UnescapeString TrimSpace NewRequestWithContext).
Local Abbreviation usernameOf := (extractUsername FindStringSubmatch).
Local Abbreviation urlOf := (profileURL FindStringSubmatch).

(** What the composite literal set is never assigned again. *)
Lemma parseHTML_identity (data urlStr username : string) :
  Platform (parse data urlStr username) = "codeberg"
  /\ URL (parse data urlStr username) = urlStr
  /\ Username (parse data urlStr username) = username
  /\ Location (parse data urlStr username) = EmptyString
  /\ Unstructured (parse data urlStr username) = EmptyString
  /\ Authenticated (parse data urlStr username) = false.
Proof.
  pose (P := fun p : Profile =>
               Platform p = "codeberg" /\ URL p = urlStr /\ Username p = username
               /\ Location p = EmptyString /\ Unstructured p = EmptyString
               /\ Authenticated p = false).
  change (P (parse data urlStr username)). cbv beta delta [parseHTML].
  skip_inv.
  keep_inv P ltac:(unfold P; repeat split; reflexivity).
  repeat first
    [ keep_inv P ltac:(unfold P in *; simpl; assumption)
    | skip_inv ].
  assumption.
Qed.

(** The two texts parseHTML refuses. *)
Lemma parseHTML_filters (data urlStr username : string) :
  (Bio (parse data urlStr username) = EmptyString
   \/ Contains (Bio (parse data urlStr username)) "Codeberg is a non-profit" = false)
  /\ (Website (parse data urlStr username) = EmptyString
      \/ Contains (Website (parse data urlStr username)) "codeberg.org" = false).
Proof.
  pose (P := fun p : Profile =>
               (Bio p = EmptyString
                \/ Contains (Bio p) "Codeberg is a non-profit" = false)
               /\ (Website p = EmptyString
                   \/ Contains (Website p) "codeberg.org" = false)).
  change (P (parse data urlStr username)). cbv beta delta [parseHTML].
  skip_inv.
  keep_inv P ltac:(unfold P; simpl; split; now left).
  repeat first
    [ keep_inv P
        ltac:(unfold P in *; simpl;
              first
                [ assumption
                | repeat match goal with H : _ /\ _ |- _ => destruct H end;
                  split; [assumption|]; right;
                  repeat match goal with
                    | H : _ && _ = true |- _ => apply andb_prop in H as [H ?]
                    | H : negb _ = true |- _ => apply negb_true_iff in H
                    end; assumption
                | repeat match goal with H : _ /\ _ |- _ => destruct H end;
                  split; [|assumption]; right;
                  repeat match goal with
                    | H : _ && _ = true |- _ => apply andb_prop in H as [H ?]
                    | H : negb _ = true |- _ => apply negb_true_iff in H
                    end; assumption ])
    | skip_inv ].
  assumption.
Qed.

Lemma knownField_insert (m : gmap string string) (k v : string) :
  knownField k v ->
  (forall k' v', m !! k' = Some v' -> knownField k' v') ->
  forall k' v', <[k := v]> m !! k' = Some v' -> knownField k' v'.
Proof.
  intros Hk Hm k' v'. destruct (decide (k = k')) as [<- | Hne].
  - rewrite lookup_insert_eq. now intros [= <-].
  - rewrite lookup_insert_ne by exact Hne. apply Hm.
Qed.

Lemma parseHTML_fields (data urlStr username : string) (k v : string) :
  Fields (parse data urlStr username) !! k = Some v -> knownField k v.
Proof.
  pose (P := fun p : Profile => forall k v, Fields p !! k = Some v -> knownField k v).
  revert k v. change (P (parse data urlStr username)). cbv beta delta [parseHTML].
  skip_inv.
  keep_inv P ltac:(unfold P; simpl; intros k v; rewrite lookup_empty; discriminate).
  repeat first
    [ keep_inv P
        ltac:(unfold P in *; simpl;
              first
                [ assumption
                | apply knownField_insert; [|assumption]; unfold knownField;
                  first
                    [ now left
                    | right; now left
                    | right; right; now left
                    | right; right; right;
                      match goal with
                      | H : _ && _ = true |- _ =>
                          apply andb_prop in H as [H1 H2];
                          apply negb_true_iff, String.eqb_neq in H1;
                          apply Z.ltb_lt in H2
                      end;
                      repeat split; assumption ] ])
    | skip_inv ].
  assumption.
Qed.

(** *** The trace of Fetch *)

(** The trace of the network path: the request, and the cache write after
    it when the page was read. *)
Lemma fetchPage_cases (c : Client) (urlStr username : string) :
  (exists e, page c urlStr username = (Err e, []))
  \/ (exists req e,
         page c urlStr username
         = (Err e, [HTTPDo (http.SetHeader "User-Agent" userAgent req)]))
  \/ (exists req body,
         page c urlStr username
         = (Ok (parse body urlStr username),
            match cache c with
            | Some _ => [HTTPDo (http.SetHeader "User-Agent" userAgent req);
                         CacheSetAsync urlStr body]
            | None => [HTTPDo (http.SetHeader "User-Agent" userAgent req)]
            end)).
Proof.
  unfold fetchPage.
  destruct (NewRequestWithContext http.MethodGet urlStr) as [req | e];
    [|left; exists e; reflexivity].
  right. rewrite IOFacts.bind_lift_Ok, IOFacts.bind_emit.
  destruct (httpClient c _) as [resp | e]; [|left; exists req, e; reflexivity].
  rewrite IOFacts.bind_lift_Ok.
  destruct (negb (http.StatusCode resp =? http.StatusOK));
    [left; exists req; eexists; reflexivity|].
  destruct (http.ReadAllLimit (2 ^ 20) (http.respBody resp)) as [body | e];
    [|left; exists req, e; reflexivity].
  right. exists req, body. rewrite IOFacts.bind_lift_Ok.
  now destruct (cache c).
Qed.

(** A status other than 200 is an error, reported before the body is read
    and before the cache is written. *)
Lemma fetchPage_status (c : Client) (urlStr username : string)
  (req : http.Request) (resp : http.Response) :
  NewRequestWithContext http.MethodGet urlStr = Ok req ->
  httpClient c (http.SetHeader "User-Agent" userAgent req) = Ok resp ->
  http.StatusCode resp <> http.StatusOK ->
  page c urlStr username
  = (Err ("HTTP " ++ Itoa (http.StatusCode resp)),
     [HTTPDo (http.SetHeader "User-Agent" userAgent req)]).
Proof.
  intros Hr Hd Hs. unfold fetchPage.
  rewrite Hr, IOFacts.bind_lift_Ok, IOFacts.bind_emit, Hd, IOFacts.bind_lift_Ok.
  apply Z.eqb_neq in Hs. rewrite Hs. reflexivity.
Qed.

(** Fetch in terms of the network path. *)
Lemma Fetch_cases (c : Client) (urlStr : string) :
  fetch c urlStr = (Err ("could not extract username from: " ++ urlStr), [])
  \/ (exists data,
         cache c <> None
         /\ fetch c urlStr
            = (Ok (parse data (urlOf urlStr) (usernameOf urlStr)),
               [LogInfo "fetching codeberg profile"
                  [("url", urlOf urlStr); ("username", usernameOf urlStr)];
                CacheGet (urlOf urlStr)]))
  \/ fetch c urlStr
     = (fst (page c (urlOf urlStr) (usernameOf urlStr)),
        (LogInfo "fetching codeberg profile"
           [("url", urlOf urlStr); ("username", usernameOf urlStr)]
         :: match cache c with
            | Some _ => [CacheGet (urlOf urlStr)]
            | None => []
            end
         ++ snd (page c (urlOf urlStr) (usernameOf urlStr)))%list).
Proof.
  destruct (String.eqb_spec (usernameOf urlStr) EmptyString) as [E | Hu].
  - left. unfold Fetch. now rewrite E.
  - right.
    rewrite (codebergFacts.Fetch_with_username _ _ _ _ c urlStr Hu), IOFacts.bind_emit.
    destruct (cache c) as [hc|] eqn:Hc.
    + rewrite IOFacts.bind_emit.
      destruct (Get hc (urlOf urlStr)) as [[[data etag] headers] found].
      destruct found.
      * left. exists data. split; [discriminate | reflexivity].
      * right. now destruct (page c (urlOf urlStr) (usernameOf urlStr)).
    + right. now destruct (page c (urlOf urlStr) (usernameOf urlStr)).
Qed.
End Facts.

End codebergMore.

(** X19.  What parseHTML takes from its arguments stays: the Profile it
    returns has the platform codeberg, the URL and the user name it was
    given, no location, no unstructured text, and is not marked as
    authenticated, whatever the page holds. *)
Theorem codeberg_parseHTML_identity
  (FindStringSubmatch : string -> string -> list string)
  (html_UnescapeString TrimSpace : string -> string)
  (data urlStr username : string) :
  profile.Platform
    (codeberg.parseHTML FindStringSubmatch html_UnescapeString TrimSpace
       data urlStr username) = "codeberg"
  /\ profile.URL
       (codeberg.parseHTML FindStringSubmatch html_UnescapeString TrimSpace
          data urlStr username) = urlStr
  /\ profile.Username
       (codeberg.parseHTML FindStringSubmatch html_UnescapeString TrimSpace
          data urlStr username) = username
  /\ profile.Location
       (codeberg.parseHTML FindStringSubmatch html_UnescapeString TrimSpace
          data urlStr username) = EmptyString
  /\ profile.Unstructured
       (codeberg.parseHTML FindStringSubmatch html_UnescapeString TrimSpace
          data urlStr username) = EmptyString
  /\ profile.Authenticated
       (codeberg.parseHTML FindStringSubmatch html_UnescapeString TrimSpace
          data urlStr username) = false.
Proof.
  exact (codebergMore.parseHTML_identity FindStringSubmatch html_UnescapeString TrimSpace
           data urlStr username).
Qed.

(** X20.  parseHTML keeps the site's own texts out of the profile: the Bio
    it returns is empty or does not contain the default description
    (Codeberg is a non-profit), and the Website is empty or does not contain
    codeberg.org, whichever of the two rel=me patterns supplied it. *)
Theorem codeberg_parseHTML_filters
  (FindStringSubmatch : string -> string -> list string)
  (html_UnescapeString TrimSpace : string -> string)
  (data urlStr username : string) :
  (profile.Bio
     (codeberg.parseHTML FindStringSubmatch html_UnescapeString TrimSpace
        data urlStr username) = EmptyString
   \/ GoStrings.Contains
        (profile.Bio
           (codeberg.parseHTML FindStringSubmatch html_UnescapeString TrimSpace
              data urlStr username))
        "Codeberg is a non-profit" = false)
  /\ (profile.Website
        (codeberg.parseHTML FindStringSubmatch html_UnescapeString TrimSpace
           data urlStr username) = EmptyString
      \/ GoStrings.Contains
           (profile.Website
              (codeberg.parseHTML FindStringSubmatch html_UnescapeString TrimSpace
                 data urlStr username))
           "codeberg.org" = false).
Proof.
  exact (codebergMore.parseHTML_filters FindStringSubmatch html_UnescapeString TrimSpace
           data urlStr username).
Qed.

(** X21.  The Fields of a Codeberg profile hold nothing but joined,
    followers, following and pronouns, and a pronouns entry is not empty and
    shorter than 20 bytes. *)
Theorem codeberg_parseHTML_fields
  (FindStringSubmatch : string -> string -> list string)
  (html_UnescapeString TrimSpace : string -> string)
  (data urlStr username k v : string) :
  profile.Fields
    (codeberg.parseHTML FindStringSubmatch html_UnescapeString TrimSpace
       data urlStr username) !! k = Some v ->
  codeberg.knownField k v.
Proof. apply codebergMore.parseHTML_fields. Qed.

Lemma codeberg_parseHTML_fields_witness :
  profile.Fields
    (codeberg.parseHTML samples.findCodeberg (fun s => s) (fun s => s)
       "<html>" "https://codeberg.org/mona" "mona") !! "pronouns" = Some "they/them"
  /\ codeberg.knownField "pronouns" "they/them".
Proof.
  assert (H : profile.Fields
                (codeberg.parseHTML samples.findCodeberg (fun s => s) (fun s => s)
                   "<html>" "https://codeberg.org/mona" "mona") !! "pronouns"
              = Some "they/them") by (vm_compute; reflexivity).
  split; [exact H|].
  exact (codeberg_parseHTML_fields samples.findCodeberg (fun s => s) (fun s => s)
           "<html>" "https://codeberg.org/mona" "mona" "pronouns" "they/them" H).
Defined.

(** X22.  The cache is written only for a page that was fetched and read:
    whenever the trace of Fetch holds a cache write, the client has a cache,
    the key written is the normalised profile URL, and Fetch returns, with a
    nil error, the Profile parsed from exactly the data that was written. *)
Theorem codeberg_Fetch_cache_write
  (FindStringSubmatch : string -> string -> list string)
  (html_UnescapeString TrimSpace : string -> string)
  (NewRequestWithContext : string -> string -> Result http.Request)
  (c : codeberg.Client) (urlStr key data : string) :
  In (IO.CacheSetAsync key data)
    (snd (codeberg.Fetch FindStringSubmatch html_UnescapeString TrimSpace
            NewRequestWithContext c urlStr)) ->
  codeberg.cache c <> None
  /\ key = codeberg.profileURL FindStringSubmatch urlStr
  /\ fst (codeberg.Fetch FindStringSubmatch html_UnescapeString TrimSpace
            NewRequestWithContext c urlStr)
     = Ok (codeberg.parseHTML FindStringSubmatch html_UnescapeString TrimSpace data
             (codeberg.profileURL FindStringSubmatch urlStr)
             (codeberg.extractUsername FindStringSubmatch urlStr)).
Proof.
  destruct (codebergMore.Fetch_cases FindStringSubmatch html_UnescapeString TrimSpace
              NewRequestWithContext c urlStr) as [-> | [(d & _ & ->) | ->]].
  - intros [].
  - cbn [snd In]. intros [H | [H | []]]; discriminate.
  - cbn [fst snd].
    destruct (codebergMore.fetchPage_cases FindStringSubmatch html_UnescapeString
                TrimSpace NewRequestWithContext c
                (codeberg.profileURL FindStringSubmatch urlStr)
                (codeberg.extractUsername FindStringSubmatch urlStr))
      as [(e & ->) | [(req & e & ->) | (req & body & ->)]]; cbn [fst snd].
    + destruct (codeberg.cache c); cbn [In app];
        intros H; decompose [or] H; try discriminate; contradiction.
    + destruct (codeberg.cache c); cbn [In app];
        intros H; decompose [or] H; try discriminate; contradiction.
    + destruct (codeberg.cache c) as [hc|]; cbn [In app];
        intros H; decompose [or] H; try discriminate; try contradiction.
      match goal with
      | E : IO.CacheSetAsync _ _ = IO.CacheSetAsync _ _ |- _ => injection E as <- <-
      end.
      repeat split. discriminate.
Qed.

Lemma codeberg_Fetch_cache_write_witness :
  In (IO.CacheSetAsync "https://codeberg.org/octocat" "<html>fresh</html>")
    (snd (samples.fetchCodeberg (Some samples.brokenCache) "codeberg.org/octocat"))
  /\ fst (samples.fetchCodeberg (Some samples.brokenCache) "codeberg.org/octocat")
     = Ok (samples.parseCodeberg "<html>fresh</html>" "https://codeberg.org/octocat"
             "octocat").
Proof.
  assert (H : In (IO.CacheSetAsync "https://codeberg.org/octocat" "<html>fresh</html>")
                (snd (samples.fetchCodeberg (Some samples.brokenCache)
                        "codeberg.org/octocat")))
    by (vm_compute; tauto).
  split; [exact H|].
  exact (proj2 (proj2 (codeberg_Fetch_cache_write samples.findOctocat (fun s => s)
                         (fun s => s) samples.newRequest
                         (samples.codebergClient (Some samples.brokenCache))
                         "codeberg.org/octocat" "https://codeberg.org/octocat"
                         "<html>fresh</html>" H))).
Defined.

(** X23.  Fetch sends at most one HTTP request, and a client without a cache
    causes no cache event: its trace holds neither a lookup nor a write. *)
Theorem codeberg_Fetch_one_request
  (FindStringSubmatch : string -> string -> list string)
  (html_UnescapeString TrimSpace : string -> string)
  (NewRequestWithContext : string -> string -> Result http.Request)
  (c : codeberg.Client) (urlStr : string) :
  (length (List.filter IO.isHTTP
             (snd (codeberg.Fetch FindStringSubmatch html_UnescapeString TrimSpace
                     NewRequestWithContext c urlStr))) <= 1)%nat
  /\ (codeberg.cache c = None ->
      forall ev,
        In ev (snd (codeberg.Fetch FindStringSubmatch html_UnescapeString TrimSpace
                      NewRequestWithContext c urlStr)) ->
        match ev with
        | IO.CacheGet _ | IO.CacheSetAsync _ _ => False
        | _ => True
        end).
Proof.
  destruct (codebergMore.Fetch_cases FindStringSubmatch html_UnescapeString TrimSpace
              NewRequestWithContext c urlStr) as [-> | [(d & Hc & ->) | ->]].
  - split; [cbn; lia | intros _ ev []].
  - split; [cbn; lia | intros Hn; now elim Hc].
  - cbn [snd].
    destruct (codebergMore.fetchPage_cases FindStringSubmatch html_UnescapeString
                TrimSpace NewRequestWithContext c
                (codeberg.profileURL FindStringSubmatch urlStr)
                (codeberg.extractUsername FindStringSubmatch urlStr))
      as [(e & ->) | [(req & e & ->) | (req & body & ->)]]; cbn [snd];
      (split;
       [ destruct (codeberg.cache c); cbn; lia
       | intros ->; cbn [In app]; intros ev H; decompose [or] H; subst;
         first [exact I | contradiction] ]).
Qed.

(** X24.  A status other than 200 is an error and leaves the cache alone:
    when nothing usable is cached and the server answers with another
    status, Fetch returns the error HTTP followed by the status code, and
    its trace holds no cache write. *)
Theorem codeberg_Fetch_status_error
  (FindStringSubmatch : string -> string -> list string)
  (html_UnescapeString TrimSpace : string -> string)
  (NewRequestWithContext : string -> string -> Result http.Request)
  (c : codeberg.Client) (urlStr : string) (req : http.Request) (resp : http.Response) :
  codeberg.extractUsername FindStringSubmatch urlStr <> EmptyString ->
  match codeberg.cache c with
  | Some hc => snd (Get hc (codeberg.profileURL FindStringSubmatch urlStr)) = false
  | None => True
  end ->
  NewRequestWithContext http.MethodGet (codeberg.profileURL FindStringSubmatch urlStr)
  = Ok req ->
  codeberg.httpClient c (http.SetHeader "User-Agent" codeberg.userAgent req) = Ok resp ->
  http.StatusCode resp <> http.StatusOK ->
  fst (codeberg.Fetch FindStringSubmatch html_UnescapeString TrimSpace
         NewRequestWithContext c urlStr)
  = Err ("HTTP " ++ Itoa (http.StatusCode resp))
  /\ forall key data,
      ~ In (IO.CacheSetAsync key data)
          (snd (codeberg.Fetch FindStringSubmatch html_UnescapeString TrimSpace
                  NewRequestWithContext c urlStr)).
Proof.
  intros Hu Hc Hr Hd Hs.
  rewrite (codebergFacts.Fetch_with_username _ _ _ _ c urlStr Hu), IOFacts.bind_emit.
  pose proof (codebergMore.fetchPage_status FindStringSubmatch html_UnescapeString
                TrimSpace NewRequestWithContext c _
                (codeberg.extractUsername FindStringSubmatch urlStr) req resp Hr Hd Hs)
    as Hp.
  destruct (codeberg.cache c) as [hc|].
  - rewrite IOFacts.bind_emit.
    destruct (Get hc _) as [[[data etag] headers] found]. cbn [snd] in Hc. subst found.
    rewrite Hp. cbn [fst snd]. split; [reflexivity|].
    intros key d H. cbn [In app] in H. decompose [or] H; try discriminate; contradiction.
  - rewrite Hp. cbn [fst snd]. split; [reflexivity|].
    intros key d H. cbn [In app] in H. decompose [or] H; try discriminate; contradiction.
Qed.

Lemma codeberg_Fetch_status_error_witness :
  fst (codeberg.Fetch samples.findOctocat (fun s => s) (fun s => s) samples.newRequest
         {| codeberg.httpClient :=
              fun _ => Ok {| http.StatusCode := 404;
                             http.respBody := {| http.content := "not found";
                                                 http.failure := None |} |};
            codeberg.cache := Some samples.brokenCache |}
         "https://codeberg.org/octocat")
  = Err "HTTP 404".
Proof.
  apply (codeberg_Fetch_status_error samples.findOctocat (fun s => s) (fun s => s)
           samples.newRequest
           {| codeberg.httpClient :=
                fun _ => Ok {| http.StatusCode := 404;
                               http.respBody := {| http.content := "not found";
                                                   http.failure := None |} |};
              codeberg.cache := Some samples.brokenCache |}
           "https://codeberg.org/octocat"
           {| http.Method := "GET"; http.reqURL := "https://codeberg.org/octocat";
              http.Header := ∅ |}
           {| http.StatusCode := 404;
              http.respBody := {| http.content := "not found"; http.failure := None |} |}).
  - discriminate.
  - reflexivity.
  - reflexivity.
  - reflexivity.
  - discriminate.
Defined.

(** ** strings.Index and strings.Contains *)

Module IndexFacts.
Import GoStrings.
#[local] Arguments String.append !s1 s2 : simpl nomatch.

Lemma HasPrefix_nil (s : string) : HasPrefix s EmptyString = true.
Proof.
  unfold HasPrefix, sliceTo, len. simpl.
  apply andb_true_intro. split; [apply Z.leb_le; lia | now destruct s].
Qed.

Lemma HasPrefix_empty (d : ascii) (p : string) :
  HasPrefix EmptyString (String d p) = false.
Proof.
  unfold HasPrefix, len. simpl String.length.
  replace (Z.of_nat (S (String.length p)) <=? Z.of_nat 0) with false; [reflexivity|].
  symmetry. apply Z.leb_gt. lia.
Qed.

Lemma HasPrefix_cons (c d : ascii) (s p : string) :
  HasPrefix (String c s) (String d p) = Ascii.eqb c d && HasPrefix s p.
Proof.
  unfold HasPrefix, sliceTo, len. simpl String.length.
  rewrite !Nat2Z.id. simpl takeBytes. simpl String.eqb.
  replace (Z.of_nat (S (String.length p)) <=? Z.of_nat (S (String.length s)))
    with (Z.of_nat (String.length p) <=? Z.of_nat (String.length s)).
  - destruct (Ascii.eqb c d); [reflexivity | now rewrite andb_false_r].
  - destruct (Z.leb_spec (Z.of_nat (String.length p)) (Z.of_nat (String.length s)));
      symmetry; [apply Z.leb_le | apply Z.leb_gt]; lia.
Qed.

Lemma HasPrefix_app (p t : string) : HasPrefix (p ++ t) p = true.
Proof.
  induction p as [|c p IH]; simpl; [apply HasPrefix_nil|].
  now rewrite HasPrefix_cons, Ascii.eqb_refl, IH.
Qed.

Lemma HasPrefix_inv (s p : string) : HasPrefix s p = true -> exists t, s = p ++ t.
Proof.
  revert s. induction p as [|d p IH]; intros s H; [now exists s|].
  destruct s as [|c s]; [now rewrite HasPrefix_empty in H|].
  rewrite HasPrefix_cons in H. apply andb_prop in H as [Hc Hp].
  apply Ascii.eqb_eq in Hc as ->. destruct (IH s Hp) as [t ->]. now exists t.
Qed.

Lemma drop_app (a t : string) : dropBytes (String.length a) (a ++ t) = t.
Proof. induction a as [|c a IH]; simpl; [reflexivity | exact IH]. Qed.

Lemma take_app (a t : string) (k : nat) :
  takeBytes (String.length a + k) (a ++ t) = a ++ takeBytes k t.
Proof. induction a as [|c a IH]; simpl; [reflexivity | now rewrite IH]. Qed.

Lemma drop_inside (a t : string) (k : nat) :
  (k <= String.length a)%nat -> dropBytes k (a ++ t) = dropBytes k a ++ t.
Proof.
  revert k. induction a as [|c a IH]; intros [|k] Hk; simpl in *; try reflexivity; try lia.
  apply IH. lia.
Qed.

Lemma drop_nonempty (a : string) (k : nat) :
  (k < String.length a)%nat -> exists c r, dropBytes k a = String c r.
Proof.
  revert k. induction a as [|c a IH]; intros k Hk; simpl in *; [lia|].
  destruct k as [|k]; simpl; [eauto | apply IH; lia].
Qed.

(** What [indexFrom] returns: -1 when no suffix of [s] starts with [x], and
    otherwise the offset of the first suffix that does. *)
Lemma indexFrom_cases (s x : string) :
  ((forall j, indexFrom j s x = -1)
   /\ forall k, (k <= String.length s)%nat -> HasPrefix (dropBytes k s) x = false)
  \/ (exists k,
         (k <= String.length s)%nat
         /\ HasPrefix (dropBytes k s) x = true
         /\ (forall j, indexFrom j s x = j + Z.of_nat k)
         /\ forall k', (k' < k)%nat -> HasPrefix (dropBytes k' s) x = false).
Proof.
  induction s as [|c s IH].
  - destruct (HasPrefix EmptyString x) eqn:E.
    + right. exists 0%nat. simpl. rewrite E.
      repeat split; [lia | intros j; lia | intros k' Hk'; lia].
    + left. simpl. rewrite E. split; [reflexivity|].
      intros [|k] _; exact E.
  - destruct (HasPrefix (String c s) x) eqn:E.
    + right. exists 0%nat. cbn [indexFrom dropBytes]. rewrite E.
      repeat split; [simpl; lia | intros j; lia | intros k' Hk'; lia].
    + destruct IH as [[Hn Hp] | (k & Hk & Hp & Hi & Hm)].
      * left. cbn [indexFrom]. rewrite E. split; [intros j; apply Hn|].
        intros [|k] Hk; [exact E|]. simpl. apply Hp. simpl in Hk. lia.
      * right. exists (S k). cbn [indexFrom dropBytes]. rewrite E.
        repeat split; [simpl; lia | exact Hp | intros j; rewrite Hi; lia|].
        intros [|k'] Hk'; [exact E|]. simpl. apply Hm. lia.
Qed.

Lemma Index_range (s x : string) : Index s x = -1 \/ 0 <= Index s x <= len s.
Proof.
  unfold Index, len.
  destruct (indexFrom_cases s x) as [[Hn _] | (k & Hk & _ & Hi & _)];
    [left; apply Hn | right; rewrite Hi; lia].
Qed.

Lemma Contains_false_Index (s x : string) : Contains s x = false -> Index s x = -1.
Proof.
  unfold Contains. intros H. apply Z.leb_gt in H.
  destruct (Index_range s x); lia.
Qed.

Lemma Contains_false_inv (s x : string) (k : nat) :
  Contains s x = false -> (k <= String.length s)%nat ->
  HasPrefix (dropBytes k s) x = false.
Proof.
  intros H Hk. apply Contains_false_Index in H. unfold Index in H.
  destruct (indexFrom_cases s x) as [[_ Hp] | (k0 & _ & _ & Hi & _)];
    [now apply Hp | rewrite Hi in H; lia].
Qed.

(** [Contains] is the substring relation. *)
Lemma Contains_app (pre x post : string) : Contains (pre ++ x ++ post) x = true.
Proof.
  destruct (Contains (pre ++ x ++ post) x) eqn:E; [reflexivity|].
  pose proof (Contains_false_inv _ _ (String.length pre) E) as H.
  rewrite drop_app, HasPrefix_app in H.
  rewrite GoStringsFacts.length_append in H. assert (true = false) by (apply H; lia).
  discriminate.
Qed.

Lemma Contains_inv (s x : string) :
  Contains s x = true -> exists pre post, s = pre ++ x ++ post.
Proof.
  unfold Contains, Index. intros H. apply Z.leb_le in H.
  destruct (indexFrom_cases s x) as [[Hn _] | (k & Hk & Hp & _ & _)];
    [rewrite Hn in H; lia|].
  apply HasPrefix_inv in Hp as [post Hp].
  exists (takeBytes k s), post. rewrite <- Hp. symmetry. apply GoStringsFacts.take_drop.
Qed.

Lemma HasSuffix_Contains (s x : string) : HasSuffix s x = true -> Contains s x = true.
Proof.
  intros H. apply GoStringsFacts.HasSuffix_inv in H. rewrite H.
  rewrite <- (GoStringsFacts.append_empty_r x) at 2. apply Contains_app.
Qed.

(** The first occurrence, when nothing before it starts one. *)
Lemma Index_first (pre x post : string) :
  (forall k, (k < String.length pre)%nat ->
             HasPrefix (dropBytes k (pre ++ x ++ post)) x = false) ->
  Index (pre ++ x ++ post) x = len pre.
Proof.
  intros Hpre. unfold Index, len.
  destruct (indexFrom_cases (pre ++ x ++ post) x) as [[_ Hp] | (k & Hk & Hp & Hi & Hm)].
  - specialize (Hp (String.length pre)).
    rewrite drop_app, HasPrefix_app, GoStringsFacts.length_append in Hp.
    assert (true = false) by (apply Hp; lia). discriminate.
  - rewrite Hi. destruct (Nat.lt_trichotomy k (String.length pre)) as [Hlt | [-> | Hgt]].
    + rewrite (Hpre k Hlt) in Hp. discriminate.
    + lia.
    + specialize (Hm _ Hgt). rewrite drop_app, HasPrefix_app in Hm. discriminate.
Qed.

(** A one-byte pattern that does not occur in [a] is found in [a ++ t], if
    at all, behind [a]. *)
Lemma Index_byte_behind (a t : string) (b : ascii) :
  Contains a (String b EmptyString) = false ->
  Index (a ++ t) (String b EmptyString) = -1
  \/ exists k, Index (a ++ t) (String b EmptyString) = len a + Z.of_nat k.
Proof.
  intros Ha. unfold Index, len.
  destruct (indexFrom_cases (a ++ t) (String b EmptyString))
    as [[Hn _] | (k & Hk & Hp & Hi & _)]; [left; apply Hn|].
  right. rewrite Hi.
  destruct (Nat.lt_ge_cases k (String.length a)) as [Hlt | Hge].
  - exfalso. rewrite drop_inside in Hp by lia.
    destruct (drop_nonempty a k Hlt) as (c & r & Hd).
    pose proof (Contains_false_inv a _ k Ha ltac:(lia)) as Hf.
    rewrite Hd in Hp, Hf. simpl in Hp. rewrite HasPrefix_cons, HasPrefix_nil in *.
    congruence.
  - exists (k - String.length a)%nat. lia.
Qed.

(** Lowering an ASCII string byte by byte. *)
Lemma mapBytes_app (f : ascii -> ascii) (s t : string) :
  mapBytes f (s ++ t) = mapBytes f s ++ mapBytes f t.
Proof. induction s as [|c s IH]; simpl; [reflexivity | now rewrite IH]. Qed.

Lemma mapBytes_length (f : ascii -> ascii) (s : string) :
  String.length (mapBytes f s) = String.length s.
Proof. induction s as [|c s IH]; simpl; [reflexivity | now rewrite IH]. Qed.

(** The path test both Match functions end with, on a path that starts with
    a name and a slash: cutting one final slash and a query leaves the name
    and the slash in place. *)
Lemma TrimSuffix_behind (a r : string) :
  r <> EmptyString -> exists r', TrimSuffix (a ++ "/" ++ r) "/" = a ++ "/" ++ r'.
Proof.
  intros Hr. unfold TrimSuffix.
  destruct (HasSuffix (a ++ "/" ++ r) "/"); [|now exists r].
  unfold sliceTo, len. rewrite !GoStringsFacts.length_append.
  destruct r as [|c r]; [now elim Hr|]. simpl String.length.
  replace (Z.to_nat _) with (String.length a + S (String.length r))%nat by lia.
  rewrite take_app. simpl. eauto.
Qed.

Lemma cut_query_behind (a y : string) :
  Contains a "?" = false ->
  exists y',
    (if 0 <=? Index (a ++ "/" ++ y) "?"
     then sliceTo (a ++ "/" ++ y) (Index (a ++ "/" ++ y) "?")
     else a ++ "/" ++ y) = a ++ "/" ++ y'.
Proof.
  intros Ha.
  destruct (0 <=? Index (a ++ "/" ++ y) "?") eqn:E; [|now exists y].
  apply Z.leb_le in E.
  destruct (Index_byte_behind a ("/" ++ y) "?" Ha) as [Hn | [k Hk]]; [lia|].
  rewrite Hk. unfold sliceTo, len.
  replace (Z.to_nat _) with (String.length a + k)%nat by lia.
  rewrite take_app. destruct k as [|k].
  - exfalso. unfold Index in Hk.
    destruct (indexFrom_cases (a ++ "/" ++ y) "?") as [[Hn _] | (k0 & _ & Hp & Hi & _)].
    + rewrite Hn in Hk. unfold len in Hk. lia.
    + rewrite Hi in Hk. unfold len in Hk.
      replace k0 with (String.length a) in Hp by lia.
      rewrite drop_app in Hp. simpl in Hp. rewrite HasPrefix_cons in Hp. discriminate.
  - simpl. eauto.
Qed.
End IndexFacts.

(** ** Match in the packages github and codeberg *)

Module MatchFacts.
Import GoStrings.
#[local] Arguments String.append !s1 s2 : simpl nomatch.

Lemma ToLower_app_ascii (M : string -> string) (a b : string) :
  isASCII a = true -> isASCII b = true ->
  ToLower M (a ++ b) = ToLower M a ++ ToLower M b.
Proof.
  intros Ha Hb.
  rewrite !GoStringsFacts.ToLower_ascii, ?IndexFacts.mapBytes_app; trivial.
  now rewrite GoStringsFacts.isASCII_append, Ha, Hb.
Qed.

(** The text behind the first occurrence of the host. *)
Lemma after_host (scheme host rest : string) :
  (forall k, (k < String.length scheme)%nat ->
             HasPrefix (dropBytes k (scheme ++ host ++ rest)) host = false) ->
  Contains (scheme ++ host ++ rest) host = true
  /\ sliceFrom (scheme ++ host ++ rest) (Index (scheme ++ host ++ rest) host + len host)
     = rest.
Proof.
  intros H. split; [apply IndexFacts.Contains_app|].
  rewrite (IndexFacts.Index_first _ _ _ H). unfold sliceFrom, len.
  replace (Z.to_nat _) with (String.length (scheme ++ host))
    by (rewrite GoStringsFacts.length_append; lia).
  rewrite <- GoStringsFacts.append_assoc. apply IndexFacts.drop_app.
Qed.

(** The path of a profile URL: a name without slash and query, with or
    without one final slash. *)
Lemma profile_path (l tail : string) :
  tail = EmptyString \/ tail = "/" ->
  Contains l "/" = false -> Contains l "?" = false ->
  (if 0 <=? Index (TrimSuffix (l ++ tail) "/") "?"
   then sliceTo (TrimSuffix (l ++ tail) "/") (Index (TrimSuffix (l ++ tail) "/") "?")
   else TrimSuffix (l ++ tail) "/") = l.
Proof.
  intros Ht Hs Hq.
  assert (E : TrimSuffix (l ++ tail) "/" = l).
  { destruct Ht as [-> | ->].
    - rewrite GoStringsFacts.append_empty_r. unfold TrimSuffix.
      destruct (HasSuffix l "/") eqn:E; [|reflexivity].
      apply IndexFacts.HasSuffix_Contains in E. congruence.
    - apply GoStringsFacts.TrimSuffix_append. }
  rewrite E, (IndexFacts.Contains_false_Index _ _ Hq). reflexivity.
Qed.

(** The path of anything below a name keeps the slash behind the name. *)
Lemma deeper_path (l r : string) :
  r <> EmptyString -> Contains l "?" = false ->
  Contains
    (if 0 <=? Index (TrimSuffix (l ++ "/" ++ r) "/") "?"
     then sliceTo (TrimSuffix (l ++ "/" ++ r) "/")
            (Index (TrimSuffix (l ++ "/" ++ r) "/") "?")
     else TrimSuffix (l ++ "/" ++ r) "/") "/" = true.
Proof.
  intros Hr Hq.
  destruct (IndexFacts.TrimSuffix_behind l r Hr) as [r' ->].
  destruct (IndexFacts.cut_query_behind l r' Hq) as [y ->].
  apply IndexFacts.Contains_app.
Qed.

Lemma no_host_before_github (rest : string) (k : nat) :
  (k < String.length "https://")%nat ->
  HasPrefix (dropBytes k ("https://" ++ "github.com/" ++ rest)) "github.com/" = false.
Proof.
  intros Hk.
  do 8 (destruct k as [|k];
        [cbn [dropBytes String.append]; rewrite IndexFacts.HasPrefix_cons; reflexivity|]).
  simpl in Hk. lia.
Qed.

Lemma no_host_before_codeberg (rest : string) (k : nat) :
  (k < String.length "https://")%nat ->
  HasPrefix (dropBytes k ("https://" ++ "codeberg.org/" ++ rest)) "codeberg.org/" = false.
Proof.
  intros Hk.
  do 8 (destruct k as [|k];
        [cbn [dropBytes String.append]; rewrite IndexFacts.HasPrefix_cons; reflexivity|]).
  simpl in Hk. lia.
Qed.

Section Facts.
Variable M : string -> string.

Lemma github_lower (x : string) :
  isASCII x = true ->
  ToLower M ("https://github.com/" ++ x) = "https://" ++ "github.com/" ++ ToLower M x.
Proof. intros Hx. now rewrite ToLower_app_ascii. Qed.

Lemma codeberg_lower (x : string) :
  isASCII x = true ->
  ToLower M ("https://codeberg.org/" ++ x) = "https://" ++ "codeberg.org/" ++ ToLower M x.
Proof. intros Hx. now rewrite ToLower_app_ascii. Qed.

Lemma tail_lower (n tail : string) :
  isASCII n = true -> tail = EmptyString \/ tail = "/" ->
  isASCII (n ++ tail) = true /\ ToLower M (n ++ tail) = ToLower M n ++ tail.
Proof.
  intros Hn Ht.
  assert (Ha : isASCII tail = true) by (destruct Ht as [-> | ->]; reflexivity).
  split; [now rewrite GoStringsFacts.isASCII_append, Hn, Ha|].
  rewrite ToLower_app_ascii by assumption. now destruct Ht as [-> | ->].
Qed.

Lemma github_Match_profile (n tail : string) :
  isASCII n = true -> tail = EmptyString \/ tail = "/" ->
  Contains (ToLower M n) "/" = false -> Contains (ToLower M n) "?" = false ->
  github.Match M ("https://github.com/" ++ n ++ tail)
  = negb (String.eqb (ToLower M n) EmptyString)
    && negb (default false (github.nonProfiles !! ToLower M n)).
Proof.
  intros Hn Ht Hs Hq. destruct (tail_lower n tail Hn Ht) as [Ha Hl].
  unfold github.Match. rewrite (github_lower _ Ha), Hl.
  destruct (after_host "https://" "github.com/" (ToLower M n ++ tail)
              (no_host_before_github _)) as [-> ->].
  cbn [negb]. rewrite (profile_path _ _ Ht Hs Hq), Hs. reflexivity.
Qed.

Lemma github_Match_deeper (n r : string) :
  isASCII n = true -> isASCII r = true -> r <> EmptyString ->
  Contains (ToLower M n) "?" = false ->
  github.Match M ("https://github.com/" ++ n ++ "/" ++ r) = false.
Proof.
  intros Hn Hr Hne Hq.
  assert (Ha : isASCII (n ++ "/" ++ r) = true)
    by (rewrite !GoStringsFacts.isASCII_append, Hn, Hr; reflexivity).
  assert (Hl : ToLower M (n ++ "/" ++ r) = ToLower M n ++ "/" ++ ToLower M r).
  { assert (Hb : isASCII ("/" ++ r) = true)
      by (rewrite GoStringsFacts.isASCII_append, Hr; reflexivity).
    rewrite (ToLower_app_ascii M n ("/" ++ r) Hn Hb).
    now rewrite (ToLower_app_ascii M "/" r eq_refl Hr). }
  assert (Hr' : ToLower M r <> EmptyString).
  { rewrite GoStringsFacts.ToLower_ascii by exact Hr.
    destruct r; [now elim Hne | discriminate]. }
  unfold github.Match. rewrite (github_lower _ Ha), Hl.
  destruct (after_host "https://" "github.com/" (ToLower M n ++ "/" ++ ToLower M r)
              (no_host_before_github _)) as [-> ->].
  cbn [negb]. now rewrite (deeper_path _ _ Hr' Hq).
Qed.

Lemma codeberg_Match_profile (n tail : string) :
  isASCII n = true -> tail = EmptyString \/ tail = "/" ->
  Contains (ToLower M n) "/" = false -> Contains (ToLower M n) "?" = false ->
  codeberg.Match M ("https://codeberg.org/" ++ n ++ tail)
  = negb (String.eqb (ToLower M n) EmptyString)
    && negb (default false (codeberg.nonProfiles !! ToLower M n)).
Proof.
  intros Hn Ht Hs Hq. destruct (tail_lower n tail Hn Ht) as [Ha Hl].
  unfold codeberg.Match. rewrite (codeberg_lower _ Ha), Hl.
  destruct (after_host "https://" "codeberg.org/" (ToLower M n ++ tail)
              (no_host_before_codeberg _)) as [-> ->].
  cbn [negb]. rewrite (profile_path _ _ Ht Hs Hq), Hs. reflexivity.
Qed.

Lemma codeberg_Match_deeper (n r : string) :
  isASCII n = true -> isASCII r = true -> r <> EmptyString ->
  Contains (ToLower M n) "?" = false ->
  codeberg.Match M ("https://codeberg.org/" ++ n ++ "/" ++ r) = false.
Proof.
  intros Hn Hr Hne Hq.
  assert (Ha : isASCII (n ++ "/" ++ r) = true)
    by (rewrite !GoStringsFacts.isASCII_append, Hn, Hr; reflexivity).
  assert (Hl : ToLower M (n ++ "/" ++ r) = ToLower M n ++ "/" ++ ToLower M r).
  { assert (Hb : isASCII ("/" ++ r) = true)
      by (rewrite GoStringsFacts.isASCII_append, Hr; reflexivity).
    rewrite (ToLower_app_ascii M n ("/" ++ r) Hn Hb).
    now rewrite (ToLower_app_ascii M "/" r eq_refl Hr). }
  assert (Hr' : ToLower M r <> EmptyString).
  { rewrite GoStringsFacts.ToLower_ascii by exact Hr.
    destruct r; [now elim Hne | discriminate]. }
  unfold codeberg.Match. rewrite (codeberg_lower _ Ha), Hl.
  destruct (after_host "https://" "codeberg.org/" (ToLower M n ++ "/" ++ ToLower M r)
              (no_host_before_codeberg _)) as [-> ->].
  cbn [negb]. now rewrite (deeper_path _ _ Hr' Hq).
Qed.
End Facts.

(** The cases of the tests of Match. *)
Example github_Match_cases :
  github.Match samples.noUnicode "https://github.com/octocat" = true
  /\ github.Match samples.noUnicode "https://GitHub.com/Octocat/" = true
  /\ github.Match samples.noUnicode "https://github.com/octocat?tab=repositories" = true
  /\ github.Match samples.noUnicode "https://github.com/octocat/hello-world" = false
  /\ github.Match samples.noUnicode "https://github.com/features" = false
  /\ github.Match samples.noUnicode "https://example.com/octocat" = false.
Proof. vm_compute. repeat split; reflexivity. Qed.

Example codeberg_Match_cases :
  codeberg.Match samples.noUnicode "https://codeberg.org/mona" = true
  /\ codeberg.Match samples.noUnicode "https://codeberg.org/mona/" = true
  /\ codeberg.Match samples.noUnicode "https://codeberg.org/mona/repo" = false
  /\ codeberg.Match samples.noUnicode "https://codeberg.org/explore" = false
  /\ codeberg.Match samples.noUnicode "https://github.com/mona" = false.
Proof. vm_compute. repeat split; reflexivity. Qed.

End MatchFacts.

(** X25.  GitHub's Match on a canonical profile URL.  For an ASCII name whose
    lower-case form holds neither a slash nor a question mark, Match of
    https://github.com/ followed by the name, with or without one final
    slash, is true exactly when the lower-case name is not empty and is not
    one of the reserved paths: the name is compared without regard to
    case. *)
Theorem github_Match_profile_URL (M : string -> string) (name tail : string) :
  GoStrings.isASCII name = true ->
  tail = EmptyString \/ tail = "/" ->
  GoStrings.Contains (GoStrings.ToLower M name) "/" = false ->
  GoStrings.Contains (GoStrings.ToLower M name) "?" = false ->
  github.Match M ("https://github.com/" ++ name ++ tail)
  = negb (String.eqb (GoStrings.ToLower M name) EmptyString)
    && negb (default false (github.nonProfiles !! GoStrings.ToLower M name)).
Proof. apply MatchFacts.github_Match_profile. Qed.

Lemma github_Match_profile_URL_witness :
  github.Match samples.noUnicode "https://github.com/Octocat/" = true.
Proof.
  apply (github_Match_profile_URL samples.noUnicode "Octocat" "/").
  - reflexivity.
  - now right.
  - reflexivity.
  - reflexivity.
Defined.

(** X26.  Match rejects what lies below a profile, in the packages github and
    codeberg alike: for ASCII texts, a URL that continues behind the name
    with a slash and anything non-empty (a repository, a tab, a query behind
    the slash) is not matched, provided the name holds no question mark. *)
Theorem Match_rejects_deeper_paths (M : string -> string) (name rest : string) :
  GoStrings.isASCII name = true ->
  GoStrings.isASCII rest = true ->
  rest <> EmptyString ->
  GoStrings.Contains (GoStrings.ToLower M name) "?" = false ->
  github.Match M ("https://github.com/" ++ name ++ "/" ++ rest) = false
  /\ codeberg.Match M ("https://codeberg.org/" ++ name ++ "/" ++ rest) = false.
Proof.
  intros Hn Hr Hne Hq. split.
  - now apply MatchFacts.github_Match_deeper.
  - now apply MatchFacts.codeberg_Match_deeper.
Qed.

Lemma Match_rejects_deeper_paths_witness :
  github.Match samples.noUnicode "https://github.com/octocat/?tab=repositories" = false
  /\ codeberg.Match samples.noUnicode "https://codeberg.org/octocat/?tab=repositories"
     = false.
Proof.
  apply (Match_rejects_deeper_paths samples.noUnicode "octocat" "?tab=repositories").
  - reflexivity.
  - reflexivity.
  - discriminate.
  - reflexivity.
Defined.

(** X27.  Codeberg's Match on a canonical profile URL.  For an ASCII name
    whose lower-case form holds neither a slash nor a question mark, Match
    of https://codeberg.org/ followed by the name, with or without one final
    slash, is true exactly when the lower-case name is not empty and is not
    one of the ten reserved paths. *)
Theorem codeberg_Match_profile_URL (M : string -> string) (name tail : string) :
  GoStrings.isASCII name = true ->
  tail = EmptyString \/ tail = "/" ->
  GoStrings.Contains (GoStrings.ToLower M name) "/" = false ->
  GoStrings.Contains (GoStrings.ToLower M name) "?" = false ->
  codeberg.Match M ("https://codeberg.org/" ++ name ++ tail)
  = negb (String.eqb (GoStrings.ToLower M name) EmptyString)
    && negb (default false (codeberg.nonProfiles !! GoStrings.ToLower M name)).
Proof. apply MatchFacts.codeberg_Match_profile. Qed.

Lemma codeberg_Match_profile_URL_witness :
  codeberg.Match samples.noUnicode "https://codeberg.org/Explore" = false.
Proof.
  apply (codeberg_Match_profile_URL samples.noUnicode "Explore" EmptyString).
  - reflexivity.
  - now left.
  - reflexivity.
  - reflexivity.
Defined.

(** ** Package generic: validateURL and Fetch *)

Module genericMore.
Import GoStrings profile IO generic.

Section Validation.
Variable M : string -> string.
Variable url_Parse : string -> Result url.URL.
Variable net_ParseIP : string -> option net.IP.

Local Abbreviation validate := (validateURL M url_Parse net_ParseIP).
Local Abbreviation internal := (internalTarget net_ParseIP).

(** A URL that parses and names no internal target passes. *)
Lemma validateURL_public (urlStr : string) (parsed : url.URL) :
  url_Parse urlStr = Ok parsed ->
  ~ internal (ToLower M (url.Hostname parsed)) ->
  validate urlStr = None.
Proof.
  intros Hp Hn. unfold validateURL. rewrite Hp.
  set (host := ToLower M (url.Hostname parsed)) in *.
  unfold internalTarget in Hn.
  destruct (String.eqb_spec host "localhost") as [E | _]; [elim Hn; tauto|].
  destruct (String.eqb_spec host "127.0.0.1") as [E | _]; [elim Hn; tauto|].
  destruct (String.eqb_spec host "::1") as [E | _]; [elim Hn; tauto|].
  destruct (HasSuffix host ".local") eqn:E1; [elim Hn; tauto|].
  destruct (HasSuffix host ".internal") eqn:E2; [elim Hn; tauto|].
  cbn [orb].
  destruct (net_ParseIP host) as [ip|] eqn:Hip.
  - destruct (net.IsLoopback ip) eqn:I1;
      [elim Hn; do 5 right; left; exists ip; tauto|].
    destruct (net.IsPrivate ip) eqn:I2;
      [elim Hn; do 5 right; left; exists ip; tauto|].
    destruct (net.IsLinkLocalUnicast ip) eqn:I3;
      [elim Hn; do 5 right; left; exists ip; tauto|].
    destruct (net.IsLinkLocalMulticast ip) eqn:I4;
      [elim Hn; do 5 right; left; exists ip; tauto|].
    cbn [orb].
    destruct (String.eqb_spec host "169.254.169.254") as [E | _]; [elim Hn; tauto|].
    destruct (String.eqb_spec host "metadata.google.internal") as [E | _];
      [elim Hn; tauto|].
    destruct (String.eqb_spec host "metadata.azure.com") as [E | _]; [elim Hn; tauto|].
    reflexivity.
  - destruct (String.eqb_spec host "169.254.169.254") as [E | _]; [elim Hn; tauto|].
    destruct (String.eqb_spec host "metadata.google.internal") as [E | _];
      [elim Hn; tauto|].
    destruct (String.eqb_spec host "metadata.azure.com") as [E | _]; [elim Hn; tauto|].
    reflexivity.
Qed.

End Validation.

Section Facts.
Variable M : string -> string.
Variable url_Parse : string -> Result url.URL.
Variable net_ParseIP : string -> option net.IP.
Variable NewRequestWithContext : string -> string -> Result http.Request.
Variable cache_FetchURL : Client -> http.Request -> Result string.
Variable parseHTML : string -> string -> Profile.

Local Abbreviation validate := (validateURL M url_Parse net_ParseIP).
Local Abbreviation fetch :=
  (Fetch M url_Parse net_ParseIP NewRequestWithContext cache_FetchURL parseHTML).

(** Fetch once the URL passed validateURL. *)
Lemma Fetch_accepted (c : Client) (urlStr : string) :
  validate (withScheme urlStr) = None ->
  fetch c urlStr
  = (emit (LogInfo "fetching generic website" [("url", withScheme urlStr)]) ;;;
     req <- lift (NewRequestWithContext http.MethodGet (withScheme urlStr)) ;;
     emit (FetchURL (browserRequest req)) ;;;
     body <- lift (cache_FetchURL c (browserRequest req)) ;;
     ret (parseHTML body (withScheme urlStr))).
Proof. intros Hv. unfold Fetch. now rewrite Hv. Qed.

Lemma Fetch_trace (c : Client) (urlStr : string) :
  snd (fetch c urlStr) = []
  \/ (validate (withScheme urlStr) = None
      /\ (snd (fetch c urlStr)
          = [LogInfo "fetching generic website" [("url", withScheme urlStr)]]
          \/ exists req,
              NewRequestWithContext http.MethodGet (withScheme urlStr) = Ok req
              /\ snd (fetch c urlStr)
                 = [LogInfo "fetching generic website" [("url", withScheme urlStr)];
                    FetchURL (browserRequest req)])).
Proof.
  destruct (validate (withScheme urlStr)) as [e|] eqn:Hv.
  - left. unfold Fetch. now rewrite Hv.
  - right. split; [reflexivity|]. rewrite (Fetch_accepted c urlStr Hv), IOFacts.bind_emit.
    destruct (NewRequestWithContext http.MethodGet (withScheme urlStr)) as [req | e];
      [|left; reflexivity].
    right. exists req. split; [reflexivity|].
    rewrite IOFacts.bind_lift_Ok, IOFacts.bind_emit.
    now destruct (cache_FetchURL c (browserRequest req)).
Qed.
End Facts.

End genericMore.

(** X28.  validateURL refuses nothing but what it is there to refuse: it
    returns nil exactly for the URLs that url.Parse accepts and whose host
    name, in lower case, is no internal target (not a local name, not under
    .local or .internal, not a loopback, private or link-local address, not
    a metadata endpoint). *)
Theorem generic_validateURL_exact
  (M : string -> string)
  (url_Parse : string -> Result url.URL)
  (net_ParseIP : string -> option net.IP) (urlStr : string) :
  generic.validateURL M url_Parse net_ParseIP urlStr = None
  <-> exists parsed,
        url_Parse urlStr = Ok parsed
        /\ ~ generic.internalTarget net_ParseIP (GoStrings.ToLower M (url.Hostname parsed)).
Proof.
  split.
  - apply genericFacts.validateURL_accepts.
  - intros (parsed & Hp & Hn). now apply (genericMore.validateURL_public _ _ _ _ parsed).
Qed.

(** X29.  The generic Fetch asks cache.FetchURL only for a URL it validated,
    and at most once: every request in its trace was built for the URL with
    its scheme, that URL passed validateURL, and the trace holds no other
    request. *)
Theorem generic_Fetch_requests_validated
  (M : string -> string)
  (url_Parse : string -> Result url.URL)
  (net_ParseIP : string -> option net.IP)
  (NewRequestWithContext : string -> string -> Result http.Request)
  (cache_FetchURL : generic.Client -> http.Request -> Result string)
  (parseHTML : string -> string -> profile.Profile)
  (c : generic.Client) (urlStr : string) :
  (length (List.filter IO.isHTTP
             (snd (generic.Fetch M url_Parse net_ParseIP NewRequestWithContext
                     cache_FetchURL parseHTML c urlStr))) <= 1)%nat
  /\ forall ev,
      In ev (snd (generic.Fetch M url_Parse net_ParseIP NewRequestWithContext
                    cache_FetchURL parseHTML c urlStr)) ->
      IO.isHTTP ev = true ->
      generic.validateURL M url_Parse net_ParseIP (generic.withScheme urlStr) = None
      /\ exists req,
          NewRequestWithContext http.MethodGet (generic.withScheme urlStr) = Ok req
          /\ ev = IO.FetchURL (generic.browserRequest req).
Proof.
  destruct (genericMore.Fetch_trace M url_Parse net_ParseIP NewRequestWithContext
              cache_FetchURL parseHTML c urlStr)
    as [-> | [Hv [-> | (req & Hr & ->)]]].
  - split; [cbn; lia | intros ev []].
  - split; [cbn; lia|]. intros ev [<- | []]. discriminate.
  - split; [cbn; lia|]. intros ev [<- | [<- | []]]; [discriminate|].
    intros _. split; [exact Hv|]. now exists req.
Qed.

(** ** Command extract-cookies *)

Module extractcookiesFacts.
Import extractcookies.

Lemma sublist_map {A B : Type} (f : A -> B) (l1 l2 : list A) :
  sublist l1 l2 -> sublist (map f l1) (map f l2).
Proof. induction 1; simpl; constructor; assumption. Qed.

Lemma NoDup_all_equal {A : Type} (x : A) (l : list A) :
  NoDup l -> Forall (eq x) l -> (length l <= 1)%nat.
Proof.
  intros Hnd Hall. destruct l as [|a [|b r]]; simpl; try lia.
  exfalso. inversion Hall as [|? ? <- Hall']; subst.
  inversion Hall' as [|? ? <- _]; subst.
  inversion Hnd as [|? ? Hin _]; subst. apply Hin. left.
Qed.

(** No platform is listed twice. *)
Lemma platforms_NoDup : NoDup (map name platforms).
Proof.
  apply NoDup_ListNoDup. repeat constructor; simpl; intuition discriminate.
Qed.

Section Facts.
Variable source_Cookies : string -> Result (gmap string string).
Variable platformFilter : string.

(** What the loop adds to its two accumulators. *)
Lemma extractLoop_adds (ps : list platform) :
  forall results trace,
  exists R T,
    extractLoop source_Cookies ps platformFilter results trace
    = ((results ++ R)%list, (trace ++ T)%list)
    /\ sublist (map platformOf R) ps
    /\ Forall (fun r => source_Cookies (name (platformOf r)) = Ok (cookiesOf r)
                         /\ cookiesOf r <> ∅) R
    /\ (forall n, In (ReadCookies n) T -> In n (map name ps))
    /\ (platformFilter <> EmptyString ->
        Forall (fun r => platformFilter = name (platformOf r)) R
        /\ forall n, In (ReadCookies n) T -> n = platformFilter).
Proof.
  induction ps as [|p ps IH]; intros results trace.
  - exists [], []. simpl. rewrite !app_nil_r.
    repeat split; try constructor; intros n [].
  - cbn [extractLoop].
    destruct (negb (String.eqb platformFilter EmptyString)
              && negb (String.eqb (name p) platformFilter)) eqn:Hf.
    + destruct (IH results trace) as (R & T & -> & Hs & Hr & Hn & Hflt).
      exists R, T. repeat split; trivial.
      * now apply sublist_cons.
      * intros n Hin. right. now apply Hn.
      * now apply Hflt.
      * now apply Hflt.
    + assert (Hp : platformFilter <> EmptyString -> name p = platformFilter).
      { intros Hne. apply String.eqb_neq in Hne. rewrite Hne in Hf. cbn in Hf.
        apply negb_false_iff, String.eqb_eq in Hf. exact Hf. }
      destruct (source_Cookies (name p)) as [found | err] eqn:Hsrc.
      * destruct (0 <? size found)%nat eqn:Hsz.
        -- destruct (IH (results ++ [{| cookiesOf := found; platformOf := p |}])%list
                       (trace ++ [ReadCookies (name p)])%list)
             as (R & T & -> & Hs & Hr & Hn & Hflt).
           exists ({| cookiesOf := found; platformOf := p |} :: R),
                  (ReadCookies (name p) :: T).
           rewrite <- !app_assoc. repeat split; trivial.
           ++ simpl. now apply sublist_skip.
           ++ constructor; [|exact Hr]. split; [exact Hsrc|]. cbn.
              intros ->. rewrite map_size_empty in Hsz. discriminate.
           ++ intros n [[= <-] | Hin]; [now left | right; now apply Hn].
           ++ constructor; [symmetry; now apply Hp | now apply Hflt].
           ++ intros n [[= <-] | Hin]; [now apply Hp | now apply Hflt].
        -- destruct (IH results (trace ++ [ReadCookies (name p)])%list)
             as (R & T & -> & Hs & Hr & Hn & Hflt).
           exists R, (ReadCookies (name p) :: T).
           rewrite <- !app_assoc. repeat split; trivial.
           ++ now apply sublist_cons.
           ++ intros n [[= <-] | Hin]; [now left | right; now apply Hn].
           ++ now apply Hflt.
           ++ intros n [[= <-] | Hin]; [now apply Hp | now apply Hflt].
      * destruct (IH results
                    (trace ++ [ReadCookies (name p);
                               LogDebug "failed to read cookies"
                                 [("platform", name p); ("error", err)]])%list)
          as (R & T & -> & Hs & Hr & Hn & Hflt).
        exists R, (ReadCookies (name p)
                   :: LogDebug "failed to read cookies"
                        [("platform", name p); ("error", err)] :: T).
        rewrite <- !app_assoc. repeat split; trivial.
        -- now apply sublist_cons.
        -- intros n [[= <-] | [[=] | Hin]]; [now left | right; now apply Hn].
        -- now apply Hflt.
        -- intros n [[= <-] | [[=] | Hin]]; [now apply Hp | now apply Hflt].
Qed.
End Facts.

Example two_logins :
  map (fun r => name (platformOf r)) (fst (extractCookies samples.browser EmptyString))
  = ["linkedin"; "twitter"]
  /\ map (fun r => name (platformOf r)) (fst (extractCookies samples.browser "twitter"))
     = ["twitter"]
  /\ extractCookies samples.browser "github" = ([], []).
Proof. vm_compute. repeat split; reflexivity. Qed.

End extractcookiesFacts.

(** X30.  extractCookies reads the browser only for the platforms asked for.
    Its results follow the order of the table of platforms, each holds what
    the browser returned for its platform and at least one cookie, and the
    browser is read for listed platforms only.  With a platform filter there
    is at most one result, it is for the platform of that name, and the
    cookies of no other platform are read. *)
Theorem extractCookies_filter
  (source_Cookies : string -> Result (gmap string string)) (platformFilter : string) :
  sublist
    (map extractcookies.platformOf
       (fst (extractcookies.extractCookies source_Cookies platformFilter)))
    extractcookies.platforms
  /\ Forall (fun r =>
               source_Cookies (extractcookies.name (extractcookies.platformOf r))
               = Ok (extractcookies.cookiesOf r)
               /\ extractcookies.cookiesOf r <> ∅)
       (fst (extractcookies.extractCookies source_Cookies platformFilter))
  /\ (forall n,
         In (extractcookies.ReadCookies n)
           (snd (extractcookies.extractCookies source_Cookies platformFilter)) ->
         In n (map extractcookies.name extractcookies.platforms))
  /\ (platformFilter <> EmptyString ->
      (length (fst (extractcookies.extractCookies source_Cookies platformFilter)) <= 1)%nat
      /\ Forall (fun r =>
                   platformFilter = extractcookies.name (extractcookies.platformOf r))
           (fst (extractcookies.extractCookies source_Cookies platformFilter))
      /\ forall n,
          In (extractcookies.ReadCookies n)
            (snd (extractcookies.extractCookies source_Cookies platformFilter)) ->
          n = platformFilter).
Proof.
  unfold extractcookies.extractCookies.
  destruct (extractcookiesFacts.extractLoop_adds source_Cookies platformFilter
              extractcookies.platforms [] [])
    as (R & T & -> & Hs & Hr & Hn & Hflt).
  cbn [fst snd app]. repeat split; trivial.
  - destruct (Hflt H) as [Hall _].
    rewrite <- (length_map (fun r => extractcookies.name (extractcookies.platformOf r))).
    apply (extractcookiesFacts.NoDup_all_equal platformFilter).
    + rewrite <- (map_map extractcookies.platformOf extractcookies.name).
      pose proof (extractcookiesFacts.sublist_map extractcookies.name _ _ Hs) as Hs'.
      exact (sublist_NoDup _ _ extractcookiesFacts.platforms_NoDup Hs').
    + apply Forall_map. exact Hall.
  - now apply Hflt.
  - now apply Hflt.
Qed.
